(** * SandboxFusion: dataset adapters, embedded grading harness and client SDK

    A shallow embedding of the parts of
    [sandbox/datasets/aider_benchmark.py], [sandbox/datasets/mhpp.py],
    [sandbox/datasets/live_code_bench.py] and
    [sandbox_fusion/client.py] that the specification makes claims about,
    followed by the theorems that settle those claims.

    Conventions.
    - A Python [str] is a Rocq [string]; one [ascii] is one code point below
      256, so the case and white-space tables below are Python's tables
      restricted to that range.
    - A Python [int] is a [Z].
    - A call that may raise returns an [outcome]; code that also logs or talks
      to the network runs in the state-and-error monad [Client.M].
    - Dictionaries with string keys are [gmap string _]; dictionaries whose
      order of insertion is observed are association lists. *)

From Stdlib Require Import String Ascii List ZArith Lia Bool DecimalString.
From stdpp Require Import base option gmap strings.
Import ListNotations.
Open Scope string_scope.

(* ===================================================================== *)
(** * Part I: definitions                                                 *)
(* ===================================================================== *)

(** ** Python values and built-ins used by the sources *)

Module Py.

(** The characters that cannot be typed inside a Rocq string literal. *)
Definition LF : ascii := ascii_of_nat 10.
Definition HT : ascii := ascii_of_nat 9.
Definition NL : string := String LF "".
Definition TAB : string := String HT "".
Definition DQ : string := String (ascii_of_nat 34) "".

(** Exceptions.  [except Exception] catches [ExceptionClass] only;
    [SystemExit] and the other direct subclasses of [BaseException]
    (KeyboardInterrupt, GeneratorExit) pass through it. *)
Inductive exn_class := ExceptionClass | SystemExitClass | OtherBaseClass.

Record exn := MkExn {
  exn_kind : exn_class;
  exn_repr : string;   (* repr(e) *)
  exn_str : string     (* str(e)  *)
}.

Definition is_Exception (e : exn) : bool :=
  match exn_kind e with ExceptionClass => true | _ => false end.

(** [Exception(msg)] as the sources raise it. *)
Definition Exception (msg : string) : exn :=
  MkExn ExceptionClass ("Exception('" ++ msg ++ "')") msg.

Inductive outcome (A : Type) : Type :=
| Ret (a : A)
| Raise (e : exn).
Arguments Ret {A} a.
Arguments Raise {A} e.

#[global] Instance outcome_ret : MRet outcome := fun _ a => Ret a.
#[global] Instance outcome_bind : MBind outcome := fun _ _ k m =>
  match m with Ret a => k a | Raise e => Raise e end.

(** A list comprehension whose element expression may raise: the first
    fault ends it. *)
Fixpoint traverse {A B} (f : A -> outcome B) (l : list A) : outcome (list B) :=
  match l with
  | [] => Ret []
  | x :: xs => y ← f x; ys ← traverse f xs; Ret (y :: ys)
  end.

(** [try: m  except Exception as e: h e] *)
Definition try_except {A} (m : outcome A) (h : exn -> outcome A) : outcome A :=
  match m with
  | Ret a => Ret a
  | Raise e => if is_Exception e then h e else Raise e
  end.

(** [x or d] on an optional number: [None] and [0] are falsy. *)
Definition or_int (x : option Z) (d : Z) : Z :=
  match x with
  | Some v => if (v =? 0)%Z then d else v
  | None => d
  end.

(** [x or d] on an optional string: [None] and [''] are falsy. *)
Definition or_str (x : option string) (d : string) : string :=
  match x with
  | Some "" => d
  | Some v => v
  | None => d
  end.

(** [str(n)] for an [int]. *)
Definition str_of_int (n : Z) : string :=
  NilEmpty.string_of_int (Z.to_int n).

(** [s[:n]] and [s[n:]] for a natural [n]. *)
Fixpoint take (n : nat) (s : string) : string :=
  match n, s with
  | S n', String c s' => String c (take n' s')
  | _, _ => ""
  end.

Fixpoint drop (n : nat) (s : string) : string :=
  match n, s with
  | S n', String _ s' => drop n' s'
  | _, _ => s
  end.

(** The start index Python computes for a slice bound [k] on a sequence of
    length [len]: negative bounds count from the end, and both ends are
    clamped. *)
Definition slice_index (len : nat) (k : Z) : nat :=
  if (k <? 0)%Z then Z.to_nat (Z.max (Z.of_nat len + k) 0)
  else Nat.min (Z.to_nat k) len.

(** [s[:k]] and [s[k:]] for an integer [k]. *)
Definition slice_to (k : Z) (s : string) : string :=
  take (slice_index (String.length s) k) s.

Definition slice_from (k : Z) (s : string) : string :=
  drop (slice_index (String.length s) k) s.

(** [s.startswith(p)] *)
Definition startswith (p s : string) : bool := String.prefix p s.

(** [sub in s] *)
Fixpoint contains (sub s : string) : bool :=
  startswith sub s ||
  match s with
  | "" => false
  | String _ s' => contains sub s'
  end.

(** [s.split(sep)] for a separator of one character. *)
Fixpoint split (sep : ascii) (s : string) : list string :=
  match s with
  | "" => [""]
  | String c s' =>
      if Ascii.eqb c sep then "" :: split sep s'
      else match split sep s' with
           | w :: ws => String c w :: ws
           | [] => [String c ""]
           end
  end.

(** [''.join(l)] *)
Definition cat (l : list string) : string := fold_right String.append "" l.

(** [sep.join(l)] *)
Definition join (sep : string) (l : list string) : string :=
  String.concat sep l.

(** [s.count(c)] for a pattern of one character. *)
Fixpoint count (c : ascii) (s : string) : nat :=
  match s with
  | "" => 0
  | String d s' => (if Ascii.eqb d c then 1 else 0) + count c s'
  end.

(** [c.isspace()] below code point 256. *)
Definition isspace (c : ascii) : bool :=
  let n := nat_of_ascii c in
  (((9 <=? n) && (n <=? 13)) || ((28 <=? n) && (n <=? 32))
   || (n =? 133) || (n =? 160))%nat.

Fixpoint lstrip (s : string) : string :=
  match s with
  | String c s' => if isspace c then lstrip s' else s
  | "" => ""
  end.

Fixpoint rstrip (s : string) : string :=
  match s with
  | "" => ""
  | String c s' =>
      match rstrip s' with
      | "" => if isspace c then "" else String c ""
      | r => String c r
      end
  end.

(** [s.strip()] *)
Definition strip (s : string) : string := rstrip (lstrip s).

(** [c.lower()] below code point 256: A-Z and the accented capitals
    192..222 except the multiplication sign 215. *)
Definition lower_char (c : ascii) : ascii :=
  let n := nat_of_ascii c in
  if (((65 <=? n) && (n <=? 90))
      || ((192 <=? n) && (n <=? 222) && negb (n =? 215)))%nat
  then ascii_of_nat (n + 32) else c.

Fixpoint lower (s : string) : string :=
  match s with
  | "" => ""
  | String c s' => String (lower_char c) (lower s')
  end.

(** [s.replace(old, new)]: every occurrence of [old], scanning left to
    right without overlap; the inserted text is not scanned again.  [skip]
    counts the characters of a matched occurrence still to be consumed.
    For an empty [old] Python inserts [new] before every character and at
    the end. *)
Fixpoint replace_from (old new : string) (skip : nat) (s : string) : string :=
  match s with
  | "" => ""
  | String c s' =>
      match skip with
      | S k => replace_from old new k s'
      | O =>
          if startswith old s
          then new ++ replace_from old new (String.length old - 1) s'
          else String c (replace_from old new 0 s')
      end
  end.

Fixpoint intersperse (new : string) (s : string) : string :=
  match s with
  | "" => new
  | String c s' => new ++ String c (intersperse new s')
  end.

Definition replace (old new s : string) : string :=
  match old with
  | "" => intersperse new s
  | _ => replace_from old new 0 s
  end.

End Py.

(** ** The embedded grading harness ([TEST_UTIL] of live_code_bench.py) *)

Module Harness.
Import Py.

(** [truncatefn(s, length=300)] *)
Definition truncatefn (s : string) (length : Z) : string :=
  if (Z.of_nat (String.length s) <=? length)%Z then s
  else slice_to (length / 2) s ++ "...(truncated) ..."
       ++ slice_from ((- length) / 2) s.

Inductive CODE_TYPE := call_based | standard_input.

(** *** The standard-input source transform (run_test, lines 209-233) *)

Definition is_import_line (x : string) : bool :=
  startswith "from " x || startswith "import " x.

(** First loop: tag every line that is not an import with a leading tab. *)
Definition tag_line (x : string) : string :=
  if negb (startswith "from " x) && negb (startswith "import " x)
  then TAB ++ x ++ NL
  else x ++ NL.

Definition code_header : string :=
  "stdin = sys.stdin" ++ NL ++ "stdout = sys.stdout" ++ NL
  ++ "def code():" ++ NL.

(** Second loop: one iteration on the pair [(new_test, started)]. *)
Definition wrap_step (acc : string * bool) (i : string) : string * bool :=
  let '(new_test, started) := acc in
  if startswith TAB i && negb started then
    (new_test ++ code_header ++ i, true)
  else if started && (startswith "from " i || startswith "import " i) then
    (new_test ++ TAB ++ i, started)
  else
    (new_test ++ i, started).

Definition stdin_transform (test : string) : string :=
  let tmp_test := map tag_line (split LF test) in
  fst (fold_left wrap_step tmp_test ("", false)).

(** The import block every candidate is prefixed with ([sol]). *)
Definition star_modules : list string :=
  ["string"; "re"; "datetime"; "collections"; "heapq"; "bisect"; "copy";
   "math"; "random"; "statistics"; "itertools"; "functools"; "operator";
   "io"; "sys"; "json"; "builtins"; "typing"].

Definition plain_modules : list string :=
  ["string"; "re"; "datetime"; "collections"; "heapq"; "bisect"; "copy";
   "math"; "random"; "statistics"; "itertools"; "functools"; "operator";
   "io"; "sys"; "json"].

Definition sol_prelude : string :=
  String.concat "" (map (fun m => "from " ++ m ++ " import *" ++ NL) star_modules)
  ++ String.concat "" (map (fun m => "import " ++ m ++ NL) plain_modules)
  ++ "sys.setrecursionlimit(6*10**5)" ++ NL.

(** Entries of [results]: [True] or [False], a plain int, or any other
    object, which call-based mode can put there since it appends whatever the
    comparison of the output gave. *)
Inductive entry (V : Type) :=
| EBool (b : bool)
| EInt (z : Z)
| EObj (v : V).
Arguments EBool {V} b.
Arguments EInt {V} z.
Arguments EObj {V} v.

(** *** What the harness does not define itself

    The candidate program, the Python object model and the comparison
    cascade are taken as an interface.  A module value is the candidate's
    namespace with whatever state it keeps between test cases.  Where the
    alarm is armed, the fault a function of the interface raises may be the
    [TimeoutException] of the alarm. *)
Record Runtime := {
  value : Type;
  module : Type;
  (** lines 195-207: drop a trailing [if __name__ == '__main__':] guard *)
  unwrap_main : string -> string;
  (** [RuntimeModule.from_string] on the assembled source [sol] *)
  from_string : string -> outcome module;
  (** [tmp_sol.Solution()] *)
  new_Solution : module -> outcome module;
  (** [getattr(tmp, method_name)] *)
  get_attr : module -> string -> outcome unit;
  (** [repr(sys.exc_info())] for the fault being handled *)
  exc_info_repr : exn -> string;
  json_loads : string -> outcome value;
  (** lines 288-292 and 293-306: string keys of a dict back to ints; both
      swallow every fault *)
  coerce_inputs : list value -> list value;
  coerce_expected : value -> value;
  (** the call-based entry point applied to the decoded arguments *)
  call : module -> string -> list value -> outcome value * module;
  (** lines 317-343 on [output] and the expected value: [tmp_result],
      whatever [==] and [or] made it, and [json.dumps(output)], or the fault
      they raise *)
  judge_call : value -> value -> outcome (entry value * string);
  (** [x != True] as a condition, for an object that is neither a bool nor
      a plain int: its truth value or the fault it raises, taken to be the
      same each time the same object is asked *)
  obj_ne_True : value -> outcome bool;
  (** the wrapped [code()] run on the given standard input: what it
      raised, if anything, and what it printed *)
  run_code : module -> string -> outcome unit * string * module;
  (** lines 425-652 on the captured output and the expected text: whether
      one of the comparisons accepts *)
  judge_stdin : string -> string -> bool
}.

(** The decoded [sample["input_output"]]. *)
Record InOuts := {
  inputs : list string;
  outputs : list string;
  fn_name : option string
}.

(** Values of the diagnostic dictionary. *)
Inductive dval := DStr (s : string) | DInt (z : Z).

Section run_test.
Context (R : Runtime).

Record lstate := {
  results : list (entry (value R));
  tmp : module R;
  invoked : list nat   (* indices on which the candidate was invoked *)
}.

Inductive flow :=
| Next
| Return (d : gmap string dval)
| Propagate (e : exn).

Definition append (x : entry (value R)) (st : lstate) : lstate :=
  {| results := results st ++ [x]; tmp := tmp st; invoked := invoked st |}.

Definition enter (index : nat) (m : module R) (st : lstate) : lstate :=
  {| results := results st; tmp := m; invoked := invoked st ++ [index] |}.

(** The handler shared by lines 355-378 and 401-423. *)
Definition fault_diag (e : exn) (raw_inputs raw_outputs : string)
  : gmap string dval :=
  if contains "timeoutexception" (lower (exn_repr e)) then
    {[ "error" := DStr (exn_repr e);
       "error_code" := DInt (-3);
       "error_message" := DStr "Time Limit Exceeded";
       "inputs" := DStr raw_inputs;
       "expected" := DStr raw_outputs ]}
  else
    {[ "error" := DStr (exn_repr e);
       "error_code" := DInt (-4);
       "error_message" := DStr "Runtime Error";
       "inputs" := DStr raw_inputs;
       "expected" := DStr raw_outputs ]}.

Definition on_fault (e : exn) (raw_inputs raw_outputs : string)
    (st : lstate) : flow * lstate :=
  if is_Exception e then
    (Return (fault_diag e raw_inputs raw_outputs), append (EInt (-1)) st)
  else (Propagate e, st).

Definition wrong_answer (output raw_outputs raw_inputs : string)
  : gmap string dval :=
  {[ "output" := DStr output;
     "expected" := DStr raw_outputs;
     "inputs" := DStr raw_inputs;
     "error_code" := DInt (-2);
     "error_message" := DStr "Wrong Answer" ]}.

(** Truncation of the raw input in call-based mode (lines 276-283). *)
Definition truncate_call_inputs (raw_inputs : string) : string :=
  let truncate_line_size := (300 / (Z.of_nat (count LF raw_inputs) + 1))%Z in
  join NL (map (fun line => truncatefn line truncate_line_size)
               (split LF (strip raw_inputs))).

(** [x != True] as the condition of an [if] or of [any]. *)
Definition ne_True (x : entry (value R)) : outcome bool :=
  match x with
  | EBool b => Ret (negb b)
  | EInt z => Ret (negb (z =? 1)%Z)
  | EObj v => obj_ne_True R v
  end.

(** One iteration of the loop in call-based mode.  The entry is appended
    at line 344, before line 345 asks whether it differs from [True]: a fault
    raised there is caught by the same handler, which appends -1 after the
    entry. *)
Definition step_call_based (method_name : string) (io : InOuts)
    (index : nat) (inputs0 : string) (st : lstate) : flow * lstate :=
  match nth_error (outputs io) index with
  | None => (Propagate (MkExn ExceptionClass
               "IndexError('list index out of range')"
               "list index out of range"), st)
  | Some raw_outputs0 =>
    match traverse (json_loads R) (split LF inputs0) with
    | Raise e => (Propagate e, st)
    | Ret args =>
      match json_loads R raw_outputs0 with
      | Raise e => (Propagate e, st)
      | Ret expected =>
        let raw_inputs := truncate_call_inputs inputs0 in
        let raw_outputs := truncatefn raw_outputs0 200 in
        let args := coerce_inputs R args in
        let expected := coerce_expected R expected in
        let '(r, m) := call R (tmp st) method_name args in
        let st := enter index m st in
        match r with
        | Raise e => on_fault e raw_inputs raw_outputs st
        | Ret output =>
          match judge_call R output expected with
          | Raise e => on_fault e raw_inputs raw_outputs st
          | Ret (tmp_result, dumped) =>
            let st := append tmp_result st in
            match ne_True tmp_result with
            | Raise e => on_fault e raw_inputs raw_outputs st
            | Ret true =>
                (Return (wrong_answer (truncatefn dumped 200)
                           raw_outputs raw_inputs), st)
            | Ret false => (Next, st)
            end
          end
        end
      end
    end
  end.

(** [call_method]: a [SystemExit] of the candidate is swallowed. *)
Definition call_method (m : module R) (inputs0 : string)
  : outcome unit * string * module R :=
  let '(r, out, m') := run_code R m inputs0 in
  match r with
  | Raise e =>
      match exn_kind e with
      | SystemExitClass => (Ret tt, out, m')
      | _ => (Raise e, out, m')
      end
  | Ret u => (Ret u, out, m')
  end.

(** One iteration of the loop in standard-input mode. *)
Definition step_standard_input (io : InOuts)
    (index : nat) (inputs0 : string) (st : lstate) : flow * lstate :=
  match nth_error (outputs io) index with
  | None => (Propagate (MkExn ExceptionClass
               "IndexError('list index out of range')"
               "list index out of range"), st)
  | Some raw_outputs0 =>
    let raw_inputs := truncatefn inputs0 300 in
    let raw_outputs := truncatefn raw_outputs0 200 in
    let '(r, out, m) := call_method (tmp st) inputs0 in
    let st := enter index m st in
    match r with
    | Raise e => on_fault e raw_inputs raw_outputs st
    | Ret _ =>
      if judge_stdin R out raw_outputs0 then (Next, append (EBool true) st)
      else
        (Return (wrong_answer (truncatefn out 200) raw_outputs raw_inputs),
         append (EBool false) st)
    end
  end.

Definition step (which_type : CODE_TYPE) (method_name : string)
    (io : InOuts) : nat -> string -> lstate -> flow * lstate :=
  match which_type with
  | call_based => step_call_based method_name io
  | standard_input => step_standard_input io
  end.

(** [for index, inputs in enumerate(in_outs["inputs"])] *)
Fixpoint run_cases (body : nat -> string -> lstate -> flow * lstate)
    (index : nat) (cases : list string) (st : lstate) : flow * lstate :=
  match cases with
  | [] => (Next, st)
  | x :: rest =>
      match body index x st with
      | (Next, st') => run_cases body (S index) rest st'
      | stop => stop
      end
  end.

Definition compile_error (e : exn) : gmap string dval :=
  {[ "error" := DStr (exn_repr e);
     "error_code" := DInt (-1);
     "error_message" := DStr "Compilation Error" ]}.

Definition extract_error (e : exn) : gmap string dval :=
  {[ "error" := DStr (exc_info_repr R e);
     "error_code" := DInt (-1);
     "error_message" := DStr "Unable to extract code" ]}.

(** Lines 167-252: the module the entry point is looked up in. *)
Definition load (which_type : CODE_TYPE) (test : string)
  : outcome (module R) :=
  match which_type with
  | call_based =>
      tmp_sol ← from_string R (sol_prelude ++ test);
      if negb (contains "class Solution" test) then Ret tmp_sol
      else new_Solution R tmp_sol
  | standard_input =>
      from_string R (sol_prelude ++ stdin_transform (unwrap_main R test))
  end.

Definition which (io : InOuts) : CODE_TYPE * string :=
  match fn_name io with
  | None => (standard_input, "code")
  | Some f => (call_based, f)
  end.

(** [results = []] with the entry point resolved in [m]. *)
Definition start (m : module R) : lstate :=
  {| results := []; tmp := m; invoked := [] |}.

(** [run_test(sample, test, debug=False, timeout)], with the final loop
    state kept for the invocation log. *)
Definition run_test_state (io : InOuts) (test : string)
  : option (flow * lstate)
    * outcome (list (entry (value R)) * gmap string dval) :=
  let '(which_type, method_name) := which io in
  match load which_type test with
  | Raise e =>
      if is_Exception e then (None, Ret ([EInt (-2)], compile_error e))
      else (None, Raise e)
  | Ret m =>
      match get_attr R m method_name with
      | Raise e => (None, Ret ([EInt (-2)], extract_error e))
      | Ret _ =>
          let fin := run_cases (step which_type method_name io) 0 (inputs io)
                       (start m) in
          (Some fin,
           match fin with
           | (Next, st) => Ret (results st, ∅)
           | (Return d, st) => Ret (results st, d)
           | (Propagate e, _) => Raise e
           end)
      end
  end.

Definition run_test (io : InOuts) (test : string)
  : outcome (list (entry (value R)) * gmap string dval) :=
  snd (run_test_state io test).

(** The indices on which the candidate was invoked during the run. *)
Definition run_test_invoked (io : InOuts) (test : string) : list nat :=
  match fst (run_test_state io test) with
  | Some (_, st) => invoked st
  | None => []
  end.

End run_test.

End Harness.

(** ** The shared data model ([sandbox.datasets.types], [sandbox_fusion.models]) *)

Module Types.
Import Py.

(** Decoded JSON.  Numbers that are not integers keep their text. *)
#[warnings="-register-all"]
Inductive json :=
| JNull
| JBool (b : bool)
| JInt (z : Z)
| JFloat (text : string)
| JStr (s : string)
| JArr (l : list json)
| JObj (fields : list (string * json)).

(** [d[k]] on a decoded object. *)
Fixpoint assoc (k : string) (fields : list (string * json)) : option json :=
  match fields with
  | [] => None
  | (k', v) :: rest => if String.eqb k k' then Some v else assoc k rest
  end.

Definition KeyError (k : string) : exn :=
  MkExn ExceptionClass ("KeyError('" ++ k ++ "')") ("'" ++ k ++ "'").

Definition TypeError (msg : string) : exn :=
  MkExn ExceptionClass ("TypeError('" ++ msg ++ "')") msg.

Definition AssertionError : exn :=
  MkExn ExceptionClass "AssertionError()" "".

Definition getitem (j : json) (k : string) : outcome json :=
  match j with
  | JObj fields =>
      match assoc k fields with
      | Some v => Ret v
      | None => Raise (KeyError k)
      end
  | _ => Raise (TypeError "object is not subscriptable")
  end.

(** Modelled from the spec: the declarations of [sandbox.datasets.types]
    and [sandbox_fusion.models] are not among the sources; this record and
    the ones after it carry the fields section 3 of the specification
    lists.  [TestConfig]: [run_timeout] is optional seconds. *)
Record TestConfig := {
  extra : list (string * json);
  custom_extract_logic : option string;
  run_timeout : option Z;
  is_fewshot : bool
}.

(** Modelled from the spec: [SubmitRequest], missing with the types. *)
Record SubmitRequest := {
  id : Z;
  dataset : string;
  completion : string;
  config : TestConfig
}.

(** Modelled from the spec: [RunCodeRequest], missing with the types;
    [files] maps a file name to base64 text. *)
Record RunCodeRequest := {
  code : string;
  language : string;
  req_run_timeout : Z;
  files : list (string * json)
}.

(** Modelled from the spec: [RunStatus], missing with the types. *)
Inductive RunStatus := Success | Failed | SandboxError.

Definition RunStatus_eqb (a b : RunStatus) : bool :=
  match a, b with
  | Success, Success | Failed, Failed | SandboxError, SandboxError => true
  | _, _ => false
  end.

(** Modelled from the spec: [CommandRunStatus], missing with the types.
    The sources compare against [TimeLimitExceeded] only; the other members
    are kept by name. *)
Inductive CommandRunStatus := TimeLimitExceeded | OtherStatus (name : string).

(** Modelled from the spec: the result of the compile or the run phase,
    missing with the types; the return code is optional. *)
Record CommandRunResult := {
  cmd_status : CommandRunStatus;
  return_code : option Z;
  stdout : string;
  stderr : string
}.

(** Modelled from the spec: [RunCodeResponse], missing with the types;
    both phases are optional. *)
Record RunCodeResponse := {
  status : RunStatus;
  message : string;
  compile_result : option CommandRunResult;
  run_result : option CommandRunResult
}.

(** Modelled from the spec: [SummaryMapping], missing with the types; the
    four labels besides [Success] and [Failed] are optional. *)
Record SummaryMapping := {
  map_Success : string;
  map_Failed : string;
  map_CompileFailed : option string;
  map_CompileTimeout : option string;
  map_RunFailed : option string;
  map_RunTimeout : option string
}.

(** Modelled from the spec: [EvalTestCase], missing with the types. *)
Record EvalTestCase := {
  passed : bool;
  exec_info : option RunCodeResponse;
  test_info : option json
}.

(** Modelled from the spec: [EvalResult], missing with the types;
    [full_code] and [test_code] may be left out, as [submit_safe] does. *)
Record EvalResult := {
  res_id : Z;
  accepted : bool;
  extracted_code : string;
  full_code : option string;
  test_code : option string;
  tests : list EvalTestCase
}.

End Types.

(** ** What the adapters run against *)

Module Adapter.
Import Py Types.

(** Modelled from the spec: [sandbox.database] is not among the sources.
    A table maps the primary key to a row, a row maps a column to its
    stored text (section 4.2). *)
Record State := {
  tables : gmap string (gmap Z (gmap string string));
  sent : list RunCodeRequest   (* requests handed to the sandbox so far *)
}.

(** Adapter methods read the tables, call the sandbox and may raise. *)
Definition M (A : Type) : Type := State -> outcome A * State.

#[global] Instance M_ret : MRet M := fun _ a st => (Ret a, st).
#[global] Instance M_bind : MBind M := fun _ _ k m st =>
  match m st with
  | (Ret a, st') => k a st'
  | (Raise e, st') => (Raise e, st')
  end.

Definition lift {A} (o : outcome A) : M A := fun st => (o, st).

Definition NotFound : exn :=
  MkExn ExceptionClass "NotFound()" "row not found".

Definition ConfigurationError (dataset_id : string) : exn :=
  MkExn ExceptionClass ("ConfigurationError('" ++ dataset_id ++ "')") dataset_id.

(** Modelled from the spec: [get_row_by_id_in_table(request, table,
    columns)], the row whose key is [request.id] projected to [columns]. *)
Definition get_row_by_id_in_table (request : SubmitRequest) (table : string)
    (columns : list string) : M (gmap string string) := fun st =>
  match tables st !! table ≫= (fun t => t !! id request) with
  | Some row =>
      (Ret (filter (fun kv => bool_decide (kv.1 ∈ columns)) row), st)
  | None => (Raise NotFound, st)
  end.

(** Modelled from the spec: [cls.get_table_name(dataset)] of the base
    class. *)
Definition get_table_name (table_names : gmap string string)
    (dataset_id : string) : M string :=
  lift (match table_names !! dataset_id with
        | Some t => Ret t
        | None => Raise (ConfigurationError dataset_id)
        end).

(** [row[column]] *)
Definition col (row : gmap string string) (c : string) : M string :=
  lift (match row !! c with
        | Some v => Ret v
        | None => Raise (KeyError c)
        end).

(** [{k: v}[key]] on a literal dictionary *)
Definition dict_getitem {V} (d : gmap string V) (k : string) : M V :=
  lift (match d !! k with
        | Some v => Ret v
        | None => Raise (KeyError k)
        end).

(** The services the adapters import and the sources do not define. *)
Record Env := {
  json_loads : string -> outcome json;
  json_dumps : json -> string;
  (** [pickle.loads(zlib.decompress(base64.b64decode(s)))] *)
  unpickle : string -> outcome json;
  (** [base64.b64decode(x).decode('utf-8')] *)
  b64decode : json -> outcome string;
  (** [_b64encode] *)
  b64encode : string -> string;
  (** [sandbox.utils.extraction.default_extract_helper] *)
  default_extract_helper : string -> string -> option string -> outcome string;
  (** the sandbox behind [run_code_in_sandbox] *)
  sandbox : RunCodeRequest -> outcome RunCodeResponse
}.

(** [await run_code_in_sandbox(request)] *)
Definition run_code_in_sandbox (E : Env) (r : RunCodeRequest)
    : M RunCodeResponse := fun st =>
  (sandbox E r, {| tables := tables st; sent := sent st ++ [r] |}).

End Adapter.

(** ** sandbox/datasets/aider_benchmark.py *)

Module Aider.
Import Py Types Adapter.

Definition table_names : gmap string string :=
  {[ "aider_benchmark_v1" := "code_eval_aider_benchmark_v1" ]}.

Definition get_num_problems (dataset_id : string) : M Z :=
  dict_getitem ({[ "aider_benchmark_v1" := 133%Z ]} : gmap string Z) dataset_id.

(** [asset.values()] *)
Definition values (j : json) : outcome (list json) :=
  match j with
  | JObj fields => Ret (map snd fields)
  | _ => Raise (TypeError "object has no attribute values")
  end.

Definition items (j : json) : list (string * json) :=
  match j with
  | JObj fields => fields
  | _ => []
  end.

Definition as_str (j : json) : outcome string :=
  match j with
  | JStr s => Ret s
  | _ => Raise (TypeError "object has no attribute replace")
  end.

Definition evaluate_single (E : Env) (request : SubmitRequest) : M EvalResult :=
  table ← get_table_name table_names (dataset request);
  row ← get_row_by_id_in_table request table ["id"; "labels"; "content"; "test"];
  labels_text ← col row "labels";
  labels ← lift (json_loads E labels_text);
  test_text ← col row "test";
  test ← lift (json_loads E test_text);
  test_code ← lift (getitem test "code");
  asset ← lift (getitem test "asset");
  asset_values ← lift (values asset);
  real_test_code ← lift (traverse (b64decode E) asset_values);
  code ← lift (default_extract_helper E (completion request) "python"
                 (custom_extract_logic (config request)));
  template ← lift (as_str test_code);
  let full_code := replace "#<INSERT>" code template in
  result ← run_code_in_sandbox E
    {| Types.code := full_code;
       language := "python";
       req_run_timeout := or_int (run_timeout (config request)) 60;
       files := items asset |};
  let accepted := RunStatus_eqb (status result) Success in
  mret {| res_id := id request;
          accepted := accepted;
          extracted_code := code;
          full_code := Some full_code;
          test_code := Some (join (NL ++ NL) real_test_code);
          tests := [ {| passed := accepted;
                        exec_info := Some result;
                        test_info := None |} ] |}.

End Aider.

(** ** sandbox/datasets/mhpp.py *)

Module MHPP.
Import Py Types Adapter.

Definition table_names : gmap string string :=
  {[ "mhpp" := "code_eval_mhpp" ]}.

Definition get_num_problems (dataset_id : string) : M Z :=
  dict_getitem ({[ "mhpp" := 140%Z ]} : gmap string Z) dataset_id.

Definition evaluate_single (E : Env) (request : SubmitRequest) : M EvalResult :=
  table ← get_table_name table_names (dataset request);
  row ← get_row_by_id_in_table request table ["id"; "content"; "test"; "labels"];
  labels_text ← col row "labels";
  labels ← lift (json_loads E labels_text);
  test ← col row "test";
  code ← lift (default_extract_helper E (completion request) "python"
                 (custom_extract_logic (config request)));
  code ← (if negb (String.eqb (strip code) "") then mret code
          else
            content ← col row "content";
            lift (default_extract_helper E (content ++ NL ++ completion request)
                    "python" (custom_extract_logic (config request))));
  let full_code := code ++ NL ++ test in
  result ← run_code_in_sandbox E
    {| Types.code := full_code;
       language := "python";
       req_run_timeout := or_int (run_timeout (config request)) 20;
       files := [] |};
  let accepted := RunStatus_eqb (status result) Success in
  mret {| res_id := id request;
          accepted := accepted;
          extracted_code := code;
          full_code := Some full_code;
          test_code := None;
          tests := [ {| passed := accepted;
                        exec_info := Some result;
                        test_info := Some labels |} ] |}.

End MHPP.

(** ** The fragment of Python's [re] the adapters use *)

Module Re.
Import Py.

(** A pattern is a sequence of literal text, the star over any character
    and the same star inside a capturing group, all under [re.DOTALL]. *)
Inductive item := Lit (s : string) | DotStar | Group.

(** The greedy star: give the star [k] characters, the longest first, and
    back off one character at a time until the continuation matches. *)
Fixpoint greedy {A} (cont : string -> option A) (s : string) (k : nat)
  : option (nat * A) :=
  match cont (drop k s) with
  | Some r => Some (k, r)
  | None =>
      match k with
      | O => None
      | S k' => greedy cont s k'
      end
  end.

(** Match the pattern at the start of [s]; the result is the text of the
    groups, in order. *)
Fixpoint match_here (p : list item) (s : string) : option (list string) :=
  match p with
  | [] => Some []
  | Lit l :: p' =>
      if startswith l s then match_here p' (drop (String.length l) s) else None
  | DotStar :: p' =>
      match greedy (match_here p') s (String.length s) with
      | Some (_, gs) => Some gs
      | None => None
      end
  | Group :: p' =>
      match greedy (match_here p') s (String.length s) with
      | Some (k, gs) => Some (take k s :: gs)
      | None => None
      end
  end.

(** [re.search(p, s, re.DOTALL)]: the match at the leftmost position that
    has one. *)
Fixpoint search (p : list item) (s : string) : option (list string) :=
  match match_here p s with
  | Some gs => Some gs
  | None =>
      match s with
      | "" => None
      | String _ s' => search p s'
      end
  end.

(** [m.group(1)] *)
Definition group1 (m : list string) : string := hd "" m.

End Re.

(** ** sandbox/datasets/live_code_bench.py *)

Module LiveCodeBench.
Import Py Types Adapter.

Definition TEST_CODE_head : string :=
  NL ++ "import json" ++ NL ++ "import sys" ++ NL ++ NL
  ++ "from testing_util import run_test" ++ NL ++ NL
  ++ "with open('test_cases.txt', 'r') as fin:" ++ NL
  ++ "    sample = json.load(fin)" ++ NL
  ++ "with open('code.py', 'r') as fin:" ++ NL
  ++ "    code = fin.read()" ++ NL ++ NL
  ++ "result, metadata = run_test(sample, code, debug=False, timeout=".

Definition TEST_CODE_tail : string :=
  ")" ++ NL
  ++ "if any(x != True for x in result):" ++ NL
  ++ "    print(metadata)" ++ NL
  ++ "    sys.exit(-1)" ++ NL
  ++ "else:" ++ NL
  ++ "    sys.exit(0)" ++ NL.

(** [TEST_CODE % {'timeout': timeout}] *)
Definition TEST_CODE (timeout : Z) : string :=
  TEST_CODE_head ++ str_of_int timeout ++ TEST_CODE_tail.

Definition FEWSHOT_PREFIX : string :=
  "### Instruction
You are an expert Python programmer. You will be given a question (problem specification) and will generate a correct Python program that matches the specification and passes all tests. You will NOT return anything except for the program.

### Question:
Calculate a+b

Input

Two integer a,b (0<=a,b<=10)

Output

Output a+b

Sample Input

1 2

Sample Output

3

### Format: Read the inputs from stdin solve the problem and write the answer to stdout (do not directly test on the sample inputs). Enclose your code within delimiters as follows.
```python
```

### Answer: (use the provided format with backticks)
```python
a,b = map(int, input().split())
print(a+b)
```

### Question:
Given an array of integers nums and an integer target, return indices of the two numbers such that they add up to target.

You may assume that each input would have exactly one solution, and you may not use the same element twice.

You can return the answer in any order.



Example 1:

Input: nums = [2,7,11,15], target = 9
Output: [0,1]
Explanation: Because nums[0] + nums[1] == 9, we return [0, 1].
Example 2:

Input: nums = [3,2,4], target = 6
Output: [1,2]
Example 3:

Input: nums = [3,3], target = 6
Output: [0,1]

Constraints:

2 <= nums.length <= 10^4
-10^9 <= nums[i] <= 10^9
-10^9 <= target <= 10^9
Only one valid answer exists.

### Format: You will use the following starter code to write the solution to the problem and enclose your code within delimiters.
```python
class Solution:
    def twoSum(self, nums: List[int], target: int) -> List[int]:

```

### Answer: (use the provided format with backticks)
```python
class Solution:
    def twoSum(self, nums: List[int], target: int) -> List[int]:
        for i in range(len(nums)):
            for j in range(i + 1, len(nums)):
                if nums[i] + nums[j] == target:
                    return [i, j]
```

### Question:
Larry graduated this year and finally has a job. He's making a lot of money, but somehow never seems to have enough. Larry has decided that he needs to grab hold of his financial portfolio and solve his financing problems. The first step is to figure out what's been going on with his money. Larry has his bank account statements and wants to see how much money he has. Help Larry by writing a program to take his closing balance from each of the past twelve months and calculate his average account balance.
Input

The input will be twelve lines. Each line will contain the closing balance of his bank account for a particular month. Each number will be positive and displayed to the penny. No dollar sign will be included.
Output

The output will be a single number, the average (mean) of the closing balances for the twelve months. It will be rounded to the nearest penny, preceded immediately by a dollar sign, and followed by the end-of-line. There will be no other spaces or characters in the output.
Sample Input

100.00
489.12
12454.12
1234.10
823.05
109.20
5.27
1542.25
839.18
83.99
1295.01
1.75
Sample Output

$1581.42

### Format: Read the inputs from stdin solve the problem and write the answer to stdout (do not directly test on the sample inputs). Enclose your code within delimiters as follows.
```python
```

### Answer: (use the provided format with backticks)
```python
sum = 0
for i in range(12):
    sum += float(input())
print(" ++ DQ ++ "$%.2f" ++ DQ ++ " % (sum / 12))
```

### Question:
".

Definition question_re : list Re.item :=
  [Re.Lit ("### Question:" ++ NL); Re.Group; Re.Lit (NL ++ NL ++ "### Format:")].

Definition start_code_re : list Re.item :=
  [Re.Lit "### Format: "; Re.DotStar; Re.Lit (NL ++ "```python" ++ NL);
   Re.Group; Re.Lit (NL ++ "```" ++ NL ++ NL)].

Definition extract_question (prompt : string) : outcome (string * option string) :=
  match Re.search question_re prompt, Re.search start_code_re prompt with
  | Some question, Some start_code =>
      let question := Re.group1 question in
      let start_code := Re.group1 start_code in
      Ret (question,
           if String.eqb start_code "# YOUR CODE HERE" then None
           else Some start_code)
  | _, _ => Raise AssertionError
  end.

Definition format_with_starter (starter_code : string) : string :=
  "### Format: You will use the following starter code to write the solution to the problem and enclose your code within delimiters."
  ++ NL ++ "```python" ++ NL ++ starter_code ++ NL ++ "```".

Definition format_stdin : string :=
  "### Format: Read the inputs from stdin solve the problem and write the answer to stdout (do not directly test on the sample inputs). Enclose your code within delimiters as follows."
  ++ NL ++ "```python" ++ NL ++ "```".

Definition answer_cue : string :=
  NL ++ NL ++ "### Answer: (use the provided format with backticks)" ++ NL.

(** [if starter_code:] holds for a string that is present and not empty. *)
Definition generate_fewshot_prompt (question : string)
    (starter_code : option string) : string :=
  let prompt := FEWSHOT_PREFIX ++ question ++ NL ++ NL in
  let prompt :=
    match starter_code with
    | Some (String c s) => prompt ++ format_with_starter (String c s)
    | _ => prompt ++ format_stdin
    end in
  prompt ++ answer_cue.

Definition _generate_fewshot_prompt (prompt : string) : outcome string :=
  '(question, start_code) ← extract_question prompt;
  Ret (generate_fewshot_prompt question start_code).

Definition table_names : gmap string string :=
  {[ "live_code_bench_v1" := "code_eval_live_code_bench_v1" ]}.

Definition get_num_problems (dataset_id : string) : M Z :=
  dict_getitem ({[ "live_code_bench_v1" := 511%Z ]} : gmap string Z) dataset_id.

(** [json.loads(x)] where [x] has to be text. *)
Definition loads_text (E : Env) (j : json) : outcome json :=
  match j with
  | JStr s => json_loads E s
  | _ => Raise (TypeError "the JSON object must be str, bytes or bytearray")
  end.

(** [len(x)] on a decoded value. *)
Definition len (j : json) : outcome Z :=
  match j with
  | JArr l => Ret (Z.of_nat (List.length l))
  | JObj fields => Ret (Z.of_nat (List.length fields))
  | JStr s => Ret (Z.of_nat (String.length s))
  | _ => Raise (TypeError "object has no len()")
  end.

(** [TEST_UTIL], the text of the harness that [Harness] models, is passed
    in rather than repeated here. *)
Definition evaluate_single (E : Env) (TEST_UTIL : string)
    (request : SubmitRequest) : M EvalResult :=
  table ← get_table_name table_names (dataset request);
  row ← get_row_by_id_in_table request table ["id"; "labels"; "content"; "test"];
  labels_text ← col row "labels";
  labels ← lift (json_loads E labels_text);
  let timeout := or_int (run_timeout (config request)) 6 in
  test_text ← col row "test";
  test_cases ← lift (match json_loads E test_text with
                     | Ret j => Ret j
                     | Raise _ => unpickle E test_text
                     end);
  input_output ← lift (getitem test_cases "input_output" ≫= loads_text E);
  test_cnt ← lift (getitem input_output "inputs" ≫= len);
  let total_timeout := Z.min ((timeout + 1) * test_cnt + 5) 315 in
  code ← lift (default_extract_helper E (completion request) "python"
                 (custom_extract_logic (config request)));
  let test_code := TEST_CODE timeout in
  let asset :=
    [("test_cases.txt", JStr (b64encode E (json_dumps E test_cases)));
     ("code.py", JStr (b64encode E code));
     ("testing_util.py", JStr (b64encode E TEST_UTIL))] in
  result ← run_code_in_sandbox E
    {| Types.code := test_code;
       language := "python";
       req_run_timeout := total_timeout;
       files := asset |};
  let accepted := RunStatus_eqb (status result) Success in
  mret {| res_id := id request;
          accepted := accepted;
          extracted_code := code;
          full_code := Some code;
          test_code := Some test_code;
          tests := [ {| passed := accepted;
                        exec_info := Some result;
                        test_info := None |} ] |}.

End LiveCodeBench.

(** ** scripts/client/src/sandbox_fusion/client.py *)

Module Client.
Import Py Types.

Inductive level := ERROR | WARNING.

(** What decoding the JSON body of a response into the expected model
    gives: the model, or the [ValueError] of a body that does not fit. *)
Inductive body (A : Type) :=
| Decoded (a : A)
| Malformed (repr str : string).
Arguments Decoded {A} a.
Arguments Malformed {A} repr str.

(** What one [requests.post] comes back with: a [RequestException] of the
    transport, or a response with its status, its text and its body.  The
    faults of both kinds are subclasses of [Exception]. *)
Inductive posted (A : Type) :=
| TransportError (repr str : string)
| Response (status_code : Z) (text : string) (decoded : body A).
Arguments TransportError {A} repr str.
Arguments Response {A} status_code text decoded.

(** The process-wide endpoint, the log, and the number of POSTs made. *)
Record State := {
  SANDBOX_ENDPOINT : string;
  log : list (level * string);
  posts : nat
}.

Definition M (A : Type) : Type := State -> outcome A * State.

#[global] Instance M_ret : MRet M := fun _ a st => (Ret a, st).
#[global] Instance M_bind : MBind M := fun _ _ k m st =>
  match m st with
  | (Ret a, st') => k a st'
  | (Raise e, st') => (Raise e, st')
  end.

Definition raise {A} (e : exn) : M A := fun st => (Raise e, st).

Definition logger (l : level) (msg : string) : M unit := fun st =>
  (Ret tt, {| SANDBOX_ENDPOINT := SANDBOX_ENDPOINT st;
              log := log st ++ [(l, msg)];
              posts := posts st |}).

(** [try: m  except Exception as e: h e] *)
Definition try_except {A} (m : M A) (h : exn -> M A) : M A := fun st =>
  match m st with
  | (Ret a, st') => (Ret a, st')
  | (Raise e, st') => if is_Exception e then h e st' else (Raise e, st')
  end.

(** The server: the answer to the [n]-th POST, made to [url] with the
    request as its JSON body. *)
Definition Server (Req A : Type) : Type := nat -> string -> Req -> posted A.

Definition post {Req A} (srv : Server Req A) (url : string) (json : Req)
    : M (posted A) := fun st =>
  (Ret (srv (posts st) url json),
   {| SANDBOX_ENDPOINT := SANDBOX_ENDPOINT st;
      log := log st;
      posts := S (posts st) |}).

(** [endpoint or SANDBOX_ENDPOINT] *)
Definition base_url (endpoint : string) : M string := fun st =>
  (Ret (match endpoint with "" => SANDBOX_ENDPOINT st | _ => endpoint end), st).

Definition on_retry_error {A} (e : exn) : M A :=
  _ ← logger ERROR ("give up requesting sandbox. error: " ++ exn_str e);
  raise e.

Definition before_retry_sleep (attempt_number : Z) (e : exn) : M unit :=
  logger WARNING ("error requesting sandbox for " ++ str_of_int attempt_number
                  ++ " time(s), will retry... error: " ++ exn_str e).

(** The loop of [tenacity.retry]: [attempt_number] counts from one and
    [remaining] is how many more attempts [stop_after_attempt] allows. *)
Fixpoint retrying {A} (remaining : nat) (attempt_number : Z) (func : M A) : M A :=
  try_except func (fun e =>
    match remaining with
    | O => on_retry_error e
    | S remaining' =>
        _ ← before_retry_sleep attempt_number e;
        retrying remaining' (attempt_number + 1) func
    end).

(** [configurable_retry(max_attempts)]: the first attempt is always made,
    and the loop stops once [attempt_number >= max_attempts]. *)
Definition configurable_retry {A} (max_attempts : Z) (func : M A) : M A :=
  retrying (Z.to_nat (max_attempts - 1)) 1 func.

Definition _submit (srv : Server SubmitRequest EvalResult) (endpoint : string)
    (request : SubmitRequest) : M EvalResult :=
  base ← base_url endpoint;
  result ← post srv (base ++ "/submit") request;
  match result with
  | TransportError r s => raise (MkExn ExceptionClass r s)
  | Response status_code text decoded =>
      if negb (status_code =? 200)%Z then
        raise (Exception ("Faas api responded with code "
                          ++ str_of_int status_code ++ ": " ++ text))
      else
        match decoded with
        | Decoded resp => mret resp
        | Malformed r s => raise (MkExn ExceptionClass r s)
        end
  end.

Definition submit (srv : Server SubmitRequest EvalResult)
    (request : SubmitRequest) (endpoint : string) (max_attempts : Z)
    : M EvalResult :=
  configurable_retry max_attempts (_submit srv endpoint request).

Definition rejected (request : SubmitRequest) : EvalResult :=
  {| res_id := id request;
     accepted := false;
     extracted_code := "";
     full_code := None;
     test_code := None;
     tests := [] |}.

Definition submit_safe (srv : Server SubmitRequest EvalResult)
    (request : SubmitRequest) (endpoint : string) (max_attempts : Z)
    : M EvalResult :=
  try_except (submit srv request endpoint max_attempts) (fun _ =>
    _ ← logger WARNING "failed to request sandbox, a rejected result is returned";
    mret (rejected request)).

Definition CommandRunStatus_eqb (a b : CommandRunStatus) : bool :=
  match a, b with
  | TimeLimitExceeded, TimeLimitExceeded => true
  | OtherStatus x, OtherStatus y => String.eqb x y
  | _, _ => false
  end.

Definition status_repr (s : RunStatus) : string :=
  match s with
  | Success => "Success"
  | Failed => "Failed"
  | SandboxError => "SandboxError"
  end.

Definition cmd_status_repr (s : CommandRunStatus) : string :=
  match s with
  | TimeLimitExceeded => "TimeLimitExceeded"
  | OtherStatus n => n
  end.

Definition summary_run_code_result (result : RunCodeResponse)
    (mapping : SummaryMapping) : outcome string :=
  match compile_result result, run_result result with
  | None, None =>
      (* note: this should not happen *)
      match status result with
      | Success => Ret (map_Success mapping)
      | Failed => Ret (map_Failed mapping)
      | s => Raise (Exception ("unexpected result status " ++ status_repr s))
      end
  | Some compile, None =>
      (* compile error *)
      if CommandRunStatus_eqb (cmd_status compile) TimeLimitExceeded then
        Ret (or_str (map_CompileTimeout mapping) (map_Failed mapping))
      else
        match return_code compile with
        | None =>
            Raise (Exception ("invalid sandbox result: no return code with status "
                              ++ cmd_status_repr (cmd_status compile)))
        | Some return_code =>
            if negb (return_code =? 0)%Z then
              Ret (or_str (map_CompileFailed mapping) (map_Failed mapping))
            else
              Raise (Exception
                "invalid sandbox result: compiled succesfully with no run result")
        end
  | _, Some run =>
      if CommandRunStatus_eqb (cmd_status run) TimeLimitExceeded then
        Ret (or_str (map_RunTimeout mapping) (map_Failed mapping))
      else
        match return_code run with
        | None =>
            Raise (Exception ("invalid sandbox result: no return code with status "
                              ++ cmd_status_repr (cmd_status run)))
        | Some return_code =>
            if negb (return_code =? 0)%Z then
              Ret (or_str (map_RunFailed mapping) (map_Failed mapping))
            else Ret (map_Success mapping)
        end
  end.

End Client.

(** ** Concrete inputs

    Small environments and requests on which the theorems of Part II are
    run. *)

Module Examples.
Import Py Types Adapter.

Definition JSONDecodeError : exn :=
  MkExn ExceptionClass "JSONDecodeError('Expecting value')" "Expecting value".

Definition passed_response : RunCodeResponse :=
  {| status := Success; message := ""; compile_result := None;
     run_result := Some {| cmd_status := OtherStatus "Finished";
                           return_code := Some 0%Z;
                           stdout := ""; stderr := "" |} |}.

Definition ten_inputs : list json :=
  map (fun n => JStr (str_of_int (Z.of_nat n))) (seq 0 10).

(** A decoder that knows four texts, an extraction helper that finds a
    blank block in the bare completion and a function once the problem's
    content precedes it, and a sandbox that accepts everything. *)
Definition env (extracted : string) : Env :=
  {| json_loads := fun s =>
       if String.eqb s "{aider}" then
         Ret (JObj [("code", JStr "print('before');#<INSERT>;print('after')");
                    ("asset", JObj [("test_a.py", JStr "YXNzZXJ0IFRydWU=")])])
       else if String.eqb s "{lcb}" then
         Ret (JObj [("input_output", JStr "{io}")])
       else if String.eqb s "{io}" then
         Ret (JObj [("inputs", JArr ten_inputs); ("outputs", JArr ten_inputs)])
       else if String.eqb s "{}" then Ret (JObj [])
       else Raise JSONDecodeError;
     json_dumps := fun _ => "{lcb}";
     unpickle := fun _ => Raise JSONDecodeError;
     b64decode := fun j =>
       match j with
       | JStr _ => Ret "assert True"
       | _ => Raise (TypeError "argument should be a bytes-like object")
       end;
     b64encode := fun s => s;
     default_extract_helper := fun text language custom =>
       if String.eqb text "def f(x):" then Ret " "
       else Ret extracted;
     sandbox := fun _ => Ret passed_response |}.

Definition row (test : string) : gmap string string :=
  {[ "id" := "7"; "labels" := "{}"; "content" := "def f(x):";
     "test" := test ]}.

Definition db : State :=
  {| tables :=
       {[ "code_eval_aider_benchmark_v1" := {[ 7%Z := row "{aider}" ]};
          "code_eval_live_code_bench_v1" := {[ 7%Z := row "{lcb}" ]};
          "code_eval_mhpp" := {[ 7%Z := row "assert f(1) == 1" ]} ]};
     sent := [] |}.

Definition request (dataset_id text : string) (timeout : option Z)
  : SubmitRequest :=
  {| id := 7; dataset := dataset_id; completion := text;
     config := {| extra := []; custom_extract_logic := None;
                  run_timeout := timeout; is_fewshot := false |} |}.

(** The result of a run that is known to return. *)
Definition returned {A} (d : A) (run : outcome A * State) : A :=
  match fst run with
  | Ret a => a
  | Raise _ => d
  end.

Definition no_result : EvalResult :=
  {| res_id := 0; accepted := false; extracted_code := "";
     full_code := None; test_code := None; tests := [] |}.

(** Phases, responses and label mappings for [summary_run_code_result]. *)
Definition finished (rc : Z) : CommandRunResult :=
  {| cmd_status := OtherStatus "Finished"; return_code := Some rc;
     stdout := ""; stderr := "" |}.

Definition timed_out (rc : option Z) : CommandRunResult :=
  {| cmd_status := TimeLimitExceeded; return_code := rc;
     stdout := ""; stderr := "" |}.

Definition response (c r : option CommandRunResult) : RunCodeResponse :=
  {| status := Failed; message := ""; compile_result := c; run_result := r |}.

Definition labels (cf rt : option string) : SummaryMapping :=
  {| map_Success := "ok"; map_Failed := "bad";
     map_CompileFailed := cf; map_CompileTimeout := None;
     map_RunFailed := None; map_RunTimeout := rt |}.

(** A candidate that is stuck on the input [loop] in standard-input mode
    and divides by zero on its second call in call-based mode.  Its module
    state counts the invocations. *)
Definition TimeoutException : exn :=
  MkExn ExceptionClass "TimeoutException()" "".

Definition ZeroDivisionError : exn :=
  MkExn ExceptionClass "ZeroDivisionError('division by zero')" "division by zero".

Definition candidate : Harness.Runtime :=
  {| Harness.value := string;
     Harness.module := nat;
     Harness.unwrap_main := fun test => test;
     Harness.from_string := fun _ => Ret 0;
     Harness.new_Solution := fun m => Ret m;
     Harness.get_attr := fun _ _ => Ret tt;
     Harness.exc_info_repr := exn_repr;
     Harness.json_loads := fun s => Ret s;
     Harness.coerce_inputs := fun args => args;
     Harness.coerce_expected := fun v => v;
     Harness.call := fun m _ args =>
       (if Nat.eqb m 1 then Raise ZeroDivisionError else Ret (String.concat "" args),
        S m);
     Harness.judge_call := fun output expected =>
       Ret (Harness.EBool (String.eqb output expected), output);
     Harness.obj_ne_True := fun _ => Ret true;
     Harness.run_code := fun m input =>
       (if String.eqb input "loop" then Raise TimeoutException else Ret tt,
        input, S m);
     Harness.judge_stdin := fun out expected => String.eqb out expected |}.

Definition cases (f : option string) : Harness.InOuts :=
  {| Harness.inputs := ["1"; "loop"; "3"];
     Harness.outputs := ["1"; "2"; "3"];
     Harness.fn_name := f |}.

(** A server that answers every POST with status 500. *)
Definition down : Client.Server SubmitRequest EvalResult :=
  fun _ _ _ => Client.Response 500 "busy" (Client.Malformed "ValueError()" "").

Definition fresh_client : Client.State :=
  {| Client.SANDBOX_ENDPOINT := "http://localhost:8000";
     Client.log := [];
     Client.posts := 0 |}.

End Examples.

(** ** The claims' own vocabulary

    Definitions that follow the words of the specification rather than the
    sources; the theorems of Part II compare them with the code. *)

Module Spec.
Import Py Types Adapter.

(** [s.rfind(sub)]: the highest index at which [sub] occurs, if any. *)
Fixpoint rfind_from (sub s : string) (k : nat) : option nat :=
  if startswith sub (drop k s) then Some k
  else match k with
       | O => None
       | S k' => rfind_from sub s k'
       end.

Definition rfind (sub s : string) : option nat :=
  rfind_from sub s (String.length s).

(** Modelled from the spec: the stored prompt of section 4.7.1, "structured
    around two fixed markers": the question between [### Question:] and
    [### Format:], then a fenced python block after the format line, closed
    by a blank line.  The code that writes these prompts into the table is
    not among the sources; [fmt] is the instruction on the format line and
    [rest] whatever follows the block. *)
Definition question_open : string := "### Question:" ++ NL.
Definition question_close : string := NL ++ NL ++ "### Format:".
Definition fence_open : string := NL ++ "```python" ++ NL.
Definition fence_close : string := NL ++ "```" ++ NL ++ NL.

Definition build_prompt (Q fmt S rest : string) : string :=
  question_open ++ Q ++ question_close ++ " " ++ fmt
  ++ fence_open ++ S ++ fence_close ++ rest.

(** The standard-input transform as the specification words it: imports
    stay at column zero wherever they stand, every other line goes one
    level into [code()], whose header precedes the first of them. *)
Definition hoisting_step (acc : string * bool) (x : string) : string * bool :=
  let '(out, started) := acc in
  if Harness.is_import_line x then (out ++ x ++ NL, started)
  else if started then (out ++ TAB ++ x ++ NL, true)
  else (out ++ Harness.code_header ++ TAB ++ x ++ NL, true).

Definition hoisting_transform (test : string) : string :=
  fst (fold_left hoisting_step (split LF test) ("", false)).

(** Lines emitted as they are, and lines emitted one tab in. *)
Definition at_column_zero (ls : list string) : string :=
  cat (map (fun l => l ++ NL) ls).

Definition indented (ls : list string) : string :=
  cat (map (fun l => TAB ++ l ++ NL) ls).

(** The candidate, invoked from the module state [m] on the raw input [x]
    of a test case whose expected output is [raw_out], raises [e].  In
    call-based mode the invocation is reached once the lines of the input
    and the expected output have been decoded. *)
Definition faults_on (R : Harness.Runtime) (io : Harness.InOuts)
    (x raw_out : string) (m : Harness.module R) (e : exn) : Prop :=
  match Harness.fn_name io with
  | Some f =>
      exists args expected,
        traverse (Harness.json_loads R) (split LF x) = Ret args
        /\ Harness.json_loads R raw_out = Ret expected
        /\ fst (Harness.call R m f (Harness.coerce_inputs R args)) = Raise e
  | None => fst (fst (Harness.run_code R m x)) = Raise e
  end.

(** The truncated input text of a diagnostic. *)
Definition reported_inputs (io : Harness.InOuts) (x : string) : string :=
  match Harness.fn_name io with
  | Some _ => Harness.truncate_call_inputs x
  | None => Harness.truncatefn x 300
  end.

(** Whether [repr(e)] holds [timeoutexception] in any mix of cases. *)
Definition timed_out (e : exn) : bool :=
  contains "timeoutexception" (lower (exn_repr e)).

(** C4 as the specification words it, in two parts: extraction recovers
    the question and the starter code from every built prompt, and a prompt
    generated from a starter code always shows the starter-code block. *)
Definition roundtrip_claim : Prop :=
  forall Q fmt S rest,
    LiveCodeBench.extract_question (build_prompt Q fmt S rest)
    = Ret (Q, if String.eqb S "# YOUR CODE HERE" then None else Some S).

Definition starter_block_claim : Prop :=
  forall Q S,
    LiveCodeBench.generate_fewshot_prompt Q (Some S)
    = LiveCodeBench.FEWSHOT_PREFIX ++ Q ++ NL ++ NL
      ++ LiveCodeBench.format_with_starter S ++ LiveCodeBench.answer_cue.

(** The stored row a request addresses. *)
Definition stored_row (st : State) (table : string) (request : SubmitRequest)
  : option (gmap string string) :=
  tables st !! table ≫= (fun t => t !! id request).

(** The request with [config.run_timeout] replaced. *)
Definition with_run_timeout (t : option Z) (request : SubmitRequest)
  : SubmitRequest :=
  {| id := id request;
     dataset := dataset request;
     completion := completion request;
     config := {| extra := extra (config request);
                  custom_extract_logic := custom_extract_logic (config request);
                  run_timeout := t;
                  is_fewshot := is_fewshot (config request) |} |}.

End Spec.

(** ** The rest of the client: [set_endpoint], [run_code], [run_jupyter],
    [get_prompts], [get_prompt_by_id] *)

Module Requests.
Import Py Types Client.

(** Modelled from the spec: [RunJupyterResponse], missing with the models;
    of its fields the client reads the status and the message. *)
Record RunJupyterResponse := {
  jupyter_status : RunStatus;
  jupyter_message : string;
  cells : list (string * string)
}.

(** Modelled from the spec: [Prompt], missing with the models. *)
Record Prompt := {
  prompt_id : Z;
  prompt : string;
  labels : json
}.

(** [global SANDBOX_ENDPOINT; SANDBOX_ENDPOINT = endpoint] *)
Definition set_endpoint (endpoint : string) : M unit := fun st =>
  (Ret tt, {| SANDBOX_ENDPOINT := endpoint; log := log st; posts := posts st |}).

Definition _run_code {Req} (srv : Server Req RunCodeResponse) (endpoint : string)
    (request : Req) : M RunCodeResponse :=
  base ← base_url endpoint;
  result ← post srv (base ++ "/run_code") request;
  match result with
  | TransportError r s => raise (MkExn ExceptionClass r s)
  | Response status_code text decoded =>
      if negb (status_code =? 200)%Z then
        raise (Exception ("Faas api responded with code "
                          ++ str_of_int status_code ++ ": " ++ text))
      else
        match decoded with
        | Malformed r s => raise (MkExn ExceptionClass r s)
        | Decoded resp =>
            if RunStatus_eqb (status resp) SandboxError then
              raise (Exception ("Sandbox responded with error: " ++ message resp))
            else mret resp
        end
  end.

Definition run_code {Req} (srv : Server Req RunCodeResponse) (request : Req)
    (endpoint : string) (max_attempts : Z) : M RunCodeResponse :=
  configurable_retry max_attempts (_run_code srv endpoint request).

Definition _run_jupyter {Req} (srv : Server Req RunJupyterResponse)
    (endpoint : string) (request : Req) : M RunJupyterResponse :=
  base ← base_url endpoint;
  result ← post srv (base ++ "/run_jupyter") request;
  match result with
  | TransportError r s => raise (MkExn ExceptionClass r s)
  | Response status_code text decoded =>
      if negb (status_code =? 200)%Z then
        raise (Exception ("Faas api responded with code "
                          ++ str_of_int status_code ++ ": " ++ text))
      else
        match decoded with
        | Malformed r s => raise (MkExn ExceptionClass r s)
        | Decoded resp =>
            if RunStatus_eqb (jupyter_status resp) SandboxError then
              raise (Exception ("Sandbox responded with error: "
                                ++ jupyter_message resp))
            else mret resp
        end
  end.

Definition run_jupyter {Req} (srv : Server Req RunJupyterResponse) (request : Req)
    (endpoint : string) (max_attempts : Z) : M RunJupyterResponse :=
  configurable_retry max_attempts (_run_jupyter srv endpoint request).

(** The body [get_prompts] and [get_prompt_by_id] share: one POST to
    [path], no retry. *)
Definition fetch {Req A} (path : string) (srv : Server Req A) (request : Req)
    (endpoint : string) : M A :=
  base ← base_url endpoint;
  result ← post srv (base ++ path) request;
  match result with
  | TransportError r s => raise (MkExn ExceptionClass r s)
  | Response status_code text decoded =>
      if negb (status_code =? 200)%Z then
        raise (Exception ("Faas api responded with code "
                          ++ str_of_int status_code ++ ": " ++ text))
      else
        match decoded with
        | Malformed r s => raise (MkExn ExceptionClass r s)
        | Decoded resp => mret resp
        end
  end.

Definition get_prompts {Req} (srv : Server Req (list Prompt)) (request : Req)
    (endpoint : string) : M (list Prompt) :=
  fetch "/get_prompts" srv request endpoint.

Definition get_prompt_by_id {Req} (srv : Server Req Prompt) (request : Req)
    (endpoint : string) : M Prompt :=
  fetch "/get_prompt_by_id" srv request endpoint.

(** The fault one answer of the server makes an attempt of [run_code]
    raise, if any; Part II shows it is what [_run_code] raises. *)
Definition attempt_fault (answer : posted RunCodeResponse) : option exn :=
  match answer with
  | TransportError r s => Some (MkExn ExceptionClass r s)
  | Response status_code text decoded =>
      if negb (status_code =? 200)%Z then
        Some (Exception ("Faas api responded with code "
                         ++ str_of_int status_code ++ ": " ++ text))
      else
        match decoded with
        | Malformed r s => Some (MkExn ExceptionClass r s)
        | Decoded resp =>
            if RunStatus_eqb (status resp) SandboxError then
              Some (Exception ("Sandbox responded with error: " ++ message resp))
            else None
        end
  end.

(** The address [run_code] posts to from the state [st]. *)
Definition run_code_url (endpoint : string) (st : State) : string :=
  (match endpoint with "" => SANDBOX_ENDPOINT st | _ => endpoint end)
  ++ "/run_code".

(** An attempt that makes one POST and leaves the endpoint setting
    alone. *)
Definition one_post {A} (func : M A) : Prop :=
  forall st, posts (snd (func st)) = S (posts st)
             /\ SANDBOX_ENDPOINT (snd (func st)) = SANDBOX_ENDPOINT st.

Definition is_warning (entry : level * string) : bool :=
  match entry.1 with WARNING => true | ERROR => false end.

End Requests.

(** ** Concrete inputs for the rest of the client *)

Module RequestExamples.
Import Py Types Client Requests.

(** A server that is busy for its first two answers and then runs the
    code, and one whose sandbox always reports an error of its own. *)
Definition flaky : Server RunCodeRequest RunCodeResponse :=
  fun n _ _ =>
    if Nat.ltb n 2 then Response 503 "busy" (Malformed "ValueError()" "")
    else Response 200 "{}" (Decoded Examples.passed_response).

Definition broken_response : RunCodeResponse :=
  {| status := SandboxError; message := "no runner";
     compile_result := None; run_result := None |}.

Definition broken : Server RunCodeRequest RunCodeResponse :=
  fun _ _ _ => Response 200 "{}" (Decoded broken_response).

Definition notebook : Server unit RunJupyterResponse :=
  fun _ _ _ =>
    Response 200 "{}"
      (Decoded {| jupyter_status := Success; jupyter_message := ""; cells := [] |}).

Definition hello : RunCodeRequest :=
  {| code := "print('hello')"; language := "python";
     req_run_timeout := 10; files := [] |}.

(** A server that answers at one address only. *)
Definition only_at (url : string) : Server RunCodeRequest RunCodeResponse :=
  fun _ u _ =>
    if String.eqb u url then Response 200 "{}" (Decoded Examples.passed_response)
    else TransportError "ConnectionError()" "connection refused".

(** A server that answers at every address. *)
Definition everywhere : Server RunCodeRequest RunCodeResponse :=
  fun _ _ _ => Response 200 "{}" (Decoded Examples.passed_response).

Definition catalogue : Server unit (list Prompt) :=
  fun _ _ _ =>
    Response 200 "[]" (Decoded [ {| prompt_id := 1; prompt := "Add two numbers.";
                                   labels := JObj [] |} ]).

End RequestExamples.

(** ** The driver script [TEST_CODE] runs in the sandbox *)

Module Driver.
Import Py Harness.

(** How the process ends: [sys.exit(code)], after printing the metadata
    or not, or an exception nothing caught, which may be a [SystemExit]. *)
Inductive finish :=
| Exit (code : Z) (printed : option (gmap string dval))
| Uncaught (e : exn).

(** Whether the process ends with the status 0, which is what the sandbox
    reports as a success.  [sys.exit(code)] ends it with the low eight bits
    of [code].  An exception that nothing catches ends it with another
    status, unless it is a [SystemExit]: its code decides then, and
    [exits_0] says whether that code gives the status 0, as [None] and 0
    do. *)
Definition ends_with_0 (exits_0 : exn -> bool) (f : finish) : bool :=
  match f with
  | Exit code _ => (code mod 256 =? 0)%Z
  | Uncaught e =>
      match exn_kind e with
      | SystemExitClass => exits_0 e
      | _ => false
      end
  end.

(** How a diagnostic reads that reports a wrong answer, and one that
    reports a fault of the candidate. *)
Definition reports_wrong_answer (d : gmap string dval) : Prop :=
  d !! "error_code" = Some (DInt (-2))
  /\ d !! "error_message" = Some (DStr "Wrong Answer").

Definition reports_fault (d : gmap string dval) : Prop :=
  (d !! "error_code" = Some (DInt (-3))
   /\ d !! "error_message" = Some (DStr "Time Limit Exceeded"))
  \/ (d !! "error_code" = Some (DInt (-4))
      /\ d !! "error_message" = Some (DStr "Runtime Error")).

(** [n] entries [True]. *)
Definition passes {V} (n : nat) : list (entry V) := repeat (EBool true) n.

Section driver.
Context (R : Runtime).

(** [any(x != True for x in result)]: the entries are asked in order, up
    to the first that differs or raises. *)
Fixpoint any_ne_True (result : list (entry (value R))) : outcome bool :=
  match result with
  | [] => Ret false
  | x :: rest =>
      match ne_True R x with
      | Raise e => Raise e
      | Ret true => Ret true
      | Ret false => any_ne_True rest
      end
  end.

(** [result, metadata = run_test(sample, code, ...)] and the test on
    [result] that follows it. *)
Definition main (io : InOuts) (code : string) : finish :=
  match run_test R io code with
  | Raise e => Uncaught e
  | Ret (result, metadata) =>
      match any_ne_True result with
      | Raise e => Uncaught e
      | Ret true => Exit (-1) (Some metadata)
      | Ret false => Exit 0 None
      end
  end.

(** The candidate, invoked from the module state [m] on the raw input [x]
    of a test case whose expected output is [raw_out], comes back with an
    answer the comparison rejects; [shown] is the text of the answer:
    [json.dumps(output)] in call-based mode, the captured output in
    standard-input mode. *)
Definition wrong_on (io : InOuts) (x raw_out : string)
    (m : module R) (shown : string) : Prop :=
  match fn_name io with
  | Some f =>
      exists args expected output,
        traverse (json_loads R) (split LF x) = Ret args
        /\ json_loads R raw_out = Ret expected
        /\ fst (call R m f (coerce_inputs R args)) = Ret output
        /\ judge_call R output (coerce_expected R expected)
           = Ret (EBool false, shown)
  | None =>
      fst (fst (call_method R m x)) = Ret tt
      /\ snd (fst (call_method R m x)) = shown
      /\ judge_stdin R shown raw_out = false
  end.

(** An entry that line 345 and the driver let pass, and one they do
    not. *)
Definition passed (x : entry (value R)) : Prop := ne_True R x = Ret false.
Definition differs (x : entry (value R)) : Prop := ne_True R x = Ret true.

(** What one iteration of the loop, and the loop over [n] cases, leave
    behind; Part II shows they do.  [ok] and [bad] say which entries a case
    that passes and a case that gives a wrong answer can leave, and [late]
    whether a fault can still come once the entry is appended. *)
Section shapes.
Context (ok bad : entry (value R) -> Prop) (late : Prop).

Definition stopped (before : list (entry (value R)))
    (res : list (entry (value R))) (d : gmap string dval) : Prop :=
  (exists x, res = (before ++ [x])%list /\ bad x /\ reports_wrong_answer d)
  \/ (res = (before ++ [EInt (-1)])%list /\ reports_fault d)
  \/ (late /\ exists x, res = (before ++ [x; EInt (-1)])%list
                        /\ reports_fault d).

Definition step_post (index : nat) (st : lstate R) (f : flow) (st' : lstate R)
  : Prop :=
  match f with
  | Next =>
      invoked R st' = (invoked R st ++ [index])%list
      /\ exists x, results R st' = (results R st ++ [x])%list /\ ok x
  | Return d => stopped (results R st) (results R st') d
  | Propagate _ => True
  end.

Definition run_post (n : nat) (f : flow) (st' : lstate R) : Prop :=
  match f with
  | Next =>
      invoked R st' = seq 0 n
      /\ List.length (results R st') = n
      /\ Forall ok (results R st')
  | Return d =>
      exists before,
        List.length before < n /\ Forall ok before
        /\ stopped before (results R st') d
  | Propagate _ => True
  end.

End shapes.

End driver.

End Driver.

(** ** Concrete candidates for the harness *)

Module HarnessExamples.
Import Py Harness.

(** A candidate that gives its input back, in both modes. *)
Definition echo : Runtime :=
  {| value := string;
     module := nat;
     unwrap_main := fun test => test;
     from_string := fun _ => Ret 0;
     new_Solution := fun m => Ret m;
     get_attr := fun _ _ => Ret tt;
     exc_info_repr := exn_repr;
     json_loads := fun s => Ret s;
     coerce_inputs := fun args => args;
     coerce_expected := fun v => v;
     call := fun m _ args => (Ret (String.concat "" args), S m);
     judge_call := fun output expected =>
       Ret (EBool (String.eqb output expected), output);
     obj_ne_True := fun _ => Ret true;
     run_code := fun m input => (Ret tt, input, S m);
     judge_stdin := fun out expected => String.eqb out expected |}.

Definition SystemExit : exn := MkExn SystemExitClass "SystemExit(0)" "0".

(** A candidate that prints its input and then calls [sys.exit(0)]. *)
Definition quitter : Runtime :=
  {| value := string;
     module := nat;
     unwrap_main := fun test => test;
     from_string := fun _ => Ret 0;
     new_Solution := fun m => Ret m;
     get_attr := fun _ _ => Ret tt;
     exc_info_repr := exn_repr;
     json_loads := fun s => Ret s;
     coerce_inputs := fun args => args;
     coerce_expected := fun v => v;
     call := fun m _ args => (Raise SystemExit, S m);
     judge_call := fun output expected =>
       Ret (EBool (String.eqb output expected), output);
     obj_ne_True := fun _ => Ret true;
     run_code := fun m input => (Raise SystemExit, input, S m);
     judge_stdin := fun out expected => String.eqb out expected |}.

(** A candidate whose answer compares to an object that cannot be asked
    whether it differs from [True]: the comparison raises. *)
Definition ValueError : exn :=
  MkExn ExceptionClass "ValueError('The truth value is ambiguous')"
    "The truth value is ambiguous".

Definition touchy : Runtime :=
  {| value := string;
     module := nat;
     unwrap_main := fun test => test;
     from_string := fun _ => Ret 0;
     new_Solution := fun m => Ret m;
     get_attr := fun _ _ => Ret tt;
     exc_info_repr := exn_repr;
     json_loads := fun s => Ret s;
     coerce_inputs := fun args => args;
     coerce_expected := fun v => v;
     call := fun m _ args => (Ret (String.concat "" args), S m);
     judge_call := fun output expected => Ret (EObj "array([ True])", output);
     obj_ne_True := fun _ => Raise ValueError;
     run_code := fun m input => (Ret tt, input, S m);
     judge_stdin := fun out expected => String.eqb out expected |}.

(** Every uncaught [SystemExit] of the examples has the code 0. *)
Definition exits_0 (e : exn) : bool := true.

(** Three cases of which the second expects something else than its
    input, and one case that expects its input. *)
Definition second_differs (f : option string) : InOuts :=
  {| inputs := ["1"; "5"; "3"]; outputs := ["1"; "2"; "3"]; fn_name := f |}.

Definition one_case (f : option string) : InOuts :=
  {| inputs := ["7"]; outputs := ["7"]; fn_name := f |}.

(** An argument list of 301 lines. *)
Definition many_lines : string := cat (repeat ("1" ++ NL) 300) ++ "2".

(** Two cases and one expected output. *)
Definition one_output_short : InOuts :=
  {| inputs := ["1"; "2"]; outputs := ["1"]; fn_name := None |}.

End HarnessExamples.

(** ** What a run of [evaluate_single] leaves behind *)

Module Verdict.
Import Py Types Adapter.

(** A step that leaves the tables and the record of sent requests as they
    were. *)
Definition quiet {A} (m : M A) : Prop :=
  forall st res st', m st = (res, st') -> st' = st.

(** The run read the tables without changing them and called the sandbox
    at most once; a result it returned mirrors the status of that one call,
    a fault raised after the call is the fault of the call. *)
Definition one_call (E : Env) (request : SubmitRequest)
    (st : State) (res : outcome EvalResult) (st' : State) : Prop :=
  tables st' = tables st
  /\ match res with
     | Ret r =>
         exists req result,
           sent st' = (sent st ++ [req])%list
           /\ sandbox E req = Ret result
           /\ res_id r = id request
           /\ accepted r = RunStatus_eqb (status result) Success
           /\ exists info,
               tests r = [ {| passed := accepted r;
                              exec_info := Some result;
                              test_info := info |} ]
     | Raise e =>
         sent st' = sent st
         \/ exists req, sent st' = (sent st ++ [req])%list
                        /\ sandbox E req = Raise e
     end.

End Verdict.

(** ** Concrete rows for the adapters *)

Module AdapterExamples.
Import Py Types Adapter.

(** The environment of [Examples] with one more text the decoder knows:
    an Aider test whose template has no insertion marker. *)
Definition env : Env :=
  {| json_loads := fun s =>
       if String.eqb s "{plain}" then
         Ret (JObj [("code", JStr "print('fixed')"); ("asset", JObj [])])
       else json_loads (Examples.env "x=1") s;
     json_dumps := json_dumps (Examples.env "x=1");
     unpickle := unpickle (Examples.env "x=1");
     b64decode := b64decode (Examples.env "x=1");
     b64encode := b64encode (Examples.env "x=1");
     default_extract_helper := default_extract_helper (Examples.env "x=1");
     sandbox := sandbox (Examples.env "x=1") |}.

Definition db : State :=
  {| tables :=
       {[ "code_eval_aider_benchmark_v1" := {[ 7%Z := Examples.row "{plain}" ]} ]};
     sent := [] |}.

End AdapterExamples.

(** ** Prompts and categories of sandbox/datasets/mhpp.py *)

Module MHPPPrompt.
Import Py Types Adapter.

(** Modelled from the spec: [Prompt] of [sandbox.datasets.types], missing
    with the types; [id] is the column as the row holds it. *)
Record Prompt := {
  id : string;
  prompt : string;
  labels : json
}.

(** [s.rfind(sub)], -1 when there is no occurrence. *)
Definition rfind (sub s : string) : Z :=
  match Spec.rfind sub s with
  | Some k => Z.of_nat k
  | None => (-1)%Z
  end.

(** The truth value of a decoded value.  Whether the text of a number that
    is not an integer stands for zero is left to [float_nonzero]. *)
Definition truthy (float_nonzero : string -> bool) (j : json) : bool :=
  match j with
  | JNull => false
  | JBool b => b
  | JInt z => negb (z =? 0)%Z
  | JFloat text => float_nonzero text
  | JStr s => negb (String.eqb s "")
  | JArr l => match l with [] => false | _ => true end
  | JObj fields => match fields with [] => false | _ => true end
  end.

(** [row[column]] where nothing else is going on. *)
Definition item (row : gmap string string) (c : string) : outcome string :=
  match row !! c with
  | Some v => Ret v
  | None => Raise (KeyError c)
  end.

(** Three double quotes, and the text put in place of the closing ones. *)
Definition QQQ : string := DQ ++ DQ ++ DQ.

Definition example_line (test : string) : string :=
  NL ++ "    e.g. " ++ test ++ " " ++ QQQ.

Definition _generate_single_prompt (float_nonzero : string -> bool) (E : Env)
    (row : gmap string string) (config : TestConfig) : outcome Prompt :=
  tests ← item row "test";
  let test := hd "" (split LF tests) in
  prompt ← (match assoc "pretrain_mode" (extra config) with
            | Some j =>
                if truthy float_nonzero j then
                  content ← item row "content";
                  default_extract_helper E content "python" None
                else item row "content"
            | None => item row "content"
            end);
  let prompt := slice_to (rfind QQQ prompt) prompt in
  let prompt := prompt ++ example_line test in
  i ← item row "id";
  labels_text ← item row "labels";
  l ← json_loads E labels_text;
  Ret {| id := i; prompt := prompt; labels := l |}.

End MHPPPrompt.

Module MHPPExamples.
Import Py Types Adapter MHPPPrompt.

(** A problem whose content ends with a docstring, and one without. *)
Definition documented : gmap string string :=
  {[ "id" := "7"; "labels" := "{}";
     "content" := "def f(x):" ++ NL ++ "    " ++ QQQ ++ " Doubles x. " ++ QQQ ++ NL;
     "test" := "assert f(1) == 2" ++ NL ++ "assert f(2) == 4" ]}.

Definition undocumented : gmap string string :=
  {[ "id" := "8"; "labels" := "{}";
     "content" := "def g(x):";
     "test" := "assert g(1) == 1" ]}.

Definition plain_config : TestConfig :=
  {| extra := []; custom_extract_logic := None;
     run_timeout := None; is_fewshot := false |}.

Definition off_config : TestConfig :=
  {| extra := [("pretrain_mode", JBool false)]; custom_extract_logic := None;
     run_timeout := None; is_fewshot := false |}.

Definition never (text : string) : bool := false.

End MHPPExamples.

(** ** [get_categories] of sandbox/datasets/mhpp.py *)

Module Categories.
Import Py Types.

Definition IndexError : exn :=
  MkExn ExceptionClass "IndexError('list index out of range')"
    "list index out of range".

(** [r.tests[0].test_info['difficulty_type']] *)
Definition difficulty_type (r : EvalResult) : outcome json :=
  match tests r with
  | [] => Raise IndexError
  | t :: _ =>
      match test_info t with
      | None => Raise (TypeError "'NoneType' object is not subscriptable")
      | Some info => getitem info "difficulty_type"
      end
  end.

(** Lists and dictionaries cannot be keys of a dictionary. *)
Definition hashable (j : json) : bool :=
  match j with
  | JArr _ | JObj _ => false
  | _ => true
  end.

Section get_categories.
(** Equality of two keys as the dictionary sees it. *)
Context (key_eqb : json -> json -> bool).

(** [categories_counts[cate].append(r)] on a [defaultdict(list)], which
    keeps its keys in the order of their first use. *)
Fixpoint append_to (cate : json) (r : EvalResult)
    (d : list (json * list EvalResult)) : list (json * list EvalResult) :=
  match d with
  | [] => [(cate, [r])]
  | (c, rs) :: d' =>
      if key_eqb c cate then (c, (rs ++ [r])%list) :: d'
      else (c, rs) :: append_to cate r d'
  end.

(** [for r in results: ...] *)
Fixpoint collect (results : list EvalResult) (d : list (json * list EvalResult))
  : outcome (list (json * list EvalResult)) :=
  match results with
  | [] => Ret d
  | r :: rest =>
      cate ← difficulty_type r;
      if hashable cate then collect rest (append_to cate r d)
      else Raise (TypeError "unhashable type")
  end.

Definition get_categories (results : list EvalResult)
  : outcome (list (json * list EvalResult)) :=
  collect results [].

(** The results whose difficulty type is the key [c]. *)
Definition of_category (c : json) (r : EvalResult) : bool :=
  match difficulty_type r with
  | Ret k => key_eqb c k
  | Raise _ => false
  end.

(** [categories[c]]: the list under the first key equal to [c], and the
    empty list when there is none. *)
Fixpoint members (c : json) (d : list (json * list EvalResult))
  : list EvalResult :=
  match d with
  | [] => []
  | (c', rs) :: d' => if key_eqb c' c then rs else members c d'
  end.

End get_categories.

(** Keys that are texts, compared as texts. *)
Definition text_eqb (a b : json) : bool :=
  match a, b with
  | JStr x, JStr y => String.eqb x y
  | _, _ => false
  end.

Definition graded (n : Z) (kind : string) : EvalResult :=
  {| res_id := n; accepted := true; extracted_code := "";
     full_code := None; test_code := None;
     tests := [ {| passed := true; exec_info := None;
                   test_info := Some (JObj [("difficulty_type", JStr kind)]) |} ] |}.

End Categories.

(** ** The text comparison of the harness *)

Module Compare.
Import Py.

(** [stripped_string_compare(s1, s2)] *)
Definition stripped_string_compare (s1 s2 : string) : bool :=
  let s1 := rstrip (lstrip s1) in
  let s2 := rstrip (lstrip s2) in
  String.eqb s1 s2.

(** [custom_compare_(output, ground_truth)] on the lines of the captured
    output. *)
Definition custom_compare_ (output : list string) (ground_truth : string) : bool :=
  if stripped_string_compare (join NL output) ground_truth then true
  else
    let output_2 := map (fun o => rstrip (lstrip o)) output in
    if stripped_string_compare (join NL output_2) ground_truth then true
    else false.

(** A text of white space only. *)
Fixpoint blank (s : string) : bool :=
  match s with
  | "" => true
  | String c s' => isspace c && blank s'
  end.

End Compare.

(* ===================================================================== *)
(** * Part II: theorems                                                   *)
(* ===================================================================== *)

(** ** Strings *)

(** Let [simpl] unfold [++] on strings again when its first argument shows
    a constructor. *)
Arguments String.append !s1 s2 : simpl nomatch.
Arguments Py.startswith : simpl never.

Module StringFacts.
Import Py.

Lemma app_assoc (a b c : string) : (a ++ b) ++ c = a ++ b ++ c.
Proof. induction a as [|x a IH]; simpl; [reflexivity | now rewrite IH]. Qed.

Lemma app_nil_r (a : string) : a ++ "" = a.
Proof. induction a as [|x a IH]; simpl; [reflexivity | now rewrite IH]. Qed.

Lemma length_app (a b : string) :
  String.length (a ++ b) = String.length a + String.length b.
Proof. induction a as [|x a IH]; simpl; [reflexivity | now rewrite IH]. Qed.

Lemma startswith_nil (s : string) : startswith "" s = true.
Proof. now destruct s. Qed.

Lemma startswith_cons (a b : ascii) (p s : string) :
  startswith (String a p) (String b s) = Ascii.eqb a b && startswith p s.
Proof.
  unfold startswith; simpl.
  destruct (ascii_dec a b) as [->|n].
  - now rewrite Ascii.eqb_refl.
  - apply Ascii.eqb_neq in n. now rewrite n.
Qed.

Lemma startswith_app (p s : string) : startswith p (p ++ s) = true.
Proof.
  induction p as [|a p IH]; simpl.
  - apply startswith_nil.
  - now rewrite startswith_cons, Ascii.eqb_refl, IH.
Qed.

Lemma startswith_app_r (p s t : string) :
  startswith p s = true -> startswith p (s ++ t) = true.
Proof.
  revert s; induction p as [|a p IH]; intros s H.
  - apply startswith_nil.
  - destruct s as [|b s]; [discriminate|].
    simpl. rewrite startswith_cons in *.
    apply andb_true_iff in H as [-> H]. now rewrite IH.
Qed.

Lemma drop_0 (s : string) : drop 0 s = s.
Proof. now destruct s. Qed.

Lemma drop_nil (n : nat) : drop n "" = "".
Proof. now destruct n. Qed.

Lemma drop_app (a b : string) : drop (String.length a) (a ++ b) = b.
Proof. induction a as [|x a IH]; simpl; [apply drop_0 | exact IH]. Qed.

Lemma drop_app_le (n : nat) (a b : string) :
  n <= String.length a -> drop n (a ++ b) = drop n a ++ b.
Proof.
  revert a; induction n as [|n IH]; intros a H.
  - now rewrite !drop_0.
  - destruct a as [|x a]; simpl in *; [lia|]. apply IH. lia.
Qed.

Lemma drop_drop (n m : nat) (s : string) : drop n (drop m s) = drop (m + n) s.
Proof.
  revert s; induction m as [|m IH]; intros s; simpl.
  - reflexivity.
  - destruct s as [|x s]; [now rewrite drop_nil | apply IH].
Qed.

Lemma take_app (a b : string) : take (String.length a) (a ++ b) = a.
Proof. induction a as [|x a IH]; simpl; [now destruct b | now rewrite IH]. Qed.

Lemma length_drop (n : nat) (s : string) :
  String.length (drop n s) = String.length s - n.
Proof.
  revert s; induction n as [|n IH]; intros s.
  - rewrite drop_0. lia.
  - destruct s as [|x s]; simpl; [reflexivity | apply IH].
Qed.

End StringFacts.

Module ReplaceFacts.
Import Py StringFacts.

Lemma contains_cons sub c s :
  contains sub (String c s) = startswith sub (String c s) || contains sub s.
Proof. reflexivity. Qed.

Lemma replace_from_skip old new (x y : string) :
  replace_from old new (String.length x) (x ++ y) = replace_from old new 0 y.
Proof.
  induction x as [|c x IH]; simpl; [|exact IH].
  destruct y; reflexivity.
Qed.

(** Text without an occurrence of [old] is left as it is. *)
Lemma replace_from_absent old new (s : string) :
  contains old s = false -> replace_from old new 0 s = s.
Proof.
  induction s as [|c s IH]; [reflexivity|].
  rewrite contains_cons. intros [H1 H2]%orb_false_iff.
  simpl. rewrite H1, IH by exact H2. reflexivity.
Qed.

(** An occurrence of the marker cannot begin inside [pre] and run into the
    marker that follows it: the marker has one [#], at its start. *)
Lemma marker_no_straddle (c : ascii) (pre post : string) :
  startswith "#<INSERT>" (String c pre) = false ->
  startswith "#<INSERT>" (String c pre ++ "#<INSERT>" ++ post) = false.
Proof.
  intros H. revert H.
  let rec peel n p :=
    lazymatch n with
    | O => idtac
    | S ?m =>
        let c := fresh "c" in
        let q := fresh "q" in
        destruct p as [|c q];
        [ intros _; cbn -[Ascii.eqb startswith]; rewrite ?startswith_cons;
          repeat match goal with
                 | |- context [Ascii.eqb ?a ?b] =>
                     is_var b; destruct (Ascii.eqb a b)
                 end;
          reflexivity
        | peel m q ]
    end in
  peel 8 pre.
  cbn -[Ascii.eqb startswith]. rewrite ?startswith_cons, ?startswith_nil.
  exact (fun H => H).
Qed.

Lemma replace_marker_once new (pre post : string) :
  contains "#<INSERT>" pre = false ->
  contains "#<INSERT>" post = false ->
  replace "#<INSERT>" new (pre ++ "#<INSERT>" ++ post) = pre ++ new ++ post.
Proof.
  intros Hpre Hpost.
  change (replace_from "#<INSERT>" new 0 (pre ++ "#<INSERT>" ++ post)
          = pre ++ new ++ post).
  induction pre as [|c pre IH].
  - change ("" ++ "#<INSERT>" ++ post) with (String "#" ("<INSERT>" ++ post)).
    cbn [replace_from].
    change (String "#" ("<INSERT>" ++ post)) with ("#<INSERT>" ++ post).
    rewrite startswith_app.
    change (String.length "#<INSERT>" - 1) with (String.length "<INSERT>").
    rewrite replace_from_skip, replace_from_absent by exact Hpost.
    reflexivity.
  - rewrite contains_cons in Hpre. apply orb_false_iff in Hpre as [H1 H2].
    pose proof (marker_no_straddle c pre post H1) as Hs.
    specialize (IH H2).
    simpl in Hs, IH |- *. rewrite Hs, IH. reflexivity.
Qed.

End ReplaceFacts.

(** ** The client SDK *)

Module ClientFacts.
Import Py Types Client.

(** Every fault [_submit] raises is an [Exception]. *)
Lemma _submit_raises_Exception srv endpoint request st e st' :
  _submit srv endpoint request st = (Raise e, st') -> is_Exception e = true.
Proof.
  unfold _submit, mbind, M_bind, base_url, post, raise; simpl.
  destruct (srv (posts st) _ _) as [r s|code text [resp|r s]]; simpl.
  - intros [= <- _]. reflexivity.
  - destruct (code =? 200)%Z; simpl; [discriminate|].
    intros [= <- _]. reflexivity.
  - destruct (code =? 200)%Z; simpl; intros [= <- _]; reflexivity.
Qed.

(** Retrying a function that raises only [Exception]s raises only
    [Exception]s: the fault that leaves the loop is the last attempt's. *)
Lemma retrying_raises_Exception {A} (func : M A) :
  (forall st e st', func st = (Raise e, st') -> is_Exception e = true) ->
  forall remaining attempt_number st e st',
    retrying remaining attempt_number func st = (Raise e, st') ->
    is_Exception e = true.
Proof.
  intros Hfunc remaining.
  induction remaining as [|remaining IH]; intros attempt_number st e st';
    simpl; unfold try_except;
    destruct (func st) as [[a|e0] st0] eqn:Hrun; try discriminate;
    rewrite (Hfunc _ _ _ Hrun).
  - unfold on_retry_error, mbind, M_bind, logger, raise; simpl.
    intros [= <- _]. exact (Hfunc _ _ _ Hrun).
  - unfold mbind, M_bind, before_retry_sleep, logger; simpl.
    apply IH.
Qed.

Lemma submit_raises_Exception srv request endpoint max_attempts st e st' :
  submit srv request endpoint max_attempts st = (Raise e, st') ->
  is_Exception e = true.
Proof.
  unfold submit, configurable_retry.
  apply retrying_raises_Exception.
  intros ? ? ?. apply _submit_raises_Exception.
Qed.

(** A failing [submit] has used up its attempts: each attempt is one POST
    and the loop gives up only when none remains. *)
Lemma _submit_posts srv endpoint request st r st' :
  _submit srv endpoint request st = (r, st') -> posts st' = S (posts st).
Proof.
  unfold _submit, mbind, M_bind, base_url, post, raise; simpl.
  destruct (srv (posts st) _ _) as [x y|code text [resp|x y]]; simpl;
    try destruct (code =? 200)%Z; simpl; intros [= _ <-]; reflexivity.
Qed.

Lemma retrying_raise_posts {A} (func : M A) :
  (forall st r st', func st = (r, st') -> posts st' = S (posts st)) ->
  (forall st e st', func st = (Raise e, st') -> is_Exception e = true) ->
  forall remaining attempt_number st e st',
    retrying remaining attempt_number func st = (Raise e, st') ->
    posts st' = posts st + S remaining.
Proof.
  intros Hposts Hfunc remaining.
  induction remaining as [|remaining IH]; intros attempt_number st e st';
    simpl; unfold try_except;
    destruct (func st) as [[a|e0] st0] eqn:Hrun; try discriminate;
    rewrite (Hfunc _ _ _ Hrun); apply Hposts in Hrun.
  - unfold on_retry_error, mbind, M_bind, logger, raise; simpl.
    intros [= _ <-]. simpl. lia.
  - unfold mbind, M_bind, before_retry_sleep, logger; simpl.
    intros H. apply IH in H. simpl in H. lia.
Qed.

(** C7.  [submit_safe] never raises.  Whatever the server answers and
    whatever the number of attempts, when [submit] returns a result
    [submit_safe] returns that result and leaves the same state, and when
    [submit] fails, which it does only once its [max(1, max_attempts)]
    attempts are used up, [submit_safe] logs one warning and returns the
    rejected result
    [EvalResult(id=request.id, accepted=False, extracted_code='', tests=[])]. *)
Theorem submit_safe_never_raises
    (srv : Server SubmitRequest EvalResult) (request : SubmitRequest)
    (endpoint : string) (max_attempts : Z) (st : State) :
  match submit srv request endpoint max_attempts st with
  | (Ret r, st') =>
      submit_safe srv request endpoint max_attempts st = (Ret r, st')
  | (Raise _, st') =>
      posts st' = posts st + Z.to_nat (Z.max 1 max_attempts)
      /\ submit_safe srv request endpoint max_attempts st =
        (Ret {| res_id := id request;
                accepted := false;
                extracted_code := "";
                full_code := None;
                test_code := None;
                tests := [] |},
         snd (logger WARNING
                "failed to request sandbox, a rejected result is returned" st'))
  end.
Proof.
  unfold submit_safe, try_except.
  destruct (submit srv request endpoint max_attempts st) as [[r|e] st'] eqn:Hrun.
  - reflexivity.
  - rewrite (submit_raises_Exception _ _ _ _ _ _ _ Hrun).
    split; [|reflexivity].
    unfold submit, configurable_retry in Hrun.
    apply retrying_raise_posts in Hrun.
    + lia.
    + intros ? ? ?. apply _submit_posts.
    + intros ? ? ?. apply _submit_raises_Exception.
Qed.

(** Against a server that is down, three attempts are made, two retries
    are announced, the fault is logged, and the rejected result comes back
    with one more warning. *)
Example submit_safe_server_down :
  submit_safe Examples.down (Examples.request "mhpp" "reply" None) "" 3
    Examples.fresh_client
  = (Ret {| res_id := 7; accepted := false; extracted_code := "";
            full_code := None; test_code := None; tests := [] |},
     {| SANDBOX_ENDPOINT := "http://localhost:8000";
        log :=
          [(WARNING, "error requesting sandbox for 1 time(s), will retry... error: Faas api responded with code 500: busy");
           (WARNING, "error requesting sandbox for 2 time(s), will retry... error: Faas api responded with code 500: busy");
           (ERROR, "give up requesting sandbox. error: Faas api responded with code 500: busy");
           (WARNING, "failed to request sandbox, a rejected result is returned")];
        posts := 3 |}).
Proof. reflexivity. Qed.

(** C6.  The four cases are read in the order [summary_run_code_result]
    and section 4.9 of the specification go through them: the run phase
    before the compile phase, and in a phase the status TimeLimitExceeded
    before the return code.  A run phase that did not time out and has the
    return code 0 maps to [mapping.Success].  A run phase that timed out
    maps to [mapping.RunTimeout or mapping.Failed], which is [mapping.Failed]
    when there is no [RunTimeout].  With no run phase, a compile phase that
    did not time out and has a return code other than 0 maps to
    [mapping.CompileFailed or mapping.Failed], which is the label provided
    or, when there is none, [mapping.Failed]; and one with the return code 0
    makes the function raise an exception instead of returning a label. *)
Theorem summary_run_code_result_cases
    (result : RunCodeResponse) (mapping : SummaryMapping) :
  (forall run,
     run_result result = Some run ->
     cmd_status run <> TimeLimitExceeded ->
     return_code run = Some 0%Z ->
     summary_run_code_result result mapping = Ret (map_Success mapping))
  /\ (forall run,
     run_result result = Some run ->
     cmd_status run = TimeLimitExceeded ->
     summary_run_code_result result mapping
     = Ret (or_str (map_RunTimeout mapping) (map_Failed mapping))
     /\ (map_RunTimeout mapping = None ->
         summary_run_code_result result mapping = Ret (map_Failed mapping)))
  /\ (forall compile rc,
     run_result result = None ->
     compile_result result = Some compile ->
     cmd_status compile <> TimeLimitExceeded ->
     return_code compile = Some rc ->
     rc <> 0%Z ->
     summary_run_code_result result mapping
     = Ret (or_str (map_CompileFailed mapping) (map_Failed mapping))
     /\ (forall c label, map_CompileFailed mapping = Some (String c label) ->
         summary_run_code_result result mapping = Ret (String c label))
     /\ (map_CompileFailed mapping = None ->
         summary_run_code_result result mapping = Ret (map_Failed mapping)))
  /\ (forall compile,
     run_result result = None ->
     compile_result result = Some compile ->
     cmd_status compile <> TimeLimitExceeded ->
     return_code compile = Some 0%Z ->
     exists e, summary_run_code_result result mapping = Raise e
               /\ is_Exception e = true).
Proof.
  assert (Hne : forall s, s <> TimeLimitExceeded ->
                CommandRunStatus_eqb s TimeLimitExceeded = false)
    by (intros [|n] H; [congruence | reflexivity]).
  unfold summary_run_code_result.
  split; [|split; [|split]].
  - intros run -> Hs Hrc. rewrite (Hne _ Hs), Hrc. simpl.
    now destruct (compile_result result).
  - intros run -> Hs. rewrite Hs. simpl.
    split; [now destruct (compile_result result)|].
    intros ->. now destruct (compile_result result).
  - intros compile rc -> -> Hs -> Hrc.
    rewrite (Hne _ Hs). apply Z.eqb_neq in Hrc. rewrite Hrc. simpl.
    split; [reflexivity|]. split.
    + intros c label ->. reflexivity.
    + intros ->. reflexivity.
  - intros compile -> -> Hs ->. rewrite (Hne _ Hs). simpl.
    eexists. split; reflexivity.
Qed.

Lemma summary_run_code_result_cases_witness :
  summary_run_code_result (Examples.response None (Some (Examples.finished 0))) (Examples.labels None None)
    = Ret "ok"
  /\ summary_run_code_result (Examples.response None (Some (Examples.timed_out (Some 0%Z)))) (Examples.labels None None)
    = Ret "bad"
  /\ summary_run_code_result (Examples.response (Some (Examples.finished 1)) None) (Examples.labels (Some "ce") None)
    = Ret "ce"
  /\ summary_run_code_result (Examples.response (Some (Examples.finished 1)) None) (Examples.labels None None)
    = Ret "bad"
  /\ exists e, summary_run_code_result (Examples.response (Some (Examples.finished 0)) None)
                 (Examples.labels None None) = Raise e /\ is_Exception e = true.
Proof.
  split; [|split; [|split; [|split]]].
  - apply (proj1 (summary_run_code_result_cases
                    (Examples.response None (Some (Examples.finished 0))) (Examples.labels None None))
             (Examples.finished 0)); [reflexivity | discriminate | reflexivity].
  - apply (proj2 (proj1 (proj2 (summary_run_code_result_cases
                    (Examples.response None (Some (Examples.timed_out (Some 0%Z))))
                    (Examples.labels None None)))
             (Examples.timed_out (Some 0%Z)) eq_refl eq_refl)). reflexivity.
  - apply (proj1 (proj2 (proj1 (proj2 (proj2 (summary_run_code_result_cases
                    (Examples.response (Some (Examples.finished 1)) None) (Examples.labels (Some "ce") None))))
             (Examples.finished 1) 1%Z eq_refl eq_refl ltac:(discriminate) eq_refl
             ltac:(discriminate))) "c"%char "e"). reflexivity.
  - apply (proj2 (proj2 (proj1 (proj2 (proj2 (summary_run_code_result_cases
                    (Examples.response (Some (Examples.finished 1)) None) (Examples.labels None None))))
             (Examples.finished 1) 1%Z eq_refl eq_refl ltac:(discriminate) eq_refl
             ltac:(discriminate)))). reflexivity.
  - apply (proj2 (proj2 (proj2 (summary_run_code_result_cases
                    (Examples.response (Some (Examples.finished 0)) None) (Examples.labels None None))))
             (Examples.finished 0)); [reflexivity | reflexivity | discriminate | reflexivity].
Defined.

End ClientFacts.

(** ** The dataset adapters *)

Module AdapterFacts.
Import Py Types Adapter Spec.

(** Inversion of the steps the three [evaluate_single] share. *)
Lemma bind_inv {A B} (m : M A) (k : A -> M B) st res st' :
  (m ≫= k) st = (res, st') ->
  (exists e, m st = (Raise e, st') /\ res = Raise e)
  \/ (exists a st1, m st = (Ret a, st1) /\ k a st1 = (res, st')).
Proof.
  unfold mbind, M_bind.
  destruct (m st) as [[a|e] st1].
  - intros H. right. eauto.
  - intros [= <- <-]. left. eauto.
Qed.

Lemma lift_inv {A} (o : outcome A) st res st' :
  lift o st = (res, st') -> o = res /\ st' = st.
Proof. unfold lift. now intros [= -> ->]. Qed.

Lemma col_inv (row : gmap string string) c st res st' :
  col row c st = (res, st') ->
  st' = st /\ match res with
              | Ret v => row !! c = Some v
              | Raise _ => row !! c = None
              end.
Proof.
  unfold col. intros [<- ->]%lift_inv. split; [reflexivity|].
  destruct (row !! c); reflexivity.
Qed.

Lemma get_table_name_inv (k v dataset_id : string) st res st' :
  get_table_name {[ k := v ]} dataset_id st = (res, st') ->
  st' = st /\ match res with
              | Ret t => dataset_id = k /\ t = v
              | Raise _ => dataset_id <> k
              end.
Proof.
  unfold get_table_name. intros [<- ->]%lift_inv. split; [reflexivity|].
  destruct (decide (dataset_id = k)) as [->|Hne].
  - rewrite lookup_singleton_eq. auto.
  - rewrite lookup_singleton_ne by congruence. exact Hne.
Qed.

Lemma get_row_inv request table columns st res st' :
  get_row_by_id_in_table request table columns st = (res, st') ->
  st' = st /\ match res with
              | Ret row =>
                  exists row0, stored_row st table request = Some row0
                    /\ forall c v, row !! c = Some v ->
                                   row0 !! c = Some v /\ c ∈ columns
              | Raise _ => stored_row st table request = None
              end.
Proof.
  unfold get_row_by_id_in_table, stored_row.
  destruct (tables st !! table ≫= _) as [row0|]; intros [= <- <-];
    (split; [reflexivity|]); [|reflexivity].
  exists row0. split; [reflexivity|].
  intros c v [H1 H2]%map_lookup_filter_Some. simpl in H2.
  split; [exact H1|]. now apply bool_decide_unpack in H2.
Qed.

Lemma run_code_in_sandbox_inv E r st res st' :
  run_code_in_sandbox E r st = (res, st') ->
  res = sandbox E r /\ tables st' = tables st /\ sent st' = (sent st ++ [r])%list.
Proof. unfold run_code_in_sandbox. now intros [= <- <-]. Qed.


(** One step of a run: split a bind into the step that failed, with the
    state it left, or the value it produced and the rest of the run. *)
Ltac state_eq H :=
  first [ apply col_inv in H as [-> H]
        | apply get_table_name_inv in H as [-> H]
        | apply get_row_inv in H as [-> H]
        | apply lift_inv in H as [H ->] ].

Ltac bind_step H Hm :=
  let e := fresh "e" in
  apply bind_inv in H as [(e & Hm & ->) | (? & ? & Hm & H)];
  [ state_eq Hm; split; [reflexivity | left; split; [reflexivity | eauto]]
  | state_eq Hm ].

(** What a run of Aider's [evaluate_single] did: it failed before reaching
    the sandbox, or it sent exactly one request, built as follows. *)
Lemma Aider_evaluate_single_inv E request st res st' :
  Aider.evaluate_single E request st = (res, st') ->
  tables st' = tables st /\
  ((sent st' = sent st /\ exists e, res = Raise e)
   \/ exists row text test template asset code,
        stored_row st "code_eval_aider_benchmark_v1" request = Some row
        /\ row !! "test" = Some text
        /\ json_loads E text = Ret test
        /\ getitem test "code" = Ret (JStr template)
        /\ getitem test "asset" = Ret asset
        /\ default_extract_helper E (completion request) "python"
             (custom_extract_logic (config request)) = Ret code
        /\ let full := replace "#<INSERT>" code template in
           let req := {| Types.code := full;
                         language := "python";
                         req_run_timeout := or_int (run_timeout (config request)) 60;
                         files := Aider.items asset |} in
           sent st' = (sent st ++ [req])%list
           /\ match sandbox E req with
              | Ret result =>
                  exists r, res = Ret r
                    /\ res_id r = id request
                    /\ extracted_code r = code
                    /\ full_code r = Some full
                    /\ accepted r = RunStatus_eqb (status result) Success
              | Raise e => res = Raise e
              end).
Proof.
  unfold Aider.evaluate_single. intros H.
  bind_step H Htable. destruct Htable as [_ ->].
  bind_step H Hrow. destruct Hrow as (row0 & Hrow0 & Hcols).
  bind_step H Hlabels.
  bind_step H Hl.
  bind_step H Htext. apply Hcols in Htext as [Htext _].
  bind_step H Htest.
  bind_step H Hcode.
  bind_step H Hasset.
  bind_step H Hvalues.
  bind_step H Hreal.
  bind_step H Hextract.
  bind_step H Htemplate.
  cbv zeta in H.
  apply bind_inv in H as [(e & Hm & ->) | (result & st1 & Hm & H)];
    apply run_code_in_sandbox_inv in Hm as (Hres & Htab & Hsent).
  all: match goal with
       | H : Aider.as_str ?j = Ret _ |- _ =>
           destruct j; try discriminate H; simpl in H; injection H as <-
       end.
  - split; [exact Htab|]. right.
    exists row0. do 5 eexists. repeat (split; [eassumption|]).
    cbv zeta. rewrite <- Hres. reflexivity.
  - injection H as <- <-.
    split; [exact Htab|]. right.
    exists row0. do 5 eexists. repeat (split; [eassumption|]).
    cbv zeta. rewrite <- Hres.
    eexists. repeat split.
Qed.


(** The same for MHPP: [first] is what the completion alone yields and
    [code] what is finally used. *)
Lemma MHPP_evaluate_single_inv E request st res st' :
  MHPP.evaluate_single E request st = (res, st') ->
  tables st' = tables st /\
  ((sent st' = sent st /\ exists e, res = Raise e)
   \/ exists row test first code,
        stored_row st "code_eval_mhpp" request = Some row
        /\ row !! "test" = Some test
        /\ default_extract_helper E (completion request) "python"
             (custom_extract_logic (config request)) = Ret first
        /\ (if String.eqb (strip first) "" then
              exists content, row !! "content" = Some content
                /\ default_extract_helper E (content ++ NL ++ completion request)
                     "python" (custom_extract_logic (config request)) = Ret code
            else code = first)
        /\ let full := code ++ NL ++ test in
           let req := {| Types.code := full;
                         language := "python";
                         req_run_timeout := or_int (run_timeout (config request)) 20;
                         files := [] |} in
           sent st' = (sent st ++ [req])%list
           /\ match sandbox E req with
              | Ret result =>
                  exists r, res = Ret r
                    /\ res_id r = id request
                    /\ extracted_code r = code
                    /\ full_code r = Some full
                    /\ accepted r = RunStatus_eqb (status result) Success
              | Raise e => res = Raise e
              end).
Proof.
  unfold MHPP.evaluate_single. intros H.
  bind_step H Htable. destruct Htable as [_ ->].
  bind_step H Hrow. destruct Hrow as (row0 & Hrow0 & Hcols).
  bind_step H Hlabels.
  bind_step H Hl.
  bind_step H Htest. apply Hcols in Htest as [Htest _].
  apply bind_inv in H as [(e & Hm & ->) | (first & st0 & Hm & H)];
    [ state_eq Hm; split; [reflexivity | left; split; [reflexivity | eauto]]
    | state_eq Hm ].
  rename Hm into Hfirst.
  apply bind_inv in H as [(e & Hm & ->) | (code & st1 & Hm & H)].
  - destruct (String.eqb (strip first) ""); simpl in Hm; [|discriminate Hm].
    apply bind_inv in Hm as [(e0 & Hc & _) | (content & st2 & Hc & Hm)];
      [state_eq Hc | state_eq Hc; state_eq Hm];
      (split; [reflexivity|]); left; split; eauto.
  - assert (st1 = st /\
            if String.eqb (strip first) "" then
              exists content, row0 !! "content" = Some content
                /\ default_extract_helper E (content ++ NL ++ completion request)
                     "python" (custom_extract_logic (config request)) = Ret code
            else code = first) as [-> Hcode].
    { destruct (String.eqb (strip first) ""); simpl in Hm.
      - apply bind_inv in Hm as [(e & Hc & [=]) | (content & st2 & Hc & Hm)].
        state_eq Hc. state_eq Hm. apply Hcols in Hc as [Hc _]. eauto.
      - injection Hm as <- <-. auto. }
    cbv zeta in H.
    apply bind_inv in H as [(e & Hs & ->) | (result & st1 & Hs & H)];
      apply run_code_in_sandbox_inv in Hs as (Hres & Htab & Hsent).
    + split; [exact Htab|]. right.
      exists row0. do 3 eexists. repeat (split; [eassumption|]).
      cbv zeta. rewrite <- Hres. reflexivity.
    + injection H as <- <-.
      split; [exact Htab|]. right.
      exists row0. do 3 eexists. repeat (split; [eassumption|]).
      cbv zeta. rewrite <- Hres. eexists. repeat split.
Qed.


(** The same for LiveCodeBench: [test_cnt] is the length of the [inputs]
    of the decoded test specification. *)
Lemma LiveCodeBench_evaluate_single_inv E TEST_UTIL request st res st' :
  LiveCodeBench.evaluate_single E TEST_UTIL request st = (res, st') ->
  tables st' = tables st /\
  ((sent st' = sent st /\ exists e, res = Raise e)
   \/ exists row text test_cases io_text input_output inputs test_cnt code,
        stored_row st "code_eval_live_code_bench_v1" request = Some row
        /\ row !! "test" = Some text
        /\ (json_loads E text = Ret test_cases
            \/ (exists e, json_loads E text = Raise e)
               /\ unpickle E text = Ret test_cases)
        /\ getitem test_cases "input_output" = Ret (JStr io_text)
        /\ json_loads E io_text = Ret input_output
        /\ getitem input_output "inputs" = Ret inputs
        /\ LiveCodeBench.len inputs = Ret test_cnt
        /\ default_extract_helper E (completion request) "python"
             (custom_extract_logic (config request)) = Ret code
        /\ let timeout := or_int (run_timeout (config request)) 6 in
           let req :=
             {| Types.code := LiveCodeBench.TEST_CODE timeout;
                language := "python";
                req_run_timeout := Z.min ((timeout + 1) * test_cnt + 5) 315;
                files :=
                  [("test_cases.txt", JStr (b64encode E (json_dumps E test_cases)));
                   ("code.py", JStr (b64encode E code));
                   ("testing_util.py", JStr (b64encode E TEST_UTIL))] |} in
           sent st' = (sent st ++ [req])%list
           /\ match sandbox E req with
              | Ret result =>
                  exists r, res = Ret r
                    /\ res_id r = id request
                    /\ extracted_code r = code
                    /\ full_code r = Some code
                    /\ test_code r = Some (LiveCodeBench.TEST_CODE timeout)
                    /\ accepted r = RunStatus_eqb (status result) Success
              | Raise e => res = Raise e
              end).
Proof.
  unfold LiveCodeBench.evaluate_single. intros H.
  bind_step H Htable. destruct Htable as [_ ->].
  bind_step H Hrow. destruct Hrow as (row0 & Hrow0 & Hcols).
  bind_step H Hlabels.
  bind_step H Hl.
  cbv zeta in H.
  bind_step H Htext. apply Hcols in Htext as [Htext _].
  bind_step H Hcases.
  bind_step H Hio.
  bind_step H Hcnt.
  bind_step H Hextract.
  cbv zeta in H.
  match type of Hcases with
  | match json_loads E ?t with _ => _ end = Ret ?tc =>
      assert (json_loads E t = Ret tc
              \/ (exists e, json_loads E t = Raise e) /\ unpickle E t = Ret tc)
        as Hdecoded
        by (destruct (json_loads E t); [left; exact Hcases | right; eauto])
  end.
  match type of Hio with
  | getitem ?tc _ ≫= _ = _ =>
      destruct (getitem tc "input_output") as [[]|] eqn:Hitem;
        try discriminate Hio; simpl in Hio
  end.
  match type of Hcnt with
  | getitem ?io _ ≫= _ = _ =>
      destruct (getitem io "inputs") as [inputs|] eqn:Hinputs;
        try discriminate Hcnt; simpl in Hcnt
  end.
  apply bind_inv in H as [(e & Hs & ->) | (result & st1 & Hs & H)];
    apply run_code_in_sandbox_inv in Hs as (Hres & Htab & Hsent).
  - split; [exact Htab|]. right.
    exists row0. do 7 eexists. repeat (split; [eassumption|]).
    cbv zeta. rewrite <- Hres. reflexivity.
  - injection H as <- <-.
    split; [exact Htab|]. right.
    exists row0. do 7 eexists. repeat (split; [eassumption|]).
    cbv zeta. rewrite <- Hres. eexists. repeat split.
Qed.


(** C9.  [get_num_problems] returns 133 for [aider_benchmark_v1], 511 for
    [live_code_bench_v1] and 140 for [mhpp], whatever the tables hold, and
    leaves the state as it found it. *)
Theorem get_num_problems_constant (st : State) :
  Aider.get_num_problems "aider_benchmark_v1" st = (Ret 133%Z, st)
  /\ LiveCodeBench.get_num_problems "live_code_bench_v1" st = (Ret 511%Z, st)
  /\ MHPP.get_num_problems "mhpp" st = (Ret 140%Z, st).
Proof.
  unfold Aider.get_num_problems, LiveCodeBench.get_num_problems,
    MHPP.get_num_problems, dict_getitem, lift.
  rewrite !lookup_singleton_eq. auto.
Qed.

Lemma sent_one_inv (l : list RunCodeRequest) (a b : RunCodeRequest) :
  (l ++ [a])%list = (l ++ [b])%list -> a = b.
Proof. intros H. apply app_inv_head in H. now injection H. Qed.

Lemma sent_none_inv (l : list RunCodeRequest) (a : RunCodeRequest) :
  l = (l ++ [a])%list -> False.
Proof.
  intros H. apply (f_equal (@List.length _)) in H.
  rewrite length_app in H. simpl in H. lia.
Qed.

(** C2.  The request LiveCodeBench's [evaluate_single] sends to the
    sandbox carries [run_timeout = min((timeout + 1) * test_cnt + 5, 315)],
    where [timeout] is [config.run_timeout or 6] and [test_cnt] the length of
    the [inputs] of the decoded test specification; for [timeout = 6] that
    is 75 with 10 test cases and 315 with 60. *)
Theorem live_code_bench_total_timeout E TEST_UTIL request st res st' req
    (Hrun : LiveCodeBench.evaluate_single E TEST_UTIL request st = (res, st'))
    (Hsent : sent st' = (sent st ++ [req])%list) :
  exists row text test_cases io_text input_output inputs test_cnt,
    stored_row st "code_eval_live_code_bench_v1" request = Some row
    /\ row !! "test" = Some text
    /\ (json_loads E text = Ret test_cases
        \/ (exists e, json_loads E text = Raise e)
           /\ unpickle E text = Ret test_cases)
    /\ getitem test_cases "input_output" = Ret (JStr io_text)
    /\ json_loads E io_text = Ret input_output
    /\ getitem input_output "inputs" = Ret inputs
    /\ LiveCodeBench.len inputs = Ret test_cnt
    /\ let timeout := or_int (run_timeout (config request)) 6 in
       req_run_timeout req = Z.min ((timeout + 1) * test_cnt + 5) 315
       /\ (timeout = 6%Z -> test_cnt = 10%Z -> req_run_timeout req = 75%Z)
       /\ (timeout = 6%Z -> test_cnt = 60%Z -> req_run_timeout req = 315%Z).
Proof.
  apply LiveCodeBench_evaluate_single_inv in Hrun as [_ [[Hnone _] | Hone]].
  { rewrite Hnone in Hsent. now apply sent_none_inv in Hsent. }
  destruct Hone as (row & text & test_cases & io_text & input_output & inputs
                    & test_cnt & code & Hrow & Htext & Hdec & Hio & Hloads
                    & Hinputs & Hlen & _ & Hreq & _).
  rewrite Hsent in Hreq. apply sent_one_inv in Hreq. subst req.
  exists row, text, test_cases, io_text, input_output, inputs, test_cnt.
  repeat (split; [assumption|]).
  cbv zeta. simpl. split; [reflexivity|].
  split; intros -> ->; reflexivity.
Qed.

Lemma live_code_bench_total_timeout_witness :
  let request := Examples.request "live_code_bench_v1" "print(1)" None in
  let run := LiveCodeBench.evaluate_single (Examples.env "print(1)") "" request
               Examples.db in
  exists req,
    sent (snd run) = [req]
    /\ req_run_timeout req = 75%Z
    /\ exists row text test_cases io_text input_output inputs test_cnt,
      stored_row Examples.db "code_eval_live_code_bench_v1" request = Some row
      /\ row !! "test" = Some text
      /\ (json_loads (Examples.env "print(1)") text = Ret test_cases
          \/ (exists e, json_loads (Examples.env "print(1)") text = Raise e)
             /\ unpickle (Examples.env "print(1)") text = Ret test_cases)
      /\ getitem test_cases "input_output" = Ret (JStr io_text)
      /\ json_loads (Examples.env "print(1)") io_text = Ret input_output
      /\ getitem input_output "inputs" = Ret inputs
      /\ LiveCodeBench.len inputs = Ret test_cnt
      /\ let timeout := or_int (run_timeout (config request)) 6 in
         req_run_timeout req = Z.min ((timeout + 1) * test_cnt + 5) 315
         /\ (timeout = 6%Z -> test_cnt = 10%Z -> req_run_timeout req = 75%Z)
         /\ (timeout = 6%Z -> test_cnt = 60%Z -> req_run_timeout req = 315%Z).
Proof.
  intros request run.
  eexists. split; [vm_compute; reflexivity|]. split; [reflexivity|].
  apply (live_code_bench_total_timeout (Examples.env "print(1)") "" request
           Examples.db (fst run) (snd run)).
  - vm_compute. reflexivity.
  - vm_compute. reflexivity.
Defined.


(** C5.  When Aider's [evaluate_single] returns, [full_code] is the stored
    [test.code] in which [str.replace] has put the extracted code for the
    marker [#<INSERT>], and that text is what was sent to the sandbox; for
    a template that holds the marker once, between [pre] and [post], it is
    [pre], the code, [post]. *)
Theorem aider_full_code E request st r st'
    (Hrun : Aider.evaluate_single E request st = (Ret r, st')) :
  exists row text test template code,
    stored_row st "code_eval_aider_benchmark_v1" request = Some row
    /\ row !! "test" = Some text
    /\ json_loads E text = Ret test
    /\ getitem test "code" = Ret (JStr template)
    /\ default_extract_helper E (completion request) "python"
         (custom_extract_logic (config request)) = Ret code
    /\ extracted_code r = code
    /\ full_code r = Some (replace "#<INSERT>" code template)
    /\ (exists req, sent st' = (sent st ++ [req])%list
                    /\ Types.code req = replace "#<INSERT>" code template)
    /\ (forall pre post,
          template = pre ++ "#<INSERT>" ++ post ->
          contains "#<INSERT>" pre = false ->
          contains "#<INSERT>" post = false ->
          full_code r = Some (pre ++ code ++ post)).
Proof.
  apply Aider_evaluate_single_inv in Hrun as [_ [[_ [e [=]]] | Hone]].
  destruct Hone as (row & text & test & template & asset & code & Hrow & Htext
                    & Htest & Hcode & _ & Hextract & Hsent & Hres).
  destruct (sandbox E _) as [result|e]; [|discriminate Hres].
  destruct Hres as (r0 & [= <-] & _ & Hex & Hfull & _).
  exists row, text, test, template, code.
  repeat (split; [assumption|]).
  split; [eexists; split; [exact Hsent | reflexivity]|].
  intros pre post -> Hpre Hpost.
  rewrite Hfull. f_equal. now apply ReplaceFacts.replace_marker_once.
Qed.

Lemma aider_full_code_witness :
  let E := Examples.env "x=1" in
  let request := Examples.request "aider_benchmark_v1" "reply" None in
  let run := Aider.evaluate_single E request Examples.db in
  let r := Examples.returned Examples.no_result run in
  full_code r = Some "print('before');x=1;print('after')"
  /\ exists row text test template code,
    stored_row Examples.db "code_eval_aider_benchmark_v1" request = Some row
    /\ row !! "test" = Some text
    /\ json_loads E text = Ret test
    /\ getitem test "code" = Ret (JStr template)
    /\ default_extract_helper E (completion request) "python"
         (custom_extract_logic (config request)) = Ret code
    /\ extracted_code r = code
    /\ full_code r = Some (replace "#<INSERT>" code template)
    /\ (exists req, sent (snd run) = (sent Examples.db ++ [req])%list
                    /\ Types.code req = replace "#<INSERT>" code template)
    /\ (forall pre post,
          template = pre ++ "#<INSERT>" ++ post ->
          contains "#<INSERT>" pre = false ->
          contains "#<INSERT>" post = false ->
          full_code r = Some (pre ++ code ++ post)).
Proof.
  intros E request run r. split; [vm_compute; reflexivity|].
  apply (aider_full_code E request Examples.db r (snd run)).
  vm_compute. reflexivity.
Defined.

(** C8.  When the code extracted from the completion alone is empty or
    blank, MHPP's [evaluate_single] extracts again from the row's content, a
    newline and the completion, and uses what that yields: it is the
    [extracted_code], and [full_code], which is also the code sent to the
    sandbox, is that code, a newline and the whole test text. *)
Theorem mhpp_blank_extraction_retried E request st r st' first
    (Hrun : MHPP.evaluate_single E request st = (Ret r, st'))
    (Hfirst : default_extract_helper E (completion request) "python"
                (custom_extract_logic (config request)) = Ret first)
    (Hblank : strip first = "") :
  exists row content test code,
    stored_row st "code_eval_mhpp" request = Some row
    /\ row !! "content" = Some content
    /\ row !! "test" = Some test
    /\ default_extract_helper E (content ++ NL ++ completion request) "python"
         (custom_extract_logic (config request)) = Ret code
    /\ extracted_code r = code
    /\ full_code r = Some (code ++ NL ++ test)
    /\ exists req, sent st' = (sent st ++ [req])%list
                   /\ Types.code req = code ++ NL ++ test.
Proof.
  apply MHPP_evaluate_single_inv in Hrun as [_ [[_ [e [=]]] | Hone]].
  destruct Hone as (row & test & first' & code & Hrow & Htest & Hfirst'
                    & Hcode & Hsent & Hres).
  rewrite Hfirst in Hfirst'. injection Hfirst' as <-.
  rewrite Hblank in Hcode. simpl in Hcode.
  destruct Hcode as (content & Hcontent & Hretry).
  destruct (sandbox E _) as [result|e]; [|discriminate Hres].
  destruct Hres as (r0 & [= <-] & _ & Hex & Hfull & _).
  exists row, content, test, code.
  repeat (split; [assumption|]).
  eexists; split; [exact Hsent | reflexivity].
Qed.

Lemma mhpp_blank_extraction_retried_witness :
  let E := Examples.env "def f(x): return x" in
  let request := Examples.request "mhpp" "def f(x):" None in
  let run := MHPP.evaluate_single E request Examples.db in
  let r := Examples.returned Examples.no_result run in
  full_code r = Some ("def f(x): return x" ++ NL ++ "assert f(1) == 1")
  /\ exists row content test code,
    stored_row Examples.db "code_eval_mhpp" request = Some row
    /\ row !! "content" = Some content
    /\ row !! "test" = Some test
    /\ default_extract_helper E (content ++ NL ++ completion request) "python"
         (custom_extract_logic (config request)) = Ret code
    /\ extracted_code r = code
    /\ full_code r = Some (code ++ NL ++ test)
    /\ exists req, sent (snd run) = (sent Examples.db ++ [req])%list
                   /\ Types.code req = code ++ NL ++ test.
Proof.
  intros E request run r. split; [vm_compute; reflexivity|].
  apply (mhpp_blank_extraction_retried E request Examples.db r (snd run) " ").
  - vm_compute. reflexivity.
  - vm_compute. reflexivity.
  - vm_compute. reflexivity.
Defined.

(** C10.  A [config.run_timeout] of 0 is treated as an absent one.  On
    such a request every adapter's [evaluate_single] does exactly what it
    does on the same request without a [run_timeout]; whenever it returns a
    result it has sent one request to the sandbox; and a request it has sent
    carries the default: 60 seconds for Aider, 20 for MHPP, and for
    LiveCodeBench the per-test 6 seconds, in the driver script and in the
    total [min(7 * test_cnt + 5, 315)], where [test_cnt] is the number of
    [inputs] of the stored test specification. *)
Theorem zero_run_timeout_is_absent E TEST_UTIL request
    (Hzero : run_timeout (config request) = Some 0%Z) :
  (forall st,
     Aider.evaluate_single E request st
     = Aider.evaluate_single E (with_run_timeout None request) st
     /\ (forall r st', Aider.evaluate_single E request st = (Ret r, st') ->
         exists req, sent st' = (sent st ++ [req])%list)
     /\ (forall req, sent (snd (Aider.evaluate_single E request st))
                     = (sent st ++ [req])%list ->
                     req_run_timeout req = 60%Z))
  /\ (forall st,
     MHPP.evaluate_single E request st
     = MHPP.evaluate_single E (with_run_timeout None request) st
     /\ (forall r st', MHPP.evaluate_single E request st = (Ret r, st') ->
         exists req, sent st' = (sent st ++ [req])%list)
     /\ (forall req, sent (snd (MHPP.evaluate_single E request st))
                     = (sent st ++ [req])%list ->
                     req_run_timeout req = 20%Z))
  /\ (forall st,
     LiveCodeBench.evaluate_single E TEST_UTIL request st
     = LiveCodeBench.evaluate_single E TEST_UTIL (with_run_timeout None request) st
     /\ (forall r st',
           LiveCodeBench.evaluate_single E TEST_UTIL request st = (Ret r, st') ->
           exists req, sent st' = (sent st ++ [req])%list)
     /\ (forall req, sent (snd (LiveCodeBench.evaluate_single E TEST_UTIL request st))
                     = (sent st ++ [req])%list ->
          Types.code req = LiveCodeBench.TEST_CODE 6
          /\ exists row text test_cases io_text input_output inputs test_cnt,
               stored_row st "code_eval_live_code_bench_v1" request = Some row
               /\ row !! "test" = Some text
               /\ (json_loads E text = Ret test_cases
                   \/ (exists e, json_loads E text = Raise e)
                      /\ unpickle E text = Ret test_cases)
               /\ getitem test_cases "input_output" = Ret (JStr io_text)
               /\ json_loads E io_text = Ret input_output
               /\ getitem input_output "inputs" = Ret inputs
               /\ LiveCodeBench.len inputs = Ret test_cnt
               /\ req_run_timeout req = Z.min (7 * test_cnt + 5) 315)).
Proof.
  destruct request as [i d c [ex cu rt fs]]. simpl in Hzero. subst rt.
  split; [|split]; intros st; (split; [reflexivity|]); split.
  - intros r st' Hrun.
    apply Aider_evaluate_single_inv in Hrun as [_ [[_ [e [=]]] | Hone]].
    destruct Hone as (? & ? & ? & ? & ? & ? & _ & _ & _ & _ & _ & _ & Hreq & _).
    eexists. exact Hreq.
  - intros req Hsent.
    destruct (Aider.evaluate_single E _ st) as [res st'] eqn:Hrun.
    apply Aider_evaluate_single_inv in Hrun as [_ [[Hnone _] | Hone]]; simpl in Hsent.
    { rewrite Hnone in Hsent. now apply sent_none_inv in Hsent. }
    destruct Hone as (? & ? & ? & ? & ? & ? & _ & _ & _ & _ & _ & _ & Hreq & _).
    rewrite Hsent in Hreq. apply sent_one_inv in Hreq. subst req. reflexivity.
  - intros r st' Hrun.
    apply MHPP_evaluate_single_inv in Hrun as [_ [[_ [e [=]]] | Hone]].
    destruct Hone as (? & ? & ? & ? & _ & _ & _ & _ & Hreq & _).
    eexists. exact Hreq.
  - intros req Hsent.
    destruct (MHPP.evaluate_single E _ st) as [res st'] eqn:Hrun.
    apply MHPP_evaluate_single_inv in Hrun as [_ [[Hnone _] | Hone]]; simpl in Hsent.
    { rewrite Hnone in Hsent. now apply sent_none_inv in Hsent. }
    destruct Hone as (? & ? & ? & ? & _ & _ & _ & _ & Hreq & _).
    rewrite Hsent in Hreq. apply sent_one_inv in Hreq. subst req. reflexivity.
  - intros r st' Hrun.
    apply LiveCodeBench_evaluate_single_inv in Hrun as [_ [[_ [e [=]]] | Hone]].
    destruct Hone as (? & ? & ? & ? & ? & ? & ? & ? & _ & _ & _ & _ & _
                      & _ & _ & _ & Hreq & _).
    eexists. exact Hreq.
  - intros req Hsent.
    destruct (LiveCodeBench.evaluate_single E _ _ st) as [res st'] eqn:Hrun.
    apply LiveCodeBench_evaluate_single_inv in Hrun as [_ [[Hnone _] | Hone]];
      simpl in Hsent.
    { rewrite Hnone in Hsent. now apply sent_none_inv in Hsent. }
    destruct Hone as (row & text & test_cases & io_text & input_output & inputs
                      & test_cnt & code & Hrow & Htext & Hdec & Hio & Hloads
                      & Hinputs & Hlen & _ & Hreq & _).
    rewrite Hsent in Hreq. apply sent_one_inv in Hreq. subst req.
    split; [reflexivity|].
    exists row, text, test_cases, io_text, input_output, inputs, test_cnt.
    repeat (split; [assumption|]). reflexivity.
Qed.

Lemma zero_run_timeout_is_absent_witness :
  let E := Examples.env "x=1" in
  let aider := Aider.evaluate_single E
                 (Examples.request "aider_benchmark_v1" "reply" (Some 0%Z))
                 Examples.db in
  let mhpp := MHPP.evaluate_single E
                (Examples.request "mhpp" "reply" (Some 0%Z)) Examples.db in
  let lcb := LiveCodeBench.evaluate_single E ""
               (Examples.request "live_code_bench_v1" "reply" (Some 0%Z))
               Examples.db in
  (aider = Aider.evaluate_single E
             (Examples.request "aider_benchmark_v1" "reply" None) Examples.db
   /\ exists req, sent (snd aider) = (sent Examples.db ++ [req])%list
                  /\ req_run_timeout req = 60%Z)
  /\ (mhpp = MHPP.evaluate_single E
               (Examples.request "mhpp" "reply" None) Examples.db
      /\ exists req, sent (snd mhpp) = (sent Examples.db ++ [req])%list
                     /\ req_run_timeout req = 20%Z)
  /\ (lcb = LiveCodeBench.evaluate_single E ""
              (Examples.request "live_code_bench_v1" "reply" None) Examples.db
      /\ exists req, sent (snd lcb) = (sent Examples.db ++ [req])%list
                     /\ Types.code req = LiveCodeBench.TEST_CODE 6
                     /\ req_run_timeout req = 75%Z).
Proof.
  intros E aider mhpp lcb.
  split; [|split].
  - destruct (proj1 (zero_run_timeout_is_absent E ""
                (Examples.request "aider_benchmark_v1" "reply" (Some 0%Z))
                eq_refl) Examples.db) as (Hsame & Hsends & Hdefault).
    split; [exact Hsame|].
    destruct (Hsends (Examples.returned Examples.no_result aider) (snd aider)
                ltac:(vm_compute; reflexivity)) as [req Hreq].
    exists req. split; [exact Hreq | exact (Hdefault req Hreq)].
  - destruct (proj1 (proj2 (zero_run_timeout_is_absent E ""
                (Examples.request "mhpp" "reply" (Some 0%Z))
                eq_refl)) Examples.db) as (Hsame & Hsends & Hdefault).
    split; [exact Hsame|].
    destruct (Hsends (Examples.returned Examples.no_result mhpp) (snd mhpp)
                ltac:(vm_compute; reflexivity)) as [req Hreq].
    exists req. split; [exact Hreq | exact (Hdefault req Hreq)].
  - destruct (proj2 (proj2 (zero_run_timeout_is_absent E ""
                (Examples.request "live_code_bench_v1" "reply" (Some 0%Z))
                eq_refl)) Examples.db) as (Hsame & Hsends & Hdefault).
    split; [exact Hsame|].
    destruct (Hsends (Examples.returned Examples.no_result lcb) (snd lcb)
                ltac:(vm_compute; reflexivity)) as [req Hreq].
    exists req. split; [exact Hreq|].
    destruct (Hdefault req Hreq) as (Hcode & row & text & test_cases & io_text
                                     & input_output & inputs & test_cnt
                                     & Hrow & Htext & Hdec & Hio & Hloads
                                     & Hinputs & Hlen & Htotal).
    split; [exact Hcode|].
    assert (Hsent : sent (snd lcb) = (sent Examples.db ++ [req])%list) by exact Hreq.
    vm_compute in Hsent. injection Hsent as <-. reflexivity.
Defined.

End AdapterFacts.

(** ** The grading harness *)

Module HarnessFacts.
Import Py Harness Spec StringFacts.

(** *** The standard-input source transform *)

Lemma import_line_head (x : string) :
  is_import_line x = true ->
  exists c x', x = String c x' /\ Ascii.eqb HT c = false.
Proof.
  unfold is_import_line. destruct x as [|c x']; [discriminate|].
  rewrite !startswith_cons. intros H. exists c, x'. split; [reflexivity|].
  destruct (Ascii.eqb "f" c) eqn:Hf.
  - apply Ascii.eqb_eq in Hf as <-. reflexivity.
  - destruct (Ascii.eqb "i" c) eqn:Hi; [|discriminate H].
    apply Ascii.eqb_eq in Hi as <-. reflexivity.
Qed.

Lemma tag_line_import (x : string) :
  is_import_line x = true -> tag_line x = x ++ NL.
Proof.
  unfold is_import_line, tag_line. intros H.
  now destruct (startswith "from " x), (startswith "import " x).
Qed.

Lemma tag_line_other (x : string) :
  is_import_line x = false -> tag_line x = TAB ++ x ++ NL.
Proof.
  unfold is_import_line, tag_line. intros H.
  now destruct (startswith "from " x), (startswith "import " x).
Qed.

(** Before the function has started an import goes out as it is. *)
Lemma wrap_step_import_before (out x : string) :
  is_import_line x = true ->
  wrap_step (out, false) (tag_line x) = (out ++ x ++ NL, false).
Proof.
  intros H. rewrite (tag_line_import _ H).
  destruct (import_line_head _ H) as (c & x' & -> & Hc).
  unfold wrap_step. cbn -[startswith Ascii.eqb].
  unfold TAB. rewrite startswith_cons, Hc. reflexivity.
Qed.

(** The first line that is not an import starts the function. *)
Lemma wrap_step_other_before (out x : string) :
  is_import_line x = false ->
  wrap_step (out, false) (tag_line x)
  = (out ++ code_header ++ TAB ++ x ++ NL, true).
Proof.
  intros H. rewrite (tag_line_other _ H).
  unfold wrap_step. rewrite startswith_app. reflexivity.
Qed.

(** Once the function has started every line goes one level in: a tagged
    line keeps its tab and an import is given one. *)
Lemma wrap_step_started (out x : string) :
  wrap_step (out, true) (tag_line x) = (out ++ TAB ++ x ++ NL, true).
Proof.
  destruct (is_import_line x) eqn:H.
  - rewrite (tag_line_import _ H). unfold wrap_step.
    rewrite andb_false_r. cbn [andb].
    unfold is_import_line in H.
    apply orb_true_iff in H as [H|H];
      rewrite (startswith_app_r _ _ NL H), ?orb_true_r; reflexivity.
  - rewrite (tag_line_other _ H). unfold wrap_step.
    rewrite andb_false_r. cbn [andb]. reflexivity.
Qed.

Lemma fold_started (ls : list string) (out : string) :
  fold_left wrap_step (map tag_line ls) (out, true) = (out ++ indented ls, true).
Proof.
  revert out; induction ls as [|x ls IH]; intros out.
  - simpl. now rewrite app_nil_r.
  - cbn [map fold_left]. rewrite wrap_step_started, IH.
    unfold indented. cbn [map cat fold_right].
    now rewrite !app_assoc.
Qed.

Lemma fold_imports (ls : list string) (out : string) (rest : list string) :
  forallb is_import_line ls = true ->
  fold_left wrap_step (map tag_line (ls ++ rest)) (out, false)
  = fold_left wrap_step (map tag_line rest) (out ++ at_column_zero ls, false).
Proof.
  revert out; induction ls as [|x ls IH]; intros out H.
  - simpl. now rewrite app_nil_r.
  - cbn [forallb] in H. apply andb_true_iff in H as [Hx H].
    cbn [List.app map fold_left]. rewrite (wrap_step_import_before _ _ Hx), IH by exact H.
    unfold at_column_zero. cbn [map cat fold_right].
    now rewrite !app_assoc.
Qed.


(** C3, as the code has it.  The lines of a source are the pieces
    [split] cuts it into at its line ends.  The imports that stand before
    the first line that is not an import are emitted at column zero; that
    line opens [code()], and it and every line after it, imports included,
    are emitted one tab inside the function.  When every line is an import,
    each is emitted at column zero, followed by a line end, and no function
    is made; a source that ends with a line end is no such source, since its
    last line is empty and opens the function. *)
Theorem stdin_transform_layout (test : string) :
  (forall imports x rest,
     split LF test = (imports ++ x :: rest)%list ->
     forallb is_import_line imports = true ->
     is_import_line x = false ->
     stdin_transform test
     = at_column_zero imports ++ code_header ++ indented (x :: rest))
  /\ (forallb is_import_line (split LF test) = true ->
      stdin_transform test = at_column_zero (split LF test)).
Proof.
  unfold stdin_transform. split.
  - intros imports x rest -> Himports Hx.
    rewrite (fold_imports _ _ _ Himports).
    cbn [map fold_left]. rewrite (wrap_step_other_before _ _ Hx), fold_started.
    unfold indented. cbn [map cat fold_right fst].
    now rewrite !app_assoc.
  - intros Himports.
    rewrite <- (List.app_nil_r (split LF test)) at 1.
    rewrite (fold_imports _ _ _ Himports). reflexivity.
Qed.

Lemma stdin_transform_layout_witness :
  stdin_transform ("import os" ++ NL ++ "x = 1" ++ NL ++ "import re")
  = "import os" ++ NL ++ code_header
    ++ TAB ++ "x = 1" ++ NL ++ TAB ++ "import re" ++ NL
  /\ stdin_transform ("import os" ++ NL ++ "import re")
    = "import os" ++ NL ++ "import re" ++ NL
  /\ stdin_transform ("import os" ++ NL)
    = "import os" ++ NL ++ code_header ++ TAB ++ NL.
Proof.
  split; [|split].
  - exact (proj1 (stdin_transform_layout
                    ("import os" ++ NL ++ "x = 1" ++ NL ++ "import re"))
             ["import os"] "x = 1" ["import re"] eq_refl eq_refl eq_refl).
  - exact (proj2 (stdin_transform_layout ("import os" ++ NL ++ "import re"))
             eq_refl).
  - exact (proj1 (stdin_transform_layout ("import os" ++ NL))
             ["import os"] "" [] eq_refl eq_refl eq_refl).
Defined.

(** C3 as the specification words it fails: an import that follows a line
    of code is not hoisted to column zero, it is indented into [code()]. *)
Lemma import_after_start_is_indented :
  stdin_transform ("x = 1" ++ NL ++ "import os")
  = code_header ++ TAB ++ "x = 1" ++ NL ++ TAB ++ "import os" ++ NL
  /\ hoisting_transform ("x = 1" ++ NL ++ "import os")
    = code_header ++ TAB ++ "x = 1" ++ NL ++ "import os" ++ NL
  /\ stdin_transform ("x = 1" ++ NL ++ "import os")
    <> hoisting_transform ("x = 1" ++ NL ++ "import os").
Proof.
  split; [reflexivity|]. split; [reflexivity|].
  vm_compute. discriminate.
Qed.


(** *** The loop over the test cases *)

Section loop.
Context (R : Runtime).

Lemma run_cases_app body (pre rest : list string) (i : nat) (st : lstate R) :
  run_cases R body i (pre ++ rest)%list st
  = match run_cases R body i pre st with
    | (Next, st1) => run_cases R body (i + List.length pre) rest st1
    | stop => stop
    end.
Proof.
  revert i st; induction pre as [|x pre IH]; intros i st.
  - simpl. now rewrite Nat.add_0_r.
  - cbn [List.app run_cases List.length].
    destruct (body i x st) as [[| |] st1]; try reflexivity.
    rewrite IH. now rewrite Nat.add_succ_r.
Qed.

(** One iteration invokes the candidate at most once, on its own index. *)
Lemma step_invoked which_type method_name io index x (st st' : lstate R) f :
  step R which_type method_name io index x st = (f, st') ->
  invoked R st' = invoked R st \/ invoked R st' = (invoked R st ++ [index])%list.
Proof.
  destruct which_type; cbn [step].
  - unfold step_call_based.
    destruct (nth_error _ _); [|intros [= _ <-]; now left].
    destruct (traverse _ _); [|intros [= _ <-]; now left].
    destruct (json_loads R _); [|intros [= _ <-]; now left].
    destruct (call R _ _ _) as [[output|e] m].
    + destruct (judge_call R _ _) as [[tmp_result dumped]|e].
      * destruct (ne_True R _) as [[]|e].
        -- intros [= _ <-]. now right.
        -- intros [= _ <-]. now right.
        -- unfold on_fault. destruct (is_Exception e); intros [= _ <-]; now right.
      * unfold on_fault. destruct (is_Exception e); intros [= _ <-]; now right.
    + unfold on_fault. destruct (is_Exception e); intros [= _ <-]; now right.
  - unfold step_standard_input.
    destruct (nth_error _ _); [|intros [= _ <-]; now left].
    destruct (call_method R _ _) as [[[u|e] out] m].
    + destruct (judge_stdin R _ _); intros [= _ <-]; now right.
    + unfold on_fault. destruct (is_Exception e); intros [= _ <-]; now right.
Qed.

(** The iterations over the cases numbered from [i] invoke the candidate
    on indices of that range only. *)
Lemma run_cases_invoked which_type method_name io (cases : list string) :
  forall i (st st' : lstate R) f,
    run_cases R (step R which_type method_name io) i cases st = (f, st') ->
    exists l, invoked R st' = (invoked R st ++ l)%list
              /\ Forall (fun k => i <= k < i + List.length cases) l.
Proof.
  induction cases as [|x cases IH]; intros i st st' f; cbn [run_cases].
  - intros [= _ <-]. exists []. split; [now rewrite List.app_nil_r | constructor].
  - destruct (step R _ _ _ i x st) as [f1 st1] eqn:Hstep.
    assert (exists l1, invoked R st1 = (invoked R st ++ l1)%list
                       /\ Forall (fun k => i <= k < i + S (List.length cases)) l1)
      as (l1 & H1 & F1).
    { apply step_invoked in Hstep as [-> | ->].
      - exists []. split; [now rewrite List.app_nil_r | constructor].
      - exists [i]. split; [reflexivity|]. repeat constructor; lia. }
    cbn [List.length].
    destruct f1.
    + intros H. apply IH in H as (l & H & F).
      exists (l1 ++ l)%list. split.
      * now rewrite H, H1, <- List.app_assoc.
      * apply Forall_app. split; [exact F1|].
        eapply Forall_impl; [exact F|]. simpl. intros; lia.
    + intros [= _ <-]. eauto.
    + intros [= _ <-]. eauto.
Qed.

(** The iteration on which the candidate faults. *)
Lemma step_fault io (index : nat) (x raw_out : string) (st : lstate R) (e : exn) :
  nth_error (outputs io) index = Some raw_out ->
  faults_on R io x raw_out (tmp R st) e ->
  is_Exception e = true ->
  exists m,
    step R (which io).1 (which io).2 io index x st
    = (Return (fault_diag e (reported_inputs io x) (truncatefn raw_out 200)),
       {| results := (results R st ++ [EInt (-1)])%list;
          tmp := m;
          invoked := (invoked R st ++ [index])%list |}).
Proof.
  unfold faults_on, reported_inputs, which.
  intros Hout Hfault Hexc.
  destruct (fn_name io) as [f|]; cbn [fst snd step].
  - destruct Hfault as (args & expected & Hargs & Hexp & Hcall).
    unfold step_call_based. rewrite Hout, Hargs, Hexp.
    destruct (call R _ _ _) as [r m]. simpl in Hcall. subst r.
    exists m. unfold on_fault. rewrite Hexc. reflexivity.
  - unfold step_standard_input, call_method. rewrite Hout.
    destruct (run_code R _ _) as [[r out] m]. simpl in Hfault. subst r.
    assert (exn_kind e = ExceptionClass) as Hkind.
    { unfold is_Exception in Hexc. now destruct (exn_kind e). }
    rewrite Hkind. exists m. unfold on_fault. rewrite Hexc. reflexivity.
Qed.

End loop.


(** C1.  In call-based and in standard-input mode alike: when the loop has
    passed the cases before [x] and the candidate, invoked on [x], raises an
    [Exception] [e], then [run_test] returns at once.  It returns the results
    gathered so far followed by [-1], and a diagnostic with [error_code -3]
    and [error_message "Time Limit Exceeded"] if the lower-cased [repr(e)]
    contains [timeoutexception], and [-4] and ["Runtime Error"] otherwise,
    together with the truncated input and expected text.  The candidate has
    been invoked on the cases up to [x] and on no later one, whatever cases
    [post] follow. *)
Theorem fault_aborts_run (R : Runtime) (io : InOuts) (test : string)
    (pre post : list string) (x raw_out : string)
    (m : module R) (st : lstate R) (e : exn)
    (Hinputs : inputs io = (pre ++ x :: post)%list)
    (Hout : nth_error (outputs io) (List.length pre) = Some raw_out)
    (Hload : load R (which io).1 test = Ret m)
    (Hattr : get_attr R m (which io).2 = Ret tt)
    (Hpre : run_cases R (step R (which io).1 (which io).2 io) 0 pre (start R m)
            = (Next, st))
    (Hfault : faults_on R io x raw_out (tmp R st) e)
    (Hexc : is_Exception e = true) :
  let d := fault_diag e (reported_inputs io x) (truncatefn raw_out 200) in
  run_test R io test = Ret ((results R st ++ [EInt (-1)])%list, d)
  /\ d !! "error_code" = Some (DInt (if timed_out e then -3 else -4))
  /\ d !! "error_message"
     = Some (DStr (if timed_out e then "Time Limit Exceeded" else "Runtime Error"))
  /\ d !! "inputs" = Some (DStr (reported_inputs io x))
  /\ d !! "expected" = Some (DStr (truncatefn raw_out 200))
  /\ run_test_invoked R io test = (invoked R st ++ [List.length pre])%list
  /\ Forall (fun k => k < List.length pre) (invoked R st).
Proof.
  intros d.
  destruct (step_fault R io (List.length pre) x raw_out st e Hout Hfault Hexc)
    as [m' Hstep].
  assert (Hrun : run_test_state R io test
                 = (Some (Return d,
                          {| results := (results R st ++ [EInt (-1)])%list;
                             tmp := m';
                             invoked := (invoked R st ++ [List.length pre])%list |}),
                    Ret ((results R st ++ [EInt (-1)])%list, d))).
  { unfold run_test_state.
    destruct (which io) as [which_type method_name]. cbn [fst snd] in *.
    rewrite Hload, Hattr, Hinputs, run_cases_app, Hpre.
    cbn [run_cases Nat.add]. rewrite Hstep. reflexivity. }
  split; [unfold run_test; now rewrite Hrun|].
  assert (Hd : forall a b, fault_diag e a b
     = if timed_out e then
         {[ "error" := DStr (exn_repr e); "error_code" := DInt (-3);
            "error_message" := DStr "Time Limit Exceeded";
            "inputs" := DStr a; "expected" := DStr b ]}
       else
         {[ "error" := DStr (exn_repr e); "error_code" := DInt (-4);
            "error_message" := DStr "Runtime Error";
            "inputs" := DStr a; "expected" := DStr b ]}) by reflexivity.
  subst d. rewrite Hd.
  repeat split; try (destruct (timed_out e); reflexivity).
  - unfold run_test_invoked. now rewrite Hrun.
  - apply run_cases_invoked in Hpre as (l & Hl & F). rewrite Hl. simpl.
    eapply Forall_impl; [exact F|]. simpl. intros; lia.
Qed.


Lemma fault_aborts_run_witness :
  (run_test Examples.candidate (Examples.cases None) "print(input())"
   = Ret ([EBool true; EInt (-1)],
          fault_diag Examples.TimeoutException "loop" "2")
   /\ fault_diag Examples.TimeoutException "loop" "2" !! "error_code"
      = Some (DInt (-3))
   /\ run_test_invoked Examples.candidate (Examples.cases None) "print(input())"
      = [0; 1])
  /\ (run_test Examples.candidate (Examples.cases (Some "f")) "def f(x): return x"
      = Ret ([EBool true; EInt (-1)],
             fault_diag Examples.ZeroDivisionError "loop" "2")
      /\ fault_diag Examples.ZeroDivisionError "loop" "2" !! "error_code"
         = Some (DInt (-4))
      /\ run_test_invoked Examples.candidate (Examples.cases (Some "f"))
           "def f(x): return x"
         = [0; 1]).
Proof.
  pose (st := Build_lstate Examples.candidate [EBool true] 1 [0]).
  split.
  - destruct (fault_aborts_run Examples.candidate (Examples.cases None)
                "print(input())" ["1"] ["3"] "loop" "2" 0 st
                Examples.TimeoutException
                eq_refl eq_refl eq_refl eq_refl eq_refl eq_refl eq_refl)
      as (Hrun & Hcode & _ & _ & _ & Hinv & _).
    split; [exact Hrun | split; [exact Hcode | exact Hinv]].
  - destruct (fault_aborts_run Examples.candidate (Examples.cases (Some "f"))
                "def f(x): return x" ["1"] ["3"] "loop" "2" 0 st
                Examples.ZeroDivisionError
                eq_refl eq_refl eq_refl eq_refl eq_refl
                (ex_intro _ ["loop"] (ex_intro _ "2"
                   (conj eq_refl (conj eq_refl eq_refl))))
                eq_refl)
      as (Hrun & Hcode & _ & _ & _ & Hinv & _).
    split; [exact Hrun | split; [exact Hcode | exact Hinv]].
Defined.

End HarnessFacts.

(** ** Few-shot templating *)

Module FewshotFacts.
Import Py Re LiveCodeBench Spec StringFacts.

Lemma drop_app_ge (i : nat) (a b : string) :
  String.length a <= i -> drop i (a ++ b) = drop (i - String.length a) b.
Proof.
  revert i; induction a as [|c a IH]; intros i H; simpl in *.
  - now rewrite Nat.sub_0_r.
  - destruct i as [|i]; [lia|]. simpl. apply IH. lia.
Qed.

(** *** What [rfind] and the greedy star choose *)

Lemma rfind_from_later (sub s : string) (k j : nat) :
  rfind_from sub s k = Some j ->
  forall i, j < i -> i <= k -> startswith sub (drop i s) = false.
Proof.
  induction k as [|k IH]; cbn [rfind_from].
  - destruct (startswith sub (drop 0 s)); [|discriminate].
    intros [= <-] i; lia.
  - destruct (startswith sub (drop (S k) s)) eqn:Hk.
    + intros [= <-] i; lia.
    + intros H i Hj Hi. destruct (decide (i = S k)) as [->|Hne].
      * exact Hk.
      * apply (IH H); lia.
Qed.

(** If the last occurrence of [sub] in [a ++ b] is the one at the head of
    [b], then [sub] occurs nowhere further into [b]. *)
Lemma rfind_head_last (sub a b : string) :
  rfind sub (a ++ b) = Some (String.length a) ->
  forall i, 0 < i -> i <= String.length b -> startswith sub (drop i b) = false.
Proof.
  intros H i H0 Hi.
  rewrite <- (drop_app a b), drop_drop.
  apply (rfind_from_later _ _ _ _ H); rewrite ?length_app; lia.
Qed.

Lemma greedy_found {A} (cont : string -> option A) (s : string) (k j : nat) (r : A) :
  j <= k ->
  cont (drop j s) = Some r ->
  (forall i, j < i -> i <= k -> cont (drop i s) = None) ->
  greedy cont s k = Some (j, r).
Proof.
  induction k as [|k IH]; intros Hj Hr Hlater.
  - assert (j = 0) as -> by lia. cbn [greedy]. now rewrite Hr.
  - destruct (decide (j = S k)) as [->|Hne].
    + cbn [greedy]. now rewrite Hr.
    + cbn [greedy]. rewrite (Hlater (S k)) by lia.
      apply IH; [lia | exact Hr | intros i ? ?; apply Hlater; lia].
Qed.

Lemma search_at (p : list item) (g : list string) (n : nat) :
  forall s,
    match_here p (drop n s) = Some g ->
    (forall i, i < n ->
       match_here p (drop i s) = None \/ match_here p (drop i s) = Some g) ->
    search p s = Some g.
Proof.
  induction n as [|n IH]; intros s Hn Hbefore.
  - rewrite drop_0 in Hn. destruct s; cbn [search]; now rewrite Hn.
  - destruct (Hbefore 0 ltac:(lia)) as [H0|H0]; rewrite drop_0 in H0.
    + destruct s as [|c s].
      * rewrite drop_nil in Hn. congruence.
      * cbn [search]. rewrite H0. apply IH; [exact Hn|].
        intros i Hi. apply (Hbefore (S i)). lia.
    + destruct s; cbn [search]; now rewrite H0.
Qed.

(** The pattern [text, group, text] at the start of a string. *)
Lemma match_lit_group_lit (open close G rest : string) :
  (forall i, 0 < i -> i <= String.length (close ++ rest) ->
     startswith close (drop i (close ++ rest)) = false) ->
  match_here [Lit open; Group; Lit close] (open ++ G ++ close ++ rest)
  = Some [G].
Proof.
  intros Hlast. cbn [match_here].
  rewrite startswith_app, drop_app.
  rewrite (greedy_found _ _ _ (String.length G) []).
  - now rewrite take_app.
  - rewrite length_app. lia.
  - now rewrite drop_app, startswith_app.
  - intros i Hi Hle.
    rewrite drop_app_ge by lia.
    rewrite Hlast; [reflexivity | lia |].
    rewrite length_app in Hle. lia.
Qed.


Lemma match_lit (l : string) (p : list item) (s : string) :
  match_here (Lit l :: p) s
  = if startswith l s then match_here p (drop (String.length l) s) else None.
Proof. reflexivity. Qed.

Lemma match_star (p : list item) (s : string) :
  match_here (DotStar :: p) s
  = match greedy (match_here p) s (String.length s) with
    | Some (_, gs) => Some gs
    | None => None
    end.
Proof. reflexivity. Qed.

(** The pattern [star, text, group, text]: the star runs up to the last
    [open], whatever [X] stands before it. *)
Lemma match_star_lit_group_lit (open close X G rest : string) :
  (forall i, 0 < i -> i <= String.length (open ++ G ++ close ++ rest) ->
     startswith open (drop i (open ++ G ++ close ++ rest)) = false) ->
  (forall i, 0 < i -> i <= String.length (close ++ rest) ->
     startswith close (drop i (close ++ rest)) = false) ->
  match_here [DotStar; Lit open; Group; Lit close]
    (X ++ open ++ G ++ close ++ rest)
  = Some [G].
Proof.
  intros Hopen Hclose. rewrite match_star.
  rewrite (greedy_found _ _ _ (String.length X) [G]).
  - reflexivity.
  - rewrite length_app. lia.
  - rewrite drop_app. now apply match_lit_group_lit.
  - intros i Hi Hle. rewrite drop_app_ge by lia.
    rewrite match_lit, Hopen; [reflexivity | lia |].
    rewrite length_app in Hle. lia.
Qed.

(** *** The two searches of [extract_question] on a built prompt *)

Section built.
Context (Q fmt S rest : string).

Let prompt : string := build_prompt Q fmt S rest.

Hypothesis question_close_last :
  rfind question_close prompt = Some (String.length (question_open ++ Q)).
Hypothesis fence_open_last :
  rfind fence_open prompt
  = Some (String.length (question_open ++ Q ++ question_close ++ " " ++ fmt)).
Hypothesis fence_close_last :
  rfind fence_close prompt
  = Some (String.length (question_open ++ Q ++ question_close ++ " " ++ fmt
                         ++ fence_open ++ S)).

Lemma question_found : search question_re prompt = Some [Q].
Proof.
  apply (search_at _ _ 0); [|intros i; lia].
  rewrite drop_0. apply match_lit_group_lit.
  apply (rfind_head_last _ (question_open ++ Q)).
  rewrite <- question_close_last. reflexivity.
Qed.

Lemma no_later_fence_open i :
  0 < i -> i <= String.length (fence_open ++ S ++ fence_close ++ rest) ->
  startswith fence_open (drop i (fence_open ++ S ++ fence_close ++ rest)) = false.
Proof.
  apply (rfind_head_last _ (question_open ++ Q ++ question_close ++ " " ++ fmt)).
  rewrite <- fence_open_last. f_equal.
  unfold prompt, build_prompt. now rewrite !app_assoc.
Qed.

Lemma no_later_fence_close i :
  0 < i -> i <= String.length (fence_close ++ rest) ->
  startswith fence_close (drop i (fence_close ++ rest)) = false.
Proof.
  apply (rfind_head_last _ (question_open ++ Q ++ question_close ++ " " ++ fmt
                            ++ fence_open ++ S)).
  rewrite <- fence_close_last. f_equal.
  unfold prompt, build_prompt. now rewrite !app_assoc.
Qed.

Lemma start_code_found : search start_code_re prompt = Some [S].
Proof.
  pose (Y := question_open ++ Q ++ NL ++ NL).
  pose (W := fence_open ++ S ++ fence_close ++ rest).
  assert (Hp : prompt = (Y ++ "### Format: ") ++ fmt ++ W).
  { unfold prompt, build_prompt, Y, W, question_close.
    rewrite !app_assoc. reflexivity. }
  rewrite Hp. unfold start_code_re.
  apply (search_at _ _ (String.length Y)).
  - rewrite app_assoc, drop_app, match_lit, startswith_app, drop_app.
    apply match_star_lit_group_lit;
      [exact no_later_fence_open | exact no_later_fence_close].
  - intros i Hi. rewrite match_lit.
    destruct (startswith _ _); [right | now left].
    rewrite drop_drop, drop_app_le by (rewrite length_app; lia).
    rewrite <- (app_assoc _ fmt W).
    apply match_star_lit_group_lit;
      [exact no_later_fence_open | exact no_later_fence_close].
Qed.

Lemma extract_question_built :
  extract_question prompt
  = Ret (Q, if String.eqb S "# YOUR CODE HERE" then None else Some S).
Proof.
  unfold extract_question. now rewrite question_found, start_code_found.
Qed.

End built.


(** C4, as the code has it.  For a prompt built from [Q] and [S] in which
    each of the three markers, the end of the question, the opening fence
    and the closing fence with its blank line, occurs for the last time
    where the template puts it, [extract_question] recovers [Q] and [S],
    with the starter code absent when [S] is the placeholder.
    [generate_fewshot_prompt] with no starter code is the preamble, the
    question, the stdin instruction block and the answer cue; with a
    starter code that is not empty it is the same with the starter-code
    block holding [S]; and generation from the built prompt shows the stdin
    block exactly when [S] is the placeholder or empty. *)
Theorem fewshot_round_trip (Q fmt S rest : string)
    (Hquestion :
       rfind question_close (build_prompt Q fmt S rest)
       = Some (String.length (question_open ++ Q)))
    (Hopen :
       rfind fence_open (build_prompt Q fmt S rest)
       = Some (String.length (question_open ++ Q ++ question_close ++ " " ++ fmt)))
    (Hclose :
       rfind fence_close (build_prompt Q fmt S rest)
       = Some (String.length (question_open ++ Q ++ question_close ++ " " ++ fmt
                              ++ fence_open ++ S))) :
  extract_question (build_prompt Q fmt S rest)
  = Ret (Q, if String.eqb S "# YOUR CODE HERE" then None else Some S)
  /\ generate_fewshot_prompt Q None
     = FEWSHOT_PREFIX ++ Q ++ NL ++ NL ++ format_stdin ++ answer_cue
  /\ (S <> "" ->
      generate_fewshot_prompt Q (Some S)
      = FEWSHOT_PREFIX ++ Q ++ NL ++ NL ++ format_with_starter S ++ answer_cue)
  /\ _generate_fewshot_prompt (build_prompt Q fmt S rest)
     = Ret (FEWSHOT_PREFIX ++ Q ++ NL ++ NL
            ++ (if String.eqb S "# YOUR CODE HERE" || String.eqb S ""
                then format_stdin else format_with_starter S)
            ++ answer_cue).
Proof.
  pose proof (extract_question_built Q fmt S rest Hquestion Hopen Hclose) as Hex.
  split; [exact Hex|].
  split; [unfold generate_fewshot_prompt; now rewrite !app_assoc|].
  split.
  - intros Hne. unfold generate_fewshot_prompt.
    destruct S as [|c S']; [congruence|]. now rewrite !app_assoc.
  - unfold _generate_fewshot_prompt. rewrite Hex.
    change (Ret (Q, ?sc) ≫= ?k) with (k (Q, sc)). cbv beta iota.
    f_equal. unfold generate_fewshot_prompt.
    destruct (String.eqb S "# YOUR CODE HERE"); cbn [orb].
    + now rewrite !app_assoc.
    + destruct S as [|c S']; cbn [String.eqb]; now rewrite !app_assoc.
Qed.

Lemma fewshot_round_trip_witness :
  extract_question
    (build_prompt "Add two numbers." "Use the starter code." "def add(a, b):"
       ("### Answer: (use the provided format with backticks)" ++ NL ++ NL))
  = Ret ("Add two numbers.", Some "def add(a, b):")
  /\ extract_question
       (build_prompt "Add two numbers." "Read from stdin." "# YOUR CODE HERE"
          ("### Answer: (use the provided format with backticks)" ++ NL ++ NL))
     = Ret ("Add two numbers.", None).
Proof.
  split.
  - exact (proj1 (fewshot_round_trip "Add two numbers." "Use the starter code."
                    "def add(a, b):"
                    ("### Answer: (use the provided format with backticks)"
                     ++ NL ++ NL)
                    eq_refl eq_refl eq_refl)).
  - exact (proj1 (fewshot_round_trip "Add two numbers." "Read from stdin."
                    "# YOUR CODE HERE"
                    ("### Answer: (use the provided format with backticks)"
                     ++ NL ++ NL)
                    eq_refl eq_refl eq_refl)).
Defined.

(** C4 as the specification words it fails twice: a starter code that
    shows a fenced block of its own is cut at that fence, and an empty
    starter code is given the stdin block, not a starter-code block. *)
Lemma fewshot_round_trip_fails :
  ~ roundtrip_claim /\ ~ starter_block_claim.
Proof.
  split.
  - intros H.
    specialize (H "Q" "F" ("pass" ++ NL ++ "```python" ++ NL ++ "pass") "").
    vm_compute in H. discriminate H.
  - intros H. specialize (H "" "").
    unfold generate_fewshot_prompt in H. rewrite !app_assoc in H.
    apply (inj (String.append FEWSHOT_PREFIX)) in H.
    vm_compute in H. discriminate H.
Qed.

End FewshotFacts.

(** ** The rest of the client *)

Module RequestsFacts.
Import Py Types Client Requests.

(** *** One attempt of [run_code] *)

Lemma _run_code_spec {Req} (srv : Server Req RunCodeResponse) endpoint request st :
  _run_code srv endpoint request st
  = (match attempt_fault (srv (posts st) (run_code_url endpoint st) request) with
     | Some e => Raise e
     | None =>
         match srv (posts st) (run_code_url endpoint st) request with
         | Response _ _ (Decoded resp) => Ret resp
         | _ => Raise (Exception "")
         end
     end,
     {| SANDBOX_ENDPOINT := SANDBOX_ENDPOINT st;
        log := log st;
        posts := S (posts st) |}).
Proof.
  unfold _run_code, run_code_url, mbind, M_bind, base_url, post, raise, attempt_fault.
  cbn [fst snd].
  destruct (srv (posts st) _ request) as [r s|code text [resp|r s]];
    try reflexivity;
    destruct (negb (code =? 200)%Z); try reflexivity.
  destruct (RunStatus_eqb (status resp) SandboxError); reflexivity.
Qed.

Lemma attempt_fault_Exception answer e :
  attempt_fault answer = Some e -> is_Exception e = true.
Proof.
  destruct answer as [r s|code text [resp|r s]]; simpl.
  - now intros [= <-].
  - destruct (negb (code =? 200)%Z); [now intros [= <-]|].
    destruct (RunStatus_eqb _ _); [now intros [= <-] | discriminate].
  - destruct (negb (code =? 200)%Z); now intros [= <-].
Qed.

Lemma _run_code_fault {Req} (srv : Server Req RunCodeResponse) endpoint request st e :
  attempt_fault (srv (posts st) (run_code_url endpoint st) request) = Some e ->
  _run_code srv endpoint request st
  = (Raise e, {| SANDBOX_ENDPOINT := SANDBOX_ENDPOINT st;
                 log := log st;
                 posts := S (posts st) |}).
Proof.
  intros H. now rewrite _run_code_spec, H.
Qed.

Lemma _run_code_good {Req} (srv : Server Req RunCodeResponse) endpoint request st
    text resp :
  srv (posts st) (run_code_url endpoint st) request = Response 200 text (Decoded resp) ->
  status resp <> SandboxError ->
  _run_code srv endpoint request st
  = (Ret resp, {| SANDBOX_ENDPOINT := SANDBOX_ENDPOINT st;
                  log := log st;
                  posts := S (posts st) |}).
Proof.
  intros H Hs. rewrite _run_code_spec, H. simpl.
  now destruct (status resp).
Qed.


(** *** The retry loop *)

Lemma retrying_Ret {A} (func : M A) remaining attempt_number st a st1 :
  func st = (Ret a, st1) ->
  retrying remaining attempt_number func st = (Ret a, st1).
Proof.
  intros H. destruct remaining; cbn [retrying]; unfold try_except; now rewrite H.
Qed.

Lemma retrying_Raise_again {A} (func : M A) remaining attempt_number st e st1 :
  func st = (Raise e, st1) ->
  is_Exception e = true ->
  retrying (S remaining) attempt_number func st
  = retrying remaining (attempt_number + 1) func
      (snd (before_retry_sleep attempt_number e st1)).
Proof.
  intros H He. cbn [retrying]. unfold try_except at 1. rewrite H, He.
  reflexivity.
Qed.

Lemma retrying_Raise_last {A} (func : M A) attempt_number st e st1 :
  func st = (Raise e, st1) ->
  is_Exception e = true ->
  retrying 0 attempt_number func st
  = (Raise e, snd (logger ERROR ("give up requesting sandbox. error: " ++ exn_str e)
                     st1)).
Proof.
  intros H He. cbn [retrying]. unfold try_except. rewrite H, He. reflexivity.
Qed.

(** A result of the loop is the result of one of its attempts. *)
Lemma retrying_Ret_inv {A} (func : M A) remaining :
  forall attempt_number st a st',
    retrying remaining attempt_number func st = (Ret a, st') ->
    exists s, func s = (Ret a, st').
Proof.
  induction remaining as [|remaining IH]; intros attempt_number st a st';
    cbn [retrying]; unfold try_except;
    destruct (func st) as [[x|e] st1] eqn:Hrun.
  - intros [= <- <-]. eauto.
  - destruct (is_Exception e); discriminate.
  - intros [= <- <-]. eauto.
  - destruct (is_Exception e); [|discriminate]. apply IH.
Qed.

Section run_code.
Context {Req : Type} (srv : Server Req RunCodeResponse).
Context (request : Req) (endpoint : string).

Lemma retrying_first_good (url text : string) (resp : RunCodeResponse) (k : nat) :
  status resp <> SandboxError ->
  forall remaining attempt_number st,
    k <= remaining ->
    run_code_url endpoint st = url ->
    (forall i, i < k -> attempt_fault (srv (posts st + i) url request) <> None) ->
    srv (posts st + k) url request = Response 200 text (Decoded resp) ->
    exists st',
      retrying remaining attempt_number (_run_code srv endpoint request) st
      = (Ret resp, st')
      /\ posts st' = posts st + k + 1
      /\ SANDBOX_ENDPOINT st' = SANDBOX_ENDPOINT st
      /\ exists warnings,
          log st' = (log st ++ warnings)%list
          /\ List.length warnings = k
          /\ forallb is_warning warnings = true.
Proof.
  intros Hs. induction k as [|k IH]; intros remaining attempt_number st Hk Hurl Hbad Hgood.
  - rewrite Nat.add_0_r, <- Hurl in Hgood.
    eexists. split; [apply retrying_Ret, (_run_code_good _ _ _ _ _ _ Hgood Hs)|].
    cbn. split; [lia|]. split; [reflexivity|].
    exists []. now rewrite List.app_nil_r.
  - destruct remaining as [|remaining]; [lia|].
    destruct (attempt_fault (srv (posts st) url request)) as [e|] eqn:He;
      [|now destruct (Hbad 0 ltac:(lia)); rewrite Nat.add_0_r].
    pose proof (attempt_fault_Exception _ _ He) as Hexc.
    rewrite <- Hurl in He.
    rewrite (retrying_Raise_again _ _ _ _ _ _ (_run_code_fault _ _ _ _ _ He) Hexc).
    cbn [before_retry_sleep logger snd].
    edestruct (IH remaining (attempt_number + 1)%Z) as (st' & Hrun & Hp & Hend & ws & Hlog & Hlen & Hw);
      [lia | | | | exists st'; split; [exact Hrun|]].
    + exact Hurl.
    + cbn. intros i Hi.
      replace (S (posts st + i)) with (posts st + S i) by lia. apply Hbad. lia.
    + cbn. now replace (S (posts st + k)) with (posts st + S k) by lia.
    + cbn in *. split; [lia|]. split; [exact Hend|].
      eexists (_ :: ws). rewrite Hlog, <- List.app_assoc. split; [reflexivity|].
      split; [cbn; lia | exact Hw].
Qed.

Lemma retrying_all_bad (url : string) :
  forall remaining attempt_number st,
    run_code_url endpoint st = url ->
    (forall i, i <= remaining ->
       attempt_fault (srv (posts st + i) url request) <> None) ->
    exists e st',
      retrying remaining attempt_number (_run_code srv endpoint request) st
      = (Raise e, st')
      /\ attempt_fault (srv (posts st + remaining) url request) = Some e
      /\ posts st' = posts st + remaining + 1
      /\ SANDBOX_ENDPOINT st' = SANDBOX_ENDPOINT st
      /\ exists warnings,
          log st' = (log st ++ warnings
                     ++ [(ERROR, ("give up requesting sandbox. error: "
                                  ++ exn_str e)%string)])%list
          /\ List.length warnings = remaining
          /\ forallb is_warning warnings = true.
Proof.
  induction remaining as [|remaining IH]; intros attempt_number st Hurl Hbad;
    (destruct (attempt_fault (srv (posts st) url request)) as [e|] eqn:He;
      [|now destruct (Hbad 0 ltac:(lia)); rewrite Nat.add_0_r]);
    pose proof (attempt_fault_Exception _ _ He) as Hexc;
    pose proof He as He'; rewrite <- Hurl in He'.
  - rewrite (retrying_Raise_last _ _ _ _ _ (_run_code_fault _ _ _ _ _ He') Hexc).
    exists e. eexists. split; [reflexivity|]. cbn.
    rewrite Nat.add_0_r. split; [exact He|]. split; [lia|]. split; [reflexivity|].
    exists []. auto.
  - rewrite (retrying_Raise_again _ _ _ _ _ _ (_run_code_fault _ _ _ _ _ He') Hexc).
    cbn [before_retry_sleep logger snd].
    edestruct (IH (attempt_number + 1)%Z) as (e1 & st' & Hrun & Hlast & Hp & Hend & ws & Hlog & Hlen & Hw);
      [ | | exists e1, st'; split; [exact Hrun|]].
    + exact Hurl.
    + cbn. intros i Hi.
      replace (S (posts st + i)) with (posts st + S i) by lia. apply Hbad. lia.
    + cbn in *.
      replace (S (posts st + remaining)) with (posts st + S remaining) in Hlast by lia.
      split; [exact Hlast|]. split; [lia|]. split; [exact Hend|].
      eexists (_ :: ws). rewrite Hlog, <- List.app_assoc. split; [reflexivity|].
      split; [cbn; lia | exact Hw].
Qed.

End run_code.


(** X1.  [run_code] returns the first good answer: when the server fails the
    first [k] attempts, by a transport fault, a status other than 200, a
    body that does not decode or a response with status SandboxError, and
    then answers 200 with a response that is no SandboxError, and [k] is
    below [max(1, max_attempts)], then [run_code] returns that response
    after [k + 1] POSTs and exactly [k] warnings. *)
Theorem run_code_returns_first_good {Req} (srv : Server Req RunCodeResponse)
    (request : Req) (endpoint : string) (max_attempts : Z) (st : State)
    (k : nat) (text : string) (resp : RunCodeResponse)
    (Hbad : forall i, i < k ->
       attempt_fault (srv (posts st + i) (run_code_url endpoint st) request) <> None)
    (Hgood : srv (posts st + k) (run_code_url endpoint st) request
             = Response 200 text (Decoded resp))
    (Hstatus : status resp <> SandboxError)
    (Hk : (Z.of_nat k < Z.max 1 max_attempts)%Z) :
  exists st',
    run_code srv request endpoint max_attempts st = (Ret resp, st')
    /\ posts st' = posts st + k + 1
    /\ SANDBOX_ENDPOINT st' = SANDBOX_ENDPOINT st
    /\ exists warnings,
        log st' = (log st ++ warnings)%list
        /\ List.length warnings = k
        /\ forallb is_warning warnings = true.
Proof.
  unfold run_code, configurable_retry.
  eapply retrying_first_good; eauto. lia.
Qed.

Lemma run_code_returns_first_good_witness :
  exists st',
    run_code RequestExamples.flaky RequestExamples.hello "" 5 Examples.fresh_client
    = (Ret Examples.passed_response, st')
    /\ posts st' = 3
    /\ SANDBOX_ENDPOINT st' = "http://localhost:8000"
    /\ exists warnings,
        log st' = warnings
        /\ List.length warnings = 2
        /\ forallb is_warning warnings = true.
Proof.
  apply (run_code_returns_first_good RequestExamples.flaky RequestExamples.hello
           "" 5%Z Examples.fresh_client 2 "{}" Examples.passed_response).
  - intros [|[|i]] Hi; [discriminate | discriminate | lia].
  - reflexivity.
  - discriminate.
  - lia.
Defined.

(** X2.  [run_code] gives up after [max(1, max_attempts)] attempts: when every
    one of them fails it raises the fault of the last attempt, having made
    that many POSTs and logged one warning before each retry and one error
    at the end. *)
Theorem run_code_gives_up {Req} (srv : Server Req RunCodeResponse)
    (request : Req) (endpoint : string) (max_attempts : Z) (st : State)
    (Hbad : forall i, (Z.of_nat i < Z.max 1 max_attempts)%Z ->
       attempt_fault (srv (posts st + i) (run_code_url endpoint st) request) <> None) :
  let attempts := Z.to_nat (Z.max 1 max_attempts) in
  exists e st',
    run_code srv request endpoint max_attempts st = (Raise e, st')
    /\ attempt_fault (srv (posts st + (attempts - 1)) (run_code_url endpoint st) request)
       = Some e
    /\ posts st' = posts st + attempts
    /\ exists warnings,
        log st' = (log st ++ warnings
                   ++ [(ERROR, ("give up requesting sandbox. error: "
                                ++ exn_str e)%string)])%list
        /\ List.length warnings = attempts - 1
        /\ forallb is_warning warnings = true.
Proof.
  intros attempts. unfold run_code, configurable_retry.
  destruct (retrying_all_bad srv request endpoint (run_code_url endpoint st)
              (Z.to_nat (max_attempts - 1)) 1 st eq_refl)
    as (e & st' & Hrun & Hlast & Hp & _ & ws & Hlog & Hlen & Hw).
  { intros i Hi. apply Hbad. lia. }
  assert (Z.to_nat (max_attempts - 1) = attempts - 1) as Heq by (unfold attempts; lia).
  rewrite Heq in *.
  exists e, st'. split; [exact Hrun|]. split; [exact Hlast|].
  split; [unfold attempts in *; lia|].
  exists ws. auto.
Qed.

Lemma run_code_gives_up_witness :
  exists e st',
    run_code RequestExamples.broken RequestExamples.hello "" 3 Examples.fresh_client
    = (Raise e, st')
    /\ exn_str e = "Sandbox responded with error: no runner"
    /\ posts st' = 3
    /\ List.length (log st') = 3.
Proof.
  destruct (run_code_gives_up RequestExamples.broken RequestExamples.hello "" 3%Z
              Examples.fresh_client)
    as (e & st' & Hrun & Hlast & Hp & ws & Hlog & Hlen & _).
  { intros i _. discriminate. }
  exists e, st'. split; [exact Hrun|].
  split; [now injection Hlast as <-|].
  split; [exact Hp|].
  rewrite Hlog, !length_app, Hlen. reflexivity.
Defined.

(** X3.  Neither [run_code] nor [run_jupyter] ever returns a response whose
    status is SandboxError: such an answer counts as a failed attempt. *)
Theorem run_never_returns_SandboxError :
  (forall Req (srv : Server Req RunCodeResponse) request endpoint max_attempts
          st resp st',
     run_code srv request endpoint max_attempts st = (Ret resp, st') ->
     status resp <> SandboxError)
  /\ (forall Req (srv : Server Req RunJupyterResponse) request endpoint max_attempts
             st resp st',
     run_jupyter srv request endpoint max_attempts st = (Ret resp, st') ->
     jupyter_status resp <> SandboxError).
Proof.
  split; intros Req srv request endpoint max_attempts st resp st' Hrun;
    apply retrying_Ret_inv in Hrun as [s Hs]; revert Hs.
  - unfold _run_code, mbind, M_bind, base_url, post, raise. cbn [fst snd].
    destruct (srv _ _ _) as [r t|code text [x|r t]]; try discriminate;
      destruct (negb (code =? 200)%Z); try discriminate.
    destruct (RunStatus_eqb (status x) SandboxError) eqn:Hx; [discriminate|].
    intros [= <- _] Heq. now rewrite Heq in Hx.
  - unfold _run_jupyter, mbind, M_bind, base_url, post, raise. cbn [fst snd].
    destruct (srv _ _ _) as [r t|code text [x|r t]]; try discriminate;
      destruct (negb (code =? 200)%Z); try discriminate.
    destruct (RunStatus_eqb (jupyter_status x) SandboxError) eqn:Hx; [discriminate|].
    intros [= <- _] Heq. now rewrite Heq in Hx.
Qed.

Lemma run_never_returns_SandboxError_witness :
  status Examples.passed_response <> SandboxError
  /\ jupyter_status {| jupyter_status := Success; jupyter_message := "";
                       cells := [] |} <> SandboxError.
Proof.
  split.
  - apply (proj1 run_never_returns_SandboxError _ RequestExamples.flaky
             RequestExamples.hello "" 5%Z Examples.fresh_client
             Examples.passed_response
             (snd (run_code RequestExamples.flaky RequestExamples.hello "" 5
                     Examples.fresh_client))).
    reflexivity.
  - apply (proj2 run_never_returns_SandboxError _ RequestExamples.notebook tt "" 3%Z
             Examples.fresh_client _
             (snd (run_jupyter RequestExamples.notebook tt "" 3
                     Examples.fresh_client))).
    reflexivity.
Defined.


(** *** Where the requests go *)

Lemma retrying_run_code_ext {Req} (srv srv' : Server Req RunCodeResponse)
    (request : Req) (endpoint url : string) :
  (forall n, srv n url request = srv' n url request) ->
  forall remaining attempt_number st,
    run_code_url endpoint st = url ->
    retrying remaining attempt_number (_run_code srv endpoint request) st
    = retrying remaining attempt_number (_run_code srv' endpoint request) st.
Proof.
  intros Hagree.
  induction remaining as [|remaining IH]; intros attempt_number st Hurl;
    cbn [retrying]; unfold try_except;
    rewrite !_run_code_spec, Hurl, Hagree;
    (destruct (match attempt_fault (srv' (posts st) url request) with
               | Some e => Raise e
               | None => _
               end) as [a|e]; [reflexivity|]);
    cbn [fst snd]; destruct (is_Exception e); try reflexivity.
  unfold mbind, M_bind, before_retry_sleep, logger. cbn [fst snd].
  apply IH. exact Hurl.
Qed.

(** X4.  [run_code] talks to one address only, the explicit [endpoint] if it
    is not empty and else the one last given to [set_endpoint], followed by
    [/run_code]: two servers that answer alike at that address cannot be told
    apart, whatever they do elsewhere. *)
Theorem run_code_posts_to_endpoint {Req} (srv srv' : Server Req RunCodeResponse)
    (request : Req) (global endpoint : string) (max_attempts : Z) (st : State)
    (Hagree : forall n,
       srv n ((match endpoint with "" => global | _ => endpoint end) ++ "/run_code")
         request
       = srv' n ((match endpoint with "" => global | _ => endpoint end) ++ "/run_code")
           request) :
  (set_endpoint global ≫= fun _ => run_code srv request endpoint max_attempts) st
  = (set_endpoint global ≫= fun _ => run_code srv' request endpoint max_attempts) st.
Proof.
  unfold mbind, M_bind, set_endpoint, run_code, configurable_retry. cbn [fst snd].
  eapply retrying_run_code_ext; [exact Hagree | reflexivity].
Qed.

Lemma run_code_posts_to_endpoint_witness :
  (set_endpoint "http://sandbox:8080"
     ≫= fun _ => run_code (RequestExamples.only_at "http://sandbox:8080/run_code")
                   RequestExamples.hello "" 5) Examples.fresh_client
  = (set_endpoint "http://sandbox:8080"
       ≫= fun _ => run_code RequestExamples.everywhere RequestExamples.hello "" 5)
      Examples.fresh_client
  /\ fst (run_code (RequestExamples.only_at "http://sandbox:8080/run_code")
            RequestExamples.hello "" 1 Examples.fresh_client)
     = Raise (MkExn ExceptionClass "ConnectionError()" "connection refused").
Proof.
  split; [|reflexivity].
  apply (run_code_posts_to_endpoint
           (RequestExamples.only_at "http://sandbox:8080/run_code")
           RequestExamples.everywhere RequestExamples.hello
           "http://sandbox:8080" "" 5%Z Examples.fresh_client).
  intros n. reflexivity.
Defined.

(** X5.  [get_prompts] and [get_prompt_by_id] make one POST whatever the answer,
    log nothing, and return a value exactly when that one answer has status
    200 and a body that decodes to it. *)
Theorem prompts_fetched_once :
  (forall Req (srv : Server Req (list Prompt)) request endpoint st,
     let url := (match endpoint with "" => SANDBOX_ENDPOINT st | _ => endpoint end)
                ++ "/get_prompts" in
     snd (get_prompts srv request endpoint st)
     = {| SANDBOX_ENDPOINT := SANDBOX_ENDPOINT st; log := log st;
          posts := S (posts st) |}
     /\ forall l, fst (get_prompts srv request endpoint st) = Ret l
                  <-> exists text, srv (posts st) url request
                                   = Response 200 text (Decoded l))
  /\ (forall Req (srv : Server Req Prompt) request endpoint st,
     let url := (match endpoint with "" => SANDBOX_ENDPOINT st | _ => endpoint end)
                ++ "/get_prompt_by_id" in
     snd (get_prompt_by_id srv request endpoint st)
     = {| SANDBOX_ENDPOINT := SANDBOX_ENDPOINT st; log := log st;
          posts := S (posts st) |}
     /\ forall p, fst (get_prompt_by_id srv request endpoint st) = Ret p
                  <-> exists text, srv (posts st) url request
                                   = Response 200 text (Decoded p)).
Proof.
  assert (H : forall Req A path (srv : Server Req A) request endpoint st,
    let url := (match endpoint with "" => SANDBOX_ENDPOINT st | _ => endpoint end)
               ++ path in
    snd (fetch path srv request endpoint st)
    = {| SANDBOX_ENDPOINT := SANDBOX_ENDPOINT st; log := log st;
         posts := S (posts st) |}
    /\ forall a, fst (fetch path srv request endpoint st) = Ret a
                 <-> exists text, srv (posts st) url request
                                  = Response 200 text (Decoded a)).
  { intros Req A path srv request endpoint st url.
    unfold fetch, mbind, M_bind, base_url, post, raise. cbn [fst snd]. fold url.
    destruct (srv (posts st) url request) as [r t|code text [x|r t]]; cbn.
    - split; [reflexivity|]. intros a; split; [discriminate | intros [? [=]]].
    - destruct (Z.eqb_spec code 200) as [->|Hne]; cbn.
      + split; [reflexivity|]. intros a; split.
        * intros [= <-]. eauto.
        * now intros [? [= <- <-]].
      + split; [reflexivity|]. intros a; split; [discriminate|].
        intros [? [= ? ?]]. congruence.
    - destruct (negb (code =? 200)%Z); cbn;
        (split; [reflexivity|]); intros a; (split; [discriminate | intros [? [=]]]). }
  split; intros; apply H.
Qed.

(** *** [summary_run_code_result] *)

(** X6.  The classifier raises in exactly three situations: no phase at all
    and the status SandboxError; a compile phase alone that did not time out
    and has no return code or the return code 0; a run phase that did not
    time out and has no return code. *)
Theorem summary_raises_iff (result : RunCodeResponse) (mapping : SummaryMapping) :
  (exists e, summary_run_code_result result mapping = Raise e)
  <-> (compile_result result = None /\ run_result result = None
       /\ status result = SandboxError)
      \/ (exists compile,
            run_result result = None /\ compile_result result = Some compile
            /\ cmd_status compile <> TimeLimitExceeded
            /\ (return_code compile = None \/ return_code compile = Some 0%Z))
      \/ (exists run,
            run_result result = Some run
            /\ cmd_status run <> TimeLimitExceeded
            /\ return_code run = None).
Proof.
  unfold summary_run_code_result.
  destruct result as [st msg [[[|n] [rc|] ? ?]|] [[[|n'] [rc'|] ? ?]|]];
    cbn [compile_result run_result status cmd_status return_code
         CommandRunStatus_eqb];
    try destruct (Z.eqb_spec rc 0) as [->|?];
    try destruct (Z.eqb_spec rc' 0) as [->|?];
    try destruct st; cbn [negb];
    (split; [intros [e He]; try discriminate He | intros Hcase]);
    try (left; repeat split; reflexivity);
    try (right; left; eexists; repeat split; cbn; try discriminate; auto; fail);
    try (right; right; eexists; repeat split; cbn; try discriminate; auto; fail);
    try (eexists; reflexivity);
    destruct Hcase as [(? & ? & ?)|[(? & ? & ? & ? & [?|?])|(? & ? & ? & ?)]];
    simplify_eq/=; congruence.
Qed.


(** *** How often the server is asked *)

Lemma retrying_posts_bound {A} (func : M A) :
  one_post func ->
  forall remaining attempt_number st,
    posts st < posts (snd (retrying remaining attempt_number func st))
    /\ posts (snd (retrying remaining attempt_number func st))
       <= posts st + remaining + 1
    /\ SANDBOX_ENDPOINT (snd (retrying remaining attempt_number func st))
       = SANDBOX_ENDPOINT st.
Proof.
  intros Hone.
  induction remaining as [|remaining IH]; intros attempt_number st;
    cbn [retrying]; unfold try_except;
    destruct (Hone st) as [Hp He]; destruct (func st) as [[a|e] st1];
    cbn [snd] in *; try (split; [lia | split; [lia | exact He]]);
    destruct (is_Exception e); cbn [snd];
    try (split; [lia | split; [lia | exact He]]).
  - unfold on_retry_error, mbind, M_bind, logger, raise. cbn [snd posts].
    split; [lia | split; [lia | exact He]].
  - unfold mbind, M_bind, before_retry_sleep, logger. cbn [fst snd].
    match goal with
    | |- context [retrying remaining ?n func ?s] =>
        destruct (IH n s) as (H1 & H2 & H3)
    end.
    cbn [posts SANDBOX_ENDPOINT] in *.
    split; [lia | split; [lia | congruence]].
Qed.

(** X22.  Whatever the server does, [run_code], [run_jupyter] and [submit] ask it
    at least once and never more than [max(1, max_attempts)] times, and
    leave the endpoint setting alone. *)
Theorem attempts_bounded :
  (forall Req (srv : Server Req RunCodeResponse) request endpoint max_attempts st,
     let st' := snd (run_code srv request endpoint max_attempts st) in
     posts st < posts st'
     /\ (Z.of_nat (posts st' - posts st) <= Z.max 1 max_attempts)%Z
     /\ SANDBOX_ENDPOINT st' = SANDBOX_ENDPOINT st)
  /\ (forall Req (srv : Server Req RunJupyterResponse) request endpoint
             max_attempts st,
     let st' := snd (run_jupyter srv request endpoint max_attempts st) in
     posts st < posts st'
     /\ (Z.of_nat (posts st' - posts st) <= Z.max 1 max_attempts)%Z
     /\ SANDBOX_ENDPOINT st' = SANDBOX_ENDPOINT st)
  /\ (forall (srv : Server SubmitRequest EvalResult) request endpoint
             max_attempts st,
     let st' := snd (submit srv request endpoint max_attempts st) in
     posts st < posts st'
     /\ (Z.of_nat (posts st' - posts st) <= Z.max 1 max_attempts)%Z
     /\ SANDBOX_ENDPOINT st' = SANDBOX_ENDPOINT st).
Proof.
  assert (Hbound : forall A (func : M A) max_attempts st,
            one_post func ->
            let st' := snd (configurable_retry max_attempts func st) in
            posts st < posts st'
            /\ (Z.of_nat (posts st' - posts st) <= Z.max 1 max_attempts)%Z
            /\ SANDBOX_ENDPOINT st' = SANDBOX_ENDPOINT st).
  { intros A func max_attempts st Hone. unfold configurable_retry.
    destruct (retrying_posts_bound func Hone (Z.to_nat (max_attempts - 1)) 1 st)
      as (H1 & H2 & H3).
    cbv zeta. split; [exact H1 | split; [lia | exact H3]]. }
  split; [|split]; intros; apply Hbound; intros s.
  - rewrite _run_code_spec. auto.
  - unfold _run_jupyter, mbind, M_bind, base_url, post, raise. cbn [fst snd].
    destruct (srv _ _ _) as [r t|code text [x|r t]]; cbn; auto;
      destruct (negb (code =? 200)%Z); cbn; auto.
    destruct (RunStatus_eqb _ _); cbn; auto.
  - unfold _submit, mbind, M_bind, base_url, post, raise. cbn [fst snd].
    destruct (srv _ _ _) as [r t|code text [x|r t]]; cbn; auto;
      destruct (negb (code =? 200)%Z); cbn; auto.
Qed.

End RequestsFacts.

(** ** More on the grading harness *)

Module RunTestFacts.
Import Py Harness Driver Spec StringFacts.

(** *** [truncatefn] *)

Lemma length_take (n : nat) (s : string) :
  String.length (take n s) = Nat.min n (String.length s).
Proof.
  revert s; induction n as [|n IH]; intros [|c s]; simpl; try reflexivity.
  now rewrite IH.
Qed.

(** X7.  A text no longer than [length] is returned as it is.  Of a longer
    one, for a positive [length], the first [length // 2] and the last
    [(length + 1) // 2] characters are kept around the marker, which makes
    [length + 18] characters, more than the text had if it was less than 18
    over; for [length = 0] nothing is cut and the marker is put in front. *)
Theorem truncatefn_shape (s : string) (length : Z) :
  ((Z.of_nat (String.length s) <= length)%Z -> truncatefn s length = s)
  /\ ((0 < length < Z.of_nat (String.length s))%Z ->
      truncatefn s length
      = take (Z.to_nat (length / 2)) s ++ "...(truncated) ..."
        ++ drop (String.length s - Z.to_nat ((length + 1) / 2)) s
      /\ Z.of_nat (String.length (truncatefn s length)) = (length + 18)%Z)
  /\ (length = 0%Z -> s <> "" ->
      truncatefn s length = "...(truncated) ..." ++ s).
Proof.
  unfold truncatefn, slice_to, slice_from, slice_index.
  split; [|split].
  - intros H. now apply Z.leb_le in H as ->.
  - intros [Hpos Hlong].
    destruct (Z.leb_spec (Z.of_nat (String.length s)) length) as [?|_]; [lia|].
    destruct (Z.ltb_spec (length / 2) 0) as [?|_];
      [Z.div_mod_to_equations; lia|].
    destruct (Z.ltb_spec (- length / 2) 0) as [_|?];
      [|Z.div_mod_to_equations; lia].
    assert (E1 : Nat.min (Z.to_nat (length / 2)) (String.length s)
                 = Z.to_nat (length / 2))
      by (Z.div_mod_to_equations; lia).
    assert (E2 : Z.to_nat (Z.max (Z.of_nat (String.length s) + - length / 2) 0)
                 = String.length s - Z.to_nat ((length + 1) / 2))
      by (Z.div_mod_to_equations; lia).
    rewrite E1, E2. split; [reflexivity|].
    rewrite !length_app, length_take, length_drop. cbn [String.length].
    Z.div_mod_to_equations; lia.
  - intros -> Hs.
    destruct s as [|c s]; [congruence|]. reflexivity.
Qed.

Lemma truncatefn_shape_witness :
  truncatefn "abc" 5 = "abc"
  /\ (truncatefn "abcdefghij" 5 = "ab...(truncated) ...hij"
      /\ Z.of_nat (String.length (truncatefn "abcdefghij" 5)) = 23%Z)
  /\ truncatefn "abc" 0 = "...(truncated) ...abc".
Proof.
  split; [|split].
  - apply (proj1 (truncatefn_shape "abc" 5)). simpl. lia.
  - apply (proj1 (proj2 (truncatefn_shape "abcdefghij" 5))). simpl. lia.
  - apply (proj2 (proj2 (truncatefn_shape "abc" 0))); [reflexivity|discriminate].
Defined.


(** *** What [run_test] can return *)

Section results.
Context (R : Runtime).

Lemma on_fault_inv e a b (st : lstate R) f st' :
  on_fault R e a b st = (f, st') ->
  match f with
  | Next => False
  | Return d =>
      results R st' = (results R st ++ [EInt (-1)])%list /\ reports_fault d
  | Propagate _ => True
  end.
Proof.
  unfold on_fault, fault_diag.
  destruct (is_Exception e); intros [= <- <-]; [|exact I].
  split; [reflexivity|]. unfold reports_fault.
  destruct (contains _ _); [left | right]; split; reflexivity.
Qed.

Lemma on_fault_post ok bad late e a b index m (st : lstate R) f st' :
  on_fault R e a b (enter R index m st) = (f, st') ->
  step_post R ok bad late index st f st'.
Proof.
  intros H. apply on_fault_inv in H.
  destruct f; [contradiction | right; left; exact H | exact I].
Qed.

(** In standard-input mode a case leaves [True], [False] or -1. *)
Lemma step_shape_stdin method_name io index x (st st' : lstate R) f :
  step R standard_input method_name io index x st = (f, st') ->
  step_post R (fun e => e = EBool true) (fun e => e = EBool false) False
    index st f st'.
Proof.
  cbn [step]. unfold step_standard_input.
  destruct (nth_error _ _); [|intros [= <- _]; exact I].
  destruct (call_method R _ _) as [[[u|e] out] m]; [|apply on_fault_post].
  destruct (judge_stdin R _ _); intros [= <- <-].
  - split; [reflexivity|]. eexists. split; reflexivity.
  - left. eexists. split; [reflexivity|]. split; [reflexivity|].
    split; reflexivity.
Qed.

(** In call-based mode a case leaves the entry the comparison made, and -1
    after it if line 345 raises. *)
Lemma step_shape_call method_name io index x (st st' : lstate R) f :
  step R call_based method_name io index x st = (f, st') ->
  step_post R (passed R) (differs R) True index st f st'.
Proof.
  cbn [step]. unfold step_call_based.
  destruct (nth_error _ _); [|intros [= <- _]; exact I].
  destruct (traverse _ _); [|intros [= <- _]; exact I].
  destruct (json_loads R _); [|intros [= <- _]; exact I].
  destruct (call R _ _ _) as [[output|e] m]; [|apply on_fault_post].
  destruct (judge_call R _ _) as [[tmp_result dumped]|e]; [|apply on_fault_post].
  destruct (ne_True R tmp_result) as [[]|e] eqn:Hline.
  - intros [= <- <-]. left. exists tmp_result.
    split; [reflexivity|]. split; [exact Hline | split; reflexivity].
  - intros [= <- <-]. split; [reflexivity|]. exists tmp_result.
    split; [reflexivity | exact Hline].
  - intros H. apply on_fault_inv in H.
    destruct f; [contradiction | | exact I].
    destruct H as [Hy Hd]. cbn in Hy |- *.
    right; right. split; [exact I|]. exists tmp_result.
    split; [|exact Hd]. rewrite Hy, <- List.app_assoc. reflexivity.
Qed.

Lemma stopped_mono (bad1 bad2 : entry (value R) -> Prop)
    (late1 late2 : Prop) before res d :
  (forall x, bad1 x -> bad2 x) -> (late1 -> late2) ->
  stopped R bad1 late1 before res d -> stopped R bad2 late2 before res d.
Proof.
  intros Hbad Hlate [(x & -> & Hx & Hd)|[[-> Hd]|(Hl & x & -> & Hd)]].
  - left. eauto.
  - right; left. auto.
  - right; right. eauto.
Qed.

(** In either mode. *)
Lemma step_shape which_type method_name io index x (st st' : lstate R) f :
  step R which_type method_name io index x st = (f, st') ->
  step_post R (passed R) (differs R) True index st f st'.
Proof.
  destruct which_type; [apply step_shape_call|].
  intros H. apply step_shape_stdin in H. destruct f; cbn in *.
  - destruct H as (Hinv & y & Hy & ->). split; [exact Hinv|].
    exists (EBool true). split; [exact Hy | reflexivity].
  - revert H. apply stopped_mono; [now intros y -> | tauto].
  - exact I.
Qed.

Lemma run_cases_shape (ok bad : entry (value R) -> Prop) (late : Prop)
    (body : nat -> string -> lstate R -> flow * lstate R) :
  (forall index x st f st',
     body index x st = (f, st') -> step_post R ok bad late index st f st') ->
  forall (cases : list string) i (st st' : lstate R) f,
    invoked R st = seq 0 i ->
    List.length (results R st) = i ->
    Forall ok (results R st) ->
    run_cases R body i cases st = (f, st') ->
    run_post R ok bad late (i + List.length cases) f st'.
Proof.
  intros Hbody.
  induction cases as [|x cases IH]; intros i st st' f Hinv Hlen Hok;
    cbn [run_cases List.length].
  - intros [= <- <-]. rewrite Nat.add_0_r. cbn. auto.
  - destruct (body i x st) as [f1 st1] eqn:Hstep.
    apply Hbody in Hstep. destruct f1; cbn [step_post] in Hstep.
    + destruct Hstep as (Hinv1 & y & Hres1 & Hy). intros Hrun.
      replace (i + S (List.length cases)) with (S i + List.length cases) by lia.
      apply (IH (S i) st1 st' f); [| | |exact Hrun].
      * rewrite Hinv1, Hinv. symmetry. apply seq_S.
      * rewrite Hres1, List.length_app. cbn. lia.
      * rewrite Hres1. apply Forall_app. split; [exact Hok|]. now constructor.
    + intros [= <- <-]. exists (results R st).
      split; [lia|]. split; [exact Hok | exact Hstep].
    + intros [= <- <-]. exact I.
Qed.

Lemma all_True (l : list (entry (value R))) :
  Forall (fun e => e = EBool true) l -> l = passes (List.length l).
Proof.
  induction 1 as [|y l -> _ IH]; [reflexivity|].
  cbn [List.length]. unfold passes. cbn [repeat]. f_equal. exact IH.
Qed.

Lemma True_passed (l : list (entry (value R))) :
  Forall (fun e => e = EBool true) l -> Forall (passed R) l.
Proof. intros H. eapply Forall_impl; [exact H|]. now intros y ->. Qed.

(** What the loop leaves behind when [run_test] returns, in each mode. *)
Lemma run_test_returns (io : InOuts) (test : string) res d :
  run_test R io test = Ret (res, d) ->
  (res = [EInt (-2)]
   /\ d !! "error_code" = Some (DInt (-1))
   /\ run_test_invoked R io test = [])
  \/ exists f st,
       res = results R st
       /\ run_test_invoked R io test = invoked R st
       /\ match f with Next => d = ∅ | Return d' => d = d' | Propagate _ => False end
       /\ match fn_name io with
          | None => run_post R (fun e => e = EBool true) (fun e => e = EBool false)
                      False (List.length (inputs io)) f st
          | Some _ => run_post R (passed R) (differs R) True
                        (List.length (inputs io)) f st
          end.
Proof.
  unfold run_test, run_test_invoked, run_test_state, which.
  destruct (fn_name io) as [fn|];
    (destruct (load R _ test) as [m|e];
     [|destruct (is_Exception e); cbn [fst snd]; [|discriminate];
       intros [= <- <-]; left; split; [reflexivity | split; reflexivity]]);
    (destruct (get_attr R m _) as [u|e]; cbn [fst snd];
     [|intros [= <- <-]; left; split; [reflexivity | split; reflexivity]]);
    destruct (run_cases R _ 0 (inputs io) (start R m)) as [f st] eqn:Hcases;
    intros Hret; right; exists f, st.
  - apply (run_cases_shape (passed R) (differs R) True) in Hcases;
      [| intros; eapply step_shape_call; eassumption
       | reflexivity | reflexivity | constructor].
    destruct f; try discriminate Hret; injection Hret as <- <-; auto.
  - apply (run_cases_shape (fun e => e = EBool true) (fun e => e = EBool false)
             False) in Hcases;
      [| intros; eapply step_shape_stdin; eassumption
       | reflexivity | reflexivity | constructor].
    destruct f; try discriminate Hret; injection Hret as <- <-; auto.
Qed.

End results.

(** X8.  A result [run_test] returns has one of these shapes.  One entry for
    every test case, each of which passes the test [!= True], with an empty
    diagnostic and the candidate invoked on every case.  Or entries that pass for the cases before the one that ended
    the run, then: an entry that differs from [True] and a diagnostic with
    code -2, Wrong Answer; or -1 and a diagnostic with code -3, Time Limit
    Exceeded, or -4, Runtime Error; or, in call-based mode only, the entry
    the comparison made and then -1 as well, when a fault came only after
    the entry was appended.  Or [-2] alone and a diagnostic with code -1, the
    candidate never invoked.  In standard-input mode the entries that pass
    are [True] itself and the entry of a wrong answer is [False]. *)
Theorem run_test_result_shape (R : Runtime) (io : InOuts) (test : string)
    (res : list (entry (value R))) (d : gmap string dval)
    (Hrun : run_test R io test = Ret (res, d)) :
  ((List.length res = List.length (inputs io)
    /\ Forall (passed R) res /\ d = ∅
    /\ run_test_invoked R io test = seq 0 (List.length (inputs io)))
   \/ (exists before,
         List.length before < List.length (inputs io)
         /\ Forall (passed R) before
         /\ ((exists x, res = (before ++ [x])%list /\ differs R x
                         /\ reports_wrong_answer d)
             \/ (res = (before ++ [EInt (-1)])%list /\ reports_fault d)
             \/ (fn_name io <> None
                 /\ exists x, res = (before ++ [x; EInt (-1)])%list
                              /\ reports_fault d)))
   \/ (res = [EInt (-2)]
       /\ d !! "error_code" = Some (DInt (-1))
       /\ run_test_invoked R io test = []))
  /\ (fn_name io = None ->
      (res = passes (List.length (inputs io)) /\ d = ∅)
      \/ (exists k, k < List.length (inputs io)
            /\ ((res = (passes k ++ [EBool false])%list
                 /\ reports_wrong_answer d)
                \/ (res = (passes k ++ [EInt (-1)])%list /\ reports_fault d)))
      \/ res = [EInt (-2)]).
Proof.
  apply run_test_returns in Hrun
    as [(-> & Hd & Hinv)|(f & st & -> & Hinv & Hd & Hpost)].
  { split; [right; right; auto | intros _; right; right; reflexivity]. }
  destruct (fn_name io) as [fn|]; destruct f; try contradiction; cbn in Hpost.
  - destruct Hpost as (Hseq & Hlen & Hok). subst d.
    split; [left; rewrite Hinv; auto | discriminate].
  - destruct Hpost as (before & Hlen & Hok & Hstop). subst d0.
    split; [|discriminate]. right; left. exists before.
    split; [exact Hlen|]. split; [exact Hok|].
    destruct Hstop as [(y & Hy & Hbad & Hd)|[[Hy Hd]|(_ & y & Hy & Hd)]].
    + left. eauto.
    + right; left. auto.
    + right; right. split; [discriminate|]. eauto.
  - destruct Hpost as (Hseq & Hlen & Hok). subst d.
    split.
    + left. rewrite Hinv. split; [exact Hlen|].
      split; [now apply True_passed | auto].
    + intros _. left. split; [|reflexivity].
      rewrite <- Hlen. now apply all_True.
  - destruct Hpost as (before & Hlen & Hok & Hstop). subst d0.
    split.
    + right; left. exists before. split; [exact Hlen|].
      split; [now apply True_passed|].
      destruct Hstop as [(y & Hy & -> & Hd)|[[Hy Hd]|([] & _)]].
      * left. exists (EBool false). split; [exact Hy|]. split; [reflexivity | exact Hd].
      * right; left. auto.
    + intros _. right; left. exists (List.length before).
      split; [exact Hlen|]. rewrite <- (all_True R before Hok).
      destruct Hstop as [(y & Hy & -> & Hd)|[[Hy Hd]|([] & _)]]; auto.
Qed.

Lemma run_test_result_shape_witness :
  run_test HarnessExamples.touchy (HarnessExamples.one_case (Some "f"))
    "def f(x): return Vector(x)"
  = Ret ([EObj "array([ True])"; EInt (-1)],
         fault_diag HarnessExamples.ValueError "7" "7")
  /\ exists before,
       List.length before < 1
       /\ Forall (passed HarnessExamples.touchy) before
       /\ [EObj "array([ True])"; EInt (-1)]
          = (before ++ [EObj "array([ True])"; EInt (-1)])%list
       /\ reports_fault (fault_diag HarnessExamples.ValueError "7" "7").
Proof.
  split; [reflexivity|].
  destruct (proj1 (run_test_result_shape HarnessExamples.touchy
                     (HarnessExamples.one_case (Some "f"))
                     "def f(x): return Vector(x)" _ _ eq_refl))
    as [(Hlen & _)|[(before & Hlen & Hok & Hstop)|(Hres & _)]].
  - discriminate Hlen.
  - exists before. split; [exact Hlen|]. split; [exact Hok|].
    destruct before as [|y before]; [|cbn in Hlen; lia].
    destruct Hstop as [(y & Hy & _)|[[Hy _]|(_ & y & Hy & Hd)]];
      [discriminate Hy | discriminate Hy |].
    split; [reflexivity | exact Hd].
  - discriminate Hres.
Defined.

(** *** The order of the invocations *)

Section order.
Context (R : Runtime).

Lemma run_cases_in_order which_type method_name io (cases : list string) :
  forall i (st st' : lstate R) f,
    invoked R st = seq 0 i ->
    run_cases R (step R which_type method_name io) i cases st = (f, st') ->
    exists k, i <= k <= i + List.length cases /\ invoked R st' = seq 0 k.
Proof.
  induction cases as [|x cases IH]; intros i st st' f Hinv; cbn [run_cases].
  - intros [= _ <-]. exists i. split; [lia | exact Hinv].
  - destruct (step R _ _ _ i x st) as [f1 st1] eqn:Hstep.
    pose proof (HarnessFacts.step_invoked R _ _ _ _ _ _ _ _ Hstep) as Hany.
    pose proof (step_shape R _ _ _ _ _ _ _ _ Hstep) as Hpost.
    assert (Hstop : exists k, i <= k <= i + List.length (x :: cases)
                              /\ invoked R st1 = seq 0 k).
    { destruct Hany as [->| ->].
      - exists i. cbn [List.length]. split; [lia | exact Hinv].
      - exists (S i). cbn [List.length]. split; [lia|].
        rewrite Hinv. symmetry. apply seq_S. }
    destruct f1; [|now intros [= _ <-] | now intros [= _ <-]].
    destruct Hpost as [Hnext _]. intros Hrun.
    apply (IH (S i)) in Hrun as (k & Hk & Hseq);
      [|rewrite Hnext, Hinv; symmetry; apply seq_S].
    exists k. cbn [List.length]. split; [lia | exact Hseq].
Qed.

End order.

(** X23.  Whatever it returns or raises, [run_test] has invoked the candidate on
    the cases 0, 1, ... up to some case, once each and in this order: no case
    is skipped, none is run twice, and none is run after a case that ended
    the run. *)
Theorem candidate_invoked_in_order (R : Runtime) (io : InOuts) (test : string) :
  exists k, k <= List.length (inputs io)
            /\ run_test_invoked R io test = seq 0 k.
Proof.
  unfold run_test_invoked, run_test_state.
  destruct (which io) as [which_type method_name].
  destruct (load R which_type test) as [m|e];
    [|exists 0; destruct (is_Exception e); split; (lia || reflexivity)].
  destruct (get_attr R m method_name) as [u|e];
    [|exists 0; split; (lia || reflexivity)].
  cbn [fst].
  destruct (run_cases R _ 0 (inputs io) (start R m)) as [f st] eqn:Hcases.
  apply (run_cases_in_order R _ _ _ _ 0) in Hcases as (k & Hk & Hseq);
    [|reflexivity].
  exists k. split; [lia | exact Hseq].
Qed.

(** *** The driver *)

Section any.
Context (R : Runtime).

Lemma any_passed (l r : list (entry (value R))) :
  Forall (passed R) l -> any_ne_True R (l ++ r)%list = any_ne_True R r.
Proof.
  induction 1 as [|y l Hy _ IH]; [reflexivity|].
  cbn [List.app any_ne_True]. unfold passed in Hy. now rewrite Hy.
Qed.




End any.


(** The second way, on a call-based candidate that calls [sys.exit(0)]:
    [run_test] does not return and the process ends with the status 0. *)
Example quitter_ends_with_0 :
  run_test HarnessExamples.quitter (HarnessExamples.one_case (Some "f"))
    "def f(x): exit(0)" = Raise HarnessExamples.SystemExit
  /\ ends_with_0 HarnessExamples.exits_0
       (main HarnessExamples.quitter (HarnessExamples.one_case (Some "f"))
          "def f(x): exit(0)") = true.
Proof. split; reflexivity. Qed.

(** *** A wrong answer *)

Section wrong.
Context (R : Runtime).

Lemma step_wrong io (index : nat) (x raw_out shown : string) (st : lstate R) :
  nth_error (outputs io) index = Some raw_out ->
  wrong_on R io x raw_out (tmp R st) shown ->
  exists m,
    step R (which io).1 (which io).2 io index x st
    = (Return (wrong_answer (truncatefn shown 200) (truncatefn raw_out 200)
                 (reported_inputs io x)),
       {| results := (results R st ++ [EBool false])%list;
          tmp := m;
          invoked := (invoked R st ++ [index])%list |}).
Proof.
  unfold wrong_on, reported_inputs, which.
  intros Hout Hwrong.
  destruct (fn_name io) as [f|]; cbn [fst snd step].
  - destruct Hwrong as (args & expected & output & Hargs & Hexp & Hcall & Hjudge).
    unfold step_call_based. rewrite Hout, Hargs, Hexp.
    destruct (call R _ _ _) as [r m]. simpl in Hcall. subst r.
    rewrite Hjudge. exists m. reflexivity.
  - destruct Hwrong as (Hret & Hshown & Hjudge).
    unfold step_standard_input. rewrite Hout.
    destruct (call_method R _ _) as [[r out] m]. simpl in Hret, Hshown.
    subst r out. rewrite Hjudge. exists m. reflexivity.
Qed.

End wrong.

(** X10.  In call-based and in standard-input mode alike: when the loop has
    passed the cases before [x] and the answer of the candidate on [x] is
    rejected, [run_test] returns at once with the results gathered so far
    followed by [False] and a diagnostic with code -2, Wrong Answer, the
    answer, the expected text and the input, each truncated.  The candidate
    is not invoked on a later case, and the driver prints the diagnostic and
    exits with -1. *)
Theorem wrong_answer_aborts_run (R : Runtime) (io : InOuts) (test : string)
    (pre post : list string) (x raw_out shown : string)
    (m : module R) (st : lstate R)
    (Hinputs : inputs io = (pre ++ x :: post)%list)
    (Hout : nth_error (outputs io) (List.length pre) = Some raw_out)
    (Hload : load R (which io).1 test = Ret m)
    (Hattr : get_attr R m (which io).2 = Ret tt)
    (Hpre : run_cases R (step R (which io).1 (which io).2 io) 0 pre (start R m)
            = (Next, st))
    (Hwrong : wrong_on R io x raw_out (tmp R st) shown) :
  let d := wrong_answer (truncatefn shown 200) (truncatefn raw_out 200)
             (reported_inputs io x) in
  run_test R io test = Ret ((results R st ++ [EBool false])%list, d)
  /\ d !! "error_code" = Some (DInt (-2))
  /\ d !! "error_message" = Some (DStr "Wrong Answer")
  /\ d !! "output" = Some (DStr (truncatefn shown 200))
  /\ d !! "expected" = Some (DStr (truncatefn raw_out 200))
  /\ d !! "inputs" = Some (DStr (reported_inputs io x))
  /\ run_test_invoked R io test = (invoked R st ++ [List.length pre])%list
  /\ main R io test = Exit (-1) (Some d).
Proof.
  intros d.
  destruct (step_wrong R io (List.length pre) x raw_out shown st Hout Hwrong)
    as [m' Hstep].
  assert (Hrun : run_test_state R io test
                 = (Some (Return d,
                          {| results := (results R st ++ [EBool false])%list;
                             tmp := m';
                             invoked := (invoked R st ++ [List.length pre])%list |}),
                    Ret ((results R st ++ [EBool false])%list, d))).
  { unfold run_test_state.
    destruct (which io) as [which_type method_name]. cbn [fst snd] in *.
    rewrite Hload, Hattr, Hinputs, HarnessFacts.run_cases_app, Hpre.
    cbn [run_cases Nat.add]. rewrite Hstep. reflexivity. }
  assert (Hres : run_test R io test
                 = Ret ((results R st ++ [EBool false])%list, d))
    by (unfold run_test; now rewrite Hrun).
  split; [exact Hres|].
  repeat (split; [reflexivity|]).
  split.
  - unfold run_test_invoked. now rewrite Hrun.
  - unfold main. rewrite Hres.
    apply (run_cases_shape R (passed R) (differs R) True) in Hpre;
      [| intros; eapply step_shape; eassumption
       | reflexivity | reflexivity | constructor].
    destruct Hpre as (_ & _ & Hok). now rewrite (any_passed R _ _ Hok).
Qed.

Lemma wrong_answer_aborts_run_witness :
  (run_test HarnessExamples.echo (HarnessExamples.second_differs None) "print(input())"
   = Ret ([EBool true; EBool false], wrong_answer "5" "2" "5")
   /\ run_test_invoked HarnessExamples.echo (HarnessExamples.second_differs None)
        "print(input())" = [0; 1]
   /\ main HarnessExamples.echo (HarnessExamples.second_differs None) "print(input())"
      = Exit (-1) (Some (wrong_answer "5" "2" "5")))
  /\ (run_test HarnessExamples.echo (HarnessExamples.second_differs (Some "f"))
        "def f(x): return x"
      = Ret ([EBool true; EBool false], wrong_answer "5" "2" "5")
      /\ run_test_invoked HarnessExamples.echo
           (HarnessExamples.second_differs (Some "f")) "def f(x): return x" = [0; 1]
      /\ main HarnessExamples.echo (HarnessExamples.second_differs (Some "f"))
           "def f(x): return x"
         = Exit (-1) (Some (wrong_answer "5" "2" "5"))).
Proof.
  pose (st := Build_lstate HarnessExamples.echo [EBool true] 1 [0]).
  split.
  - destruct (wrong_answer_aborts_run HarnessExamples.echo
                (HarnessExamples.second_differs None)
                "print(input())" ["1"] ["3"] "5" "2" "5" 0 st
                eq_refl eq_refl eq_refl eq_refl eq_refl
                (conj eq_refl (conj eq_refl eq_refl)))
      as (Hrun & _ & _ & _ & _ & _ & Hinv & Hmain).
    split; [exact Hrun | split; [exact Hinv | exact Hmain]].
  - destruct (wrong_answer_aborts_run HarnessExamples.echo
                (HarnessExamples.second_differs (Some "f"))
                "def f(x): return x" ["1"] ["3"] "5" "2" "5" 0 st
                eq_refl eq_refl eq_refl eq_refl eq_refl
                (ex_intro _ ["5"] (ex_intro _ "2" (ex_intro _ "5"
                   (conj eq_refl (conj eq_refl (conj eq_refl eq_refl)))))))
      as (Hrun & _ & _ & _ & _ & _ & Hinv & Hmain).
    split; [exact Hrun | split; [exact Hinv | exact Hmain]].
Defined.


(** *** [SystemExit] *)

(** X11.  A candidate that raises [SystemExit] on the case [x] is treated
    differently by the two modes.  In call-based mode nothing catches it:
    [run_test] raises it, the results gathered so far are lost and the driver
    ends with it.  In standard-input mode [call_method] swallows it and the
    case is judged on what had been printed: if that is accepted and [x] is
    the last case, the driver exits with 0. *)
Theorem SystemExit_by_mode (R : Runtime) (io : InOuts) (test : string)
    (pre post : list string) (x raw_out : string)
    (m : module R) (st : lstate R) (e : exn)
    (Hinputs : inputs io = (pre ++ x :: post)%list)
    (Hout : nth_error (outputs io) (List.length pre) = Some raw_out)
    (Hload : load R (which io).1 test = Ret m)
    (Hattr : get_attr R m (which io).2 = Ret tt)
    (Hpre : run_cases R (step R (which io).1 (which io).2 io) 0 pre (start R m)
            = (Next, st))
    (Hfault : faults_on R io x raw_out (tmp R st) e)
    (Hexit : exn_kind e = SystemExitClass) :
  (fn_name io <> None ->
   run_test R io test = Raise e /\ main R io test = Uncaught e)
  /\ (fn_name io = None -> post = [] ->
      judge_stdin R (snd (fst (run_code R (tmp R st) x))) raw_out = true ->
      main R io test = Exit 0 None).
Proof.
  assert (Hok : Forall (passed R) (results R st)).
  { apply (run_cases_shape R (passed R) (differs R) True) in Hpre;
      [| intros; eapply step_shape; eassumption
       | reflexivity | reflexivity | constructor].
    now destruct Hpre as (_ & _ & Hok). }
  unfold main, run_test, run_test_state, faults_on, which in *.
  destruct (fn_name io) as [f|]; cbn [fst snd] in *;
    (split; [intros Hmode | intros Hmode]); try congruence.
  - destruct Hfault as (args & expected & Hargs & Hexp & Hcall).
    rewrite Hload, Hattr, Hinputs, HarnessFacts.run_cases_app, Hpre.
    cbn [run_cases Nat.add step]. unfold step_call_based.
    rewrite Hout, Hargs, Hexp.
    destruct (call R _ _ _) as [r m']. simpl in Hcall. subst r.
    unfold on_fault, is_Exception. rewrite Hexit. cbn [snd]. auto.
  - intros -> Hjudge.
    rewrite Hload, Hattr, Hinputs, HarnessFacts.run_cases_app, Hpre.
    cbn [run_cases Nat.add step]. unfold step_standard_input, call_method.
    rewrite Hout.
    destruct (run_code R _ _) as [[r out] m']. simpl in Hfault, Hjudge.
    subst r. rewrite Hexit, Hjudge. cbn [snd append enter results].
    now rewrite (any_passed R _ _ Hok).
Qed.

Lemma SystemExit_by_mode_witness :
  (run_test HarnessExamples.quitter (HarnessExamples.one_case (Some "f"))
     "def f(x): exit(0)" = Raise HarnessExamples.SystemExit
   /\ main HarnessExamples.quitter (HarnessExamples.one_case (Some "f"))
        "def f(x): exit(0)" = Uncaught HarnessExamples.SystemExit)
  /\ main HarnessExamples.quitter (HarnessExamples.one_case None)
       "print(input()); exit(0)" = Exit 0 None.
Proof.
  split.
  - apply (SystemExit_by_mode HarnessExamples.quitter
             (HarnessExamples.one_case (Some "f")) "def f(x): exit(0)"
             [] [] "7" "7" 0 (start HarnessExamples.quitter 0)
             HarnessExamples.SystemExit
             eq_refl eq_refl eq_refl eq_refl eq_refl
             (ex_intro _ ["7"] (ex_intro _ "7"
                (conj eq_refl (conj eq_refl eq_refl))))
             eq_refl).
    discriminate.
  - apply (SystemExit_by_mode HarnessExamples.quitter
             (HarnessExamples.one_case None) "print(input()); exit(0)"
             [] [] "7" "7" 0 (start HarnessExamples.quitter 0)
             HarnessExamples.SystemExit
             eq_refl eq_refl eq_refl eq_refl eq_refl eq_refl eq_refl);
      reflexivity.
Defined.


(** *** Faults in preparing a case *)

(** X12.  What goes wrong before the candidate is invoked on a case is not
    turned into a diagnostic.  When the cases before [x] have passed and
    there is no expected output for [x], [run_test] raises [IndexError] in
    either mode; in call-based mode, a line of [x] or the expected output
    that does not decode makes [run_test] raise the fault of the decoder.
    The results gathered so far are lost, the candidate is not invoked on
    [x], and the driver ends with the fault. *)
Theorem preparation_faults_escape (R : Runtime) (io : InOuts) (test : string)
    (pre post : list string) (x : string) (m : module R) (st : lstate R)
    (Hinputs : inputs io = (pre ++ x :: post)%list)
    (Hload : load R (which io).1 test = Ret m)
    (Hattr : get_attr R m (which io).2 = Ret tt)
    (Hpre : run_cases R (step R (which io).1 (which io).2 io) 0 pre (start R m)
            = (Next, st)) :
  let IndexError := MkExn ExceptionClass "IndexError('list index out of range')"
                      "list index out of range" in
  (nth_error (outputs io) (List.length pre) = None ->
   run_test R io test = Raise IndexError
   /\ main R io test = Uncaught IndexError
   /\ run_test_invoked R io test = invoked R st)
  /\ (forall raw_out e,
        fn_name io <> None ->
        nth_error (outputs io) (List.length pre) = Some raw_out ->
        traverse (json_loads R) (split LF x) = Raise e
        \/ ((exists args, traverse (json_loads R) (split LF x) = Ret args)
            /\ json_loads R raw_out = Raise e) ->
        run_test R io test = Raise e
        /\ main R io test = Uncaught e
        /\ run_test_invoked R io test = invoked R st).
Proof.
  intros IndexError.
  assert (Hescape : forall e,
            step R (which io).1 (which io).2 io (List.length pre) x st
            = (Propagate e, st) ->
            run_test R io test = Raise e
            /\ main R io test = Uncaught e
            /\ run_test_invoked R io test = invoked R st).
  { intros e Hstep.
    assert (Hstate : run_test_state R io test = (Some (Propagate e, st), Raise e)).
    { unfold run_test_state.
      destruct (which io) as [which_type method_name]. cbn [fst snd] in *.
      rewrite Hload, Hattr, Hinputs, HarnessFacts.run_cases_app, Hpre.
      cbn [run_cases Nat.add]. rewrite Hstep. reflexivity. }
    unfold main, run_test, run_test_invoked. rewrite Hstate. auto. }
  split.
  - intros Hout. apply Hescape. unfold which.
    destruct (fn_name io); cbn [fst snd step];
      unfold step_call_based, step_standard_input; now rewrite Hout.
  - intros raw_out e Hmode Hout Hdecode. apply Hescape. unfold which.
    destruct (fn_name io) as [f|]; [|congruence]. cbn [fst snd step].
    unfold step_call_based. rewrite Hout.
    destruct Hdecode as [->|[[args ->] ->]]; reflexivity.
Qed.

Lemma preparation_faults_escape_witness :
  run_test HarnessExamples.echo HarnessExamples.one_output_short "print(input())"
  = Raise (MkExn ExceptionClass "IndexError('list index out of range')"
             "list index out of range")
  /\ main HarnessExamples.echo HarnessExamples.one_output_short "print(input())"
     = Uncaught (MkExn ExceptionClass "IndexError('list index out of range')"
                   "list index out of range")
  /\ run_test_invoked HarnessExamples.echo HarnessExamples.one_output_short
       "print(input())" = [0].
Proof.
  apply (proj1 (preparation_faults_escape HarnessExamples.echo
                  HarnessExamples.one_output_short "print(input())"
                  ["1"] [] "2" 0
                  (Build_lstate HarnessExamples.echo [EBool true] 1 [0])
                  eq_refl eq_refl eq_refl eq_refl)).
  reflexivity.
Defined.


(** *** The input text of a call-based diagnostic *)

Lemma count_lstrip (c : ascii) (s : string) : count c (lstrip s) <= count c s.
Proof.
  induction s as [|d s IH]; cbn [lstrip count]; [lia|].
  destruct (isspace d); cbn [count]; lia.
Qed.

Lemma count_rstrip (c : ascii) (s : string) : count c (rstrip s) <= count c s.
Proof.
  induction s as [|d s IH]; cbn [rstrip count]; [lia|].
  destruct (rstrip s) as [|e r] eqn:Hr.
  - destruct (isspace d); cbn [count]; lia.
  - cbn [count] in *. lia.
Qed.

Lemma split_no_sep (c : ascii) (s : string) : count c s = 0 -> split c s = [s].
Proof.
  induction s as [|d s IH]; cbn [count split]; [reflexivity|].
  destruct (Ascii.eqb d c); [discriminate|]. cbn [Nat.add].
  intros H. now rewrite (IH H).
Qed.

(** X13.  The input text a call-based diagnostic shows.  An input of one line
    is shown stripped and cut to 300 characters.  An input with 300 line
    ends or more has a line budget of zero, and then nothing is cut: every
    line of the stripped input that is not empty is shown whole, with the
    marker in front of it. *)
Theorem call_inputs_report (raw_inputs : string) :
  (count LF raw_inputs = 0 ->
   truncate_call_inputs raw_inputs = truncatefn (strip raw_inputs) 300)
  /\ (300 <= count LF raw_inputs ->
      truncate_call_inputs raw_inputs
      = join NL (map (fun line => match line with
                                  | "" => ""
                                  | _ => "...(truncated) ..." ++ line
                                  end)
                     (split LF (strip raw_inputs)))).
Proof.
  unfold truncate_call_inputs. split.
  - intros H0. rewrite H0.
    assert (Hs : count LF (strip raw_inputs) = 0).
    { unfold strip.
      pose proof (count_rstrip LF (lstrip raw_inputs)).
      pose proof (count_lstrip LF raw_inputs). lia. }
    rewrite (split_no_sep _ _ Hs). reflexivity.
  - intros Hmany.
    assert (Hsize : (300 / (Z.of_nat (count LF raw_inputs) + 1) = 0)%Z)
      by (apply Z.div_small; lia).
    rewrite Hsize. f_equal. apply map_ext. intros [|c line]; reflexivity.
Qed.

Lemma call_inputs_report_witness :
  truncate_call_inputs " [1, 2, 3] " = truncatefn (strip " [1, 2, 3] ") 300
  /\ truncate_call_inputs HarnessExamples.many_lines
     = join NL (map (fun line => match line with
                                 | "" => ""
                                 | _ => "...(truncated) ..." ++ line
                                 end)
                    (split LF (strip HarnessExamples.many_lines))).
Proof.
  split.
  - apply (proj1 (call_inputs_report " [1, 2, 3] ")). reflexivity.
  - apply (proj2 (call_inputs_report HarnessExamples.many_lines)).
    apply Nat.leb_le. vm_compute. reflexivity.
Defined.

End RunTestFacts.

(** ** What the regular expressions of [extract_question] find *)

Module ExtractFacts.
Import Py Types Re LiveCodeBench Spec StringFacts.

Lemma take_drop (n : nat) (s : string) : take n s ++ drop n s = s.
Proof.
  revert s; induction n as [|n IH]; intros [|c s]; simpl; try reflexivity.
  now rewrite IH.
Qed.

Lemma startswith_inv (p s : string) :
  startswith p s = true -> s = p ++ drop (String.length p) s.
Proof.
  revert s; induction p as [|a p IH]; intros s H.
  - now rewrite drop_0.
  - destruct s as [|b s]; [discriminate H|].
    rewrite startswith_cons in H. apply andb_true_iff in H as [Hab H].
    apply Ascii.eqb_eq in Hab as ->. simpl. f_equal. now apply IH.
Qed.

Lemma greedy_inv {A} (cont : string -> option A) (s : string) (k j : nat) (r : A) :
  greedy cont s k = Some (j, r) -> j <= k /\ cont (drop j s) = Some r.
Proof.
  induction k as [|k IH]; cbn [greedy].
  - destruct (cont (drop 0 s)) as [r'|] eqn:Hc; [|discriminate].
    intros [= <- <-]. auto.
  - destruct (cont (drop (S k) s)) as [r'|] eqn:Hc.
    + intros [= <- <-]. auto.
    + intros H. apply IH in H as [? ?]. split; [lia | assumption].
Qed.

Lemma search_inv (p : list item) (gs : list string) :
  forall s, search p s = Some gs ->
            exists pre s', s = pre ++ s' /\ match_here p s' = Some gs.
Proof.
  induction s as [|c s IH]; cbn [search];
    destruct (match_here p _) as [g|] eqn:Hm.
  - intros [= <-]. exists EmptyString, EmptyString. auto.
  - discriminate.
  - intros [= <-]. exists EmptyString, (String c s). auto.
  - intros H. apply IH in H as (pre & s' & -> & H).
    exists (String c pre), s'. auto.
Qed.

(** A match of a literal, a group and a literal at the start of [s]. *)
Lemma match_lit_group_lit_inv (open close s : string) (gs : list string) :
  match_here [Lit open; Group; Lit close] s = Some gs ->
  exists g rest, gs = [g] /\ s = open ++ g ++ close ++ rest.
Proof.
  cbn [match_here].
  destruct (startswith open s) eqn:Hopen; [|discriminate].
  apply startswith_inv in Hopen.
  destruct (greedy _ _ _) as [[k gs']|] eqn:Hg; [|discriminate].
  apply greedy_inv in Hg as [_ Hg].
  destruct (startswith close _) eqn:Hclose; [|discriminate].
  apply startswith_inv in Hclose. injection Hg as <-. intros [= <-].
  eexists _, _. split; [reflexivity|].
  rewrite <- Hclose, take_drop. exact Hopen.
Qed.

(** X14.  Whenever [extract_question] returns, what it returns stands in the
    prompt between the markers: the question between [### Question:] with
    its line end and a blank line followed by [### Format:]; the starter
    code, or the placeholder [# YOUR CODE HERE] when none is returned,
    inside a python fence that follows [### Format: ] and is closed by a
    fence and a blank line.  The placeholder itself is never returned as a
    starter code. *)
Theorem extract_question_sound (prompt question : string)
    (start_code : option string)
    (Hret : extract_question prompt = Ret (question, start_code)) :
  (exists pre post,
     prompt = pre ++ question_open ++ question ++ question_close ++ post)
  /\ (exists pre mid post,
        prompt = pre ++ "### Format: " ++ mid ++ fence_open
                 ++ default "# YOUR CODE HERE" start_code
                 ++ fence_close ++ post)
  /\ start_code <> Some "# YOUR CODE HERE".
Proof.
  unfold extract_question in Hret.
  destruct (search question_re prompt) as [q|] eqn:Hq; [|discriminate].
  destruct (search start_code_re prompt) as [c|] eqn:Hc; [|discriminate].
  injection Hret as <- <-.
  apply search_inv in Hq as (pre & s & Hp & Hq).
  apply match_lit_group_lit_inv in Hq as (g & rest & -> & ->).
  apply search_inv in Hc as (pre' & s' & Hp' & Hc).
  unfold start_code_re in Hc. rewrite FewshotFacts.match_lit in Hc.
  destruct (startswith "### Format: " s') eqn:Hf; [|discriminate].
  apply startswith_inv in Hf.
  rewrite FewshotFacts.match_star in Hc.
  destruct (greedy _ _ _) as [[k gs]|] eqn:Hg; [|discriminate].
  injection Hc as ->.
  apply greedy_inv in Hg as [_ Hg].
  apply match_lit_group_lit_inv in Hg as (S & rest' & -> & Hs).
  cbn [group1 hd]. split; [|split].
  - exists pre, rest. exact Hp.
  - exists pre', (take k (drop (String.length "### Format: ") s')), rest'.
    assert (HS : default "# YOUR CODE HERE"
                   (if String.eqb S "# YOUR CODE HERE" then None else Some S) = S).
    { destruct (String.eqb_spec S "# YOUR CODE HERE") as [->|_]; reflexivity. }
    rewrite HS, Hp', Hf at 1. do 2 f_equal.
    rewrite <- (take_drop k (drop _ s')) at 1. f_equal. exact Hs.
  - destruct (String.eqb_spec S "# YOUR CODE HERE") as [->|Hne]; congruence.
Qed.

Lemma extract_question_sound_witness :
  (exists pre post,
     build_prompt "Add two numbers." "Use the starter code." "def add(a, b):" ""
     = pre ++ question_open ++ "Add two numbers." ++ question_close ++ post)
  /\ (exists pre mid post,
        build_prompt "Add two numbers." "Use the starter code." "def add(a, b):" ""
        = pre ++ "### Format: " ++ mid ++ fence_open
          ++ default "# YOUR CODE HERE" (Some "def add(a, b):")
          ++ fence_close ++ post)
  /\ Some "def add(a, b):" <> Some "# YOUR CODE HERE".
Proof.
  apply (extract_question_sound
           (build_prompt "Add two numbers." "Use the starter code."
              "def add(a, b):" "")
           "Add two numbers." (Some "def add(a, b):")).
  reflexivity.
Defined.


Lemma contains_head (sub s : string) :
  startswith sub s = true -> contains sub s = true.
Proof. intros H. destruct s; cbn [contains]; now rewrite H. Qed.

Lemma contains_mid (sub pre post : string) :
  contains sub (pre ++ sub ++ post) = true.
Proof.
  induction pre as [|c pre IH].
  - cbn [String.append]. apply contains_head, startswith_app.
  - cbn [String.append]. rewrite ReplaceFacts.contains_cons, IH.
    apply orb_true_r.
Qed.

(** X15.  Unless all five markers occur in the stored prompt, that is the
    opening and the end of the question, [### Format: ], the opening fence
    and the closing fence with its blank line, [extract_question] fails its
    assertion, and so does the generation of a few-shot prompt. *)
Theorem fewshot_needs_markers (prompt : string)
    (Habsent : contains question_open prompt
               && contains question_close prompt
               && contains "### Format: " prompt
               && contains fence_open prompt
               && contains fence_close prompt = false) :
  extract_question prompt = Raise AssertionError
  /\ _generate_fewshot_prompt prompt = Raise AssertionError.
Proof.
  assert (H : extract_question prompt = Raise AssertionError).
  { destruct (extract_question prompt) as [[q sc]|e] eqn:Hex.
    - apply extract_question_sound in Hex
        as ((pre & post & Hq) & (pre' & mid & post' & Hc) & _).
      assert (H1 : contains question_open prompt = true)
        by (rewrite Hq; apply contains_mid).
      assert (H2 : contains question_close prompt = true).
      { rewrite Hq.
        rewrite <- (app_assoc question_open q), <- (app_assoc pre).
        apply contains_mid. }
      assert (H3 : contains "### Format: " prompt = true)
        by (rewrite Hc; apply contains_mid).
      assert (H4 : contains fence_open prompt = true).
      { rewrite Hc.
        rewrite <- (app_assoc "### Format: " mid), <- (app_assoc pre').
        apply contains_mid. }
      assert (H5 : contains fence_close prompt = true).
      { rewrite Hc.
        rewrite <- (app_assoc fence_open), <- (app_assoc mid),
          <- (app_assoc "### Format: "), <- (app_assoc pre').
        apply contains_mid. }
      rewrite H1, H2, H3, H4, H5 in Habsent. discriminate Habsent.
    - unfold extract_question in Hex.
      destruct (search question_re prompt), (search start_code_re prompt);
        congruence. }
  split; [exact H|]. unfold _generate_fewshot_prompt. now rewrite H.
Qed.

Lemma fewshot_needs_markers_witness :
  extract_question ("### Question:" ++ NL ++ "Add two numbers.")
  = Raise AssertionError
  /\ _generate_fewshot_prompt ("### Question:" ++ NL ++ "Add two numbers.")
     = Raise AssertionError.
Proof.
  apply (fewshot_needs_markers ("### Question:" ++ NL ++ "Add two numbers.")).
  reflexivity.
Defined.

End ExtractFacts.

(** ** What every [evaluate_single] does with the sandbox *)

Module VerdictFacts.
Import Py Types Adapter Spec Verdict.

Lemma quiet_lift {A} (o : outcome A) : quiet (lift o).
Proof. intros st res st' H. now apply AdapterFacts.lift_inv in H. Qed.

Lemma quiet_ret {A} (a : A) : quiet (mret a).
Proof. intros st res st'. now intros [= _ <-]. Qed.

Lemma quiet_col row c : quiet (col row c).
Proof. apply quiet_lift. Qed.

Lemma quiet_get_table_name names dataset_id : quiet (get_table_name names dataset_id).
Proof. apply quiet_lift. Qed.

Lemma quiet_get_row request table columns :
  quiet (get_row_by_id_in_table request table columns).
Proof.
  intros st res st'. unfold get_row_by_id_in_table.
  destruct (tables st !! table ≫= _); now intros [= _ <-].
Qed.

Lemma quiet_bind {A B} (m : M A) (k : A -> M B) :
  quiet m -> (forall a, quiet (k a)) -> quiet (m ≫= k).
Proof.
  intros Hm Hk st res st' H.
  apply AdapterFacts.bind_inv in H as [(e & H & _) | (a & st1 & H & H')].
  - now apply Hm in H.
  - apply Hm in H as ->. now apply Hk in H'.
Qed.

Create HintDb quiet.

#[local] Hint Resolve quiet_lift quiet_ret quiet_col quiet_get_table_name
  quiet_get_row : quiet.

Lemma one_call_bind {A} E request (m : M A) (k : A -> M EvalResult) st res st' :
  quiet m ->
  (forall a, k a st = (res, st') -> one_call E request st res st') ->
  (m ≫= k) st = (res, st') ->
  one_call E request st res st'.
Proof.
  intros Hm Hk H.
  apply AdapterFacts.bind_inv in H as [(e & H & ->) | (a & st1 & H & H')].
  - apply Hm in H as ->. split; [reflexivity | now left].
  - apply Hm in H as ->. now apply (Hk a).
Qed.

Lemma one_call_final E request (req : RunCodeRequest)
    (mk : RunCodeResponse -> EvalResult) st res st' :
  (forall result,
     res_id (mk result) = id request
     /\ accepted (mk result) = RunStatus_eqb (status result) Success
     /\ exists info,
         tests (mk result) = [ {| passed := accepted (mk result);
                                  exec_info := Some result;
                                  test_info := info |} ]) ->
  (run_code_in_sandbox E req ≫= fun result => mret (mk result)) st = (res, st') ->
  one_call E request st res st'.
Proof.
  intros Hmk H.
  apply AdapterFacts.bind_inv in H as [(e & H & ->) | (result & st1 & H & H')];
    apply AdapterFacts.run_code_in_sandbox_inv in H as (Hres & Htab & Hsent).
  - split; [exact Htab|]. right. eauto.
  - injection H' as <- <-. split; [exact Htab|].
    exists req, result. destruct (Hmk result) as (Hid & Hacc & Hinfo). auto.
Qed.

Ltac one_call_steps :=
  repeat (apply one_call_bind; [solve [auto with quiet] | intros ?]).

Lemma Aider_one_call E request st res st' :
  Aider.evaluate_single E request st = (res, st') ->
  one_call E request st res st'.
Proof.
  unfold Aider.evaluate_single. one_call_steps. cbv zeta.
  apply one_call_final. intros result. cbn. eauto.
Qed.

Lemma MHPP_one_call E request st res st' :
  MHPP.evaluate_single E request st = (res, st') ->
  one_call E request st res st'.
Proof.
  unfold MHPP.evaluate_single. one_call_steps.
  apply one_call_bind.
  { destruct (negb _); [auto with quiet|].
    apply quiet_bind; auto with quiet. }
  intros code. cbv zeta.
  apply one_call_final. intros result. cbn. eauto.
Qed.

Lemma LiveCodeBench_one_call E TEST_UTIL request st res st' :
  LiveCodeBench.evaluate_single E TEST_UTIL request st = (res, st') ->
  one_call E request st res st'.
Proof.
  unfold LiveCodeBench.evaluate_single. one_call_steps. cbv zeta.
  one_call_steps.
  apply one_call_final. intros result. cbn. eauto.
Qed.

(** X16.  Every run of the three [evaluate_single], whatever the tables, the
    request and the environment: the tables are left as they were and the
    sandbox is called at most once.  A result that is returned carries the
    id of the request, is accepted exactly when the status of that one call
    is Success, and has one test case that says the same and holds the
    response.  A fault raised after the call is the fault of the call,
    passed on as it is. *)
Theorem evaluate_single_one_sandbox_call E TEST_UTIL request st res st'
    (Hrun : Aider.evaluate_single E request st = (res, st')
            \/ MHPP.evaluate_single E request st = (res, st')
            \/ LiveCodeBench.evaluate_single E TEST_UTIL request st = (res, st')) :
  tables st' = tables st
  /\ match res with
     | Ret r =>
         exists req result,
           sent st' = (sent st ++ [req])%list
           /\ sandbox E req = Ret result
           /\ res_id r = id request
           /\ accepted r = RunStatus_eqb (status result) Success
           /\ exists info,
               tests r = [ {| passed := accepted r;
                              exec_info := Some result;
                              test_info := info |} ]
     | Raise e =>
         sent st' = sent st
         \/ exists req, sent st' = (sent st ++ [req])%list
                        /\ sandbox E req = Raise e
     end.
Proof.
  destruct Hrun as [H|[H|H]].
  - exact (Aider_one_call _ _ _ _ _ H).
  - exact (MHPP_one_call _ _ _ _ _ H).
  - exact (LiveCodeBench_one_call _ _ _ _ _ _ H).
Qed.

Lemma evaluate_single_one_sandbox_call_witness :
  let E := Examples.env "x=1" in
  let request := Examples.request "mhpp" "reply" None in
  let run := MHPP.evaluate_single E request Examples.db in
  let r := Examples.returned Examples.no_result run in
  tables (snd run) = tables Examples.db
  /\ exists req result,
       sent (snd run) = (sent Examples.db ++ [req])%list
       /\ sandbox E req = Ret result
       /\ res_id r = id request
       /\ accepted r = RunStatus_eqb (status result) Success
       /\ exists info,
           tests r = [ {| passed := accepted r;
                          exec_info := Some result;
                          test_info := info |} ].
Proof.
  intros E request run r.
  apply (evaluate_single_one_sandbox_call E "" request Examples.db (Ret r) (snd run)).
  right; left. vm_compute. reflexivity.
Defined.

End VerdictFacts.

(** ** Bounds and edges of the requests sent *)

Module RequestEdgeFacts.
Import Py Types Adapter Spec.

(** X17.  The time LiveCodeBench's [evaluate_single] asks the sandbox for never
    exceeds 315 seconds, and it is at least 5 seconds whenever the
    configured [run_timeout] is absent or not below -1. *)
Theorem live_code_bench_timeout_bounds E TEST_UTIL request st res st' req
    (Hrun : LiveCodeBench.evaluate_single E TEST_UTIL request st = (res, st'))
    (Hsent : sent st' = (sent st ++ [req])%list) :
  (req_run_timeout req <= 315)%Z
  /\ ((forall t, run_timeout (config request) = Some t -> (-1 <= t)%Z) ->
      (5 <= req_run_timeout req)%Z).
Proof.
  apply AdapterFacts.LiveCodeBench_evaluate_single_inv in Hrun
    as [_ [[Hnone _] | Hone]].
  { rewrite Hnone in Hsent. now apply AdapterFacts.sent_none_inv in Hsent. }
  destruct Hone as (row & text & test_cases & io_text & input_output & inputs
                    & test_cnt & code & _ & _ & _ & _ & _ & _ & Hlen & _ & Hreq & _).
  rewrite Hsent in Hreq. apply AdapterFacts.sent_one_inv in Hreq. subst req.
  cbn [req_run_timeout].
  assert (Hcnt : (0 <= test_cnt)%Z).
  { unfold LiveCodeBench.len in Hlen.
    destruct inputs; try discriminate Hlen; injection Hlen as <-; lia. }
  split; [lia|]. intros Hcfg.
  assert (Ht : (-1 <= or_int (run_timeout (config request)) 6)%Z).
  { unfold or_int. destruct (run_timeout (config request)) as [t|]; [|lia].
    specialize (Hcfg t eq_refl). destruct (t =? 0)%Z; lia. }
  nia.
Qed.

Lemma live_code_bench_timeout_bounds_witness :
  let request := Examples.request "live_code_bench_v1" "print(1)" (Some 1000%Z) in
  let run := LiveCodeBench.evaluate_single (Examples.env "print(1)") "" request
               Examples.db in
  exists req,
    sent (snd run) = [req]
    /\ req_run_timeout req = 315%Z
    /\ (req_run_timeout req <= 315)%Z
    /\ ((forall t, run_timeout (config request) = Some t -> (-1 <= t)%Z) ->
        (5 <= req_run_timeout req)%Z).
Proof.
  intros request run.
  eexists. split; [vm_compute; reflexivity|]. split; [reflexivity|].
  apply (live_code_bench_timeout_bounds (Examples.env "print(1)") "" request
           Examples.db (fst run) (snd run)).
  - vm_compute. reflexivity.
  - vm_compute. reflexivity.
Defined.

(** X18.  When the stored template of an Aider problem has no [#<INSERT>]
    marker, the extracted code goes nowhere: [full_code] and the program
    sent to the sandbox are the template as it is, whatever the completion
    was. *)
Theorem aider_template_without_marker E request st r st'
    row text test template
    (Hrun : Aider.evaluate_single E request st = (Ret r, st'))
    (Hrow : stored_row st "code_eval_aider_benchmark_v1" request = Some row)
    (Htext : row !! "test" = Some text)
    (Htest : json_loads E text = Ret test)
    (Hcode : getitem test "code" = Ret (JStr template))
    (Hplain : contains "#<INSERT>" template = false) :
  full_code r = Some template
  /\ exists req, sent st' = (sent st ++ [req])%list
                 /\ Types.code req = template.
Proof.
  apply AdapterFacts.Aider_evaluate_single_inv in Hrun
    as [_ [[_ [e [=]]] | Hone]].
  destruct Hone as (row' & text' & test' & template' & asset & code & Hrow'
                    & Htext' & Htest' & Hcode' & _ & _ & Hsent & Hres).
  assert (template' = template) as -> by congruence.
  assert (Hrep : replace "#<INSERT>" code template = template)
    by (apply (ReplaceFacts.replace_from_absent _ _ _ Hplain)).
  destruct (sandbox E _) as [result|e]; [|discriminate Hres].
  destruct Hres as (r0 & [= <-] & _ & _ & Hfull & _).
  rewrite Hrep in Hfull, Hsent.
  split; [exact Hfull|]. eexists. split; [exact Hsent | reflexivity].
Qed.

Lemma aider_template_without_marker_witness :
  let request := Examples.request "aider_benchmark_v1" "reply" None in
  let run := Aider.evaluate_single AdapterExamples.env request AdapterExamples.db in
  let r := Examples.returned Examples.no_result run in
  full_code r = Some "print('fixed')"
  /\ exists req, sent (snd run) = (sent AdapterExamples.db ++ [req])%list
                 /\ Types.code req = "print('fixed')".
Proof.
  intros request run r.
  apply (aider_template_without_marker AdapterExamples.env request
           AdapterExamples.db r (snd run)
           (Examples.row "{plain}") "{plain}"
           (JObj [("code", JStr "print('fixed')"); ("asset", JObj [])])
           "print('fixed')");
    vm_compute; reflexivity.
Defined.

End RequestEdgeFacts.

(** ** The prompt of an MHPP problem *)

Module MHPPPromptFacts.
Import Py Types Adapter Spec MHPPPrompt StringFacts.

Lemma rfind_from_found (sub s : string) (k j : nat) :
  j <= k ->
  startswith sub (drop j s) = true ->
  (forall i, j < i -> i <= k -> startswith sub (drop i s) = false) ->
  rfind_from sub s k = Some j.
Proof.
  induction k as [|k IH]; intros Hj Hat Hlater; cbn [rfind_from].
  - assert (j = 0) as -> by lia. now rewrite Hat.
  - destruct (Nat.eq_dec j (S k)) as [->|Hne]; [now rewrite Hat|].
    rewrite Hlater by lia. apply IH; [lia | exact Hat |].
    intros i ? ?. apply Hlater; lia.
Qed.

Lemma contains_drop (sub s : string) (k : nat) :
  startswith sub (drop k s) = true -> contains sub s = true.
Proof.
  revert s; induction k as [|k IH]; intros s H.
  - rewrite drop_0 in H. now apply ExtractFacts.contains_head.
  - destruct s as [|c s]; [now apply ExtractFacts.contains_head|].
    rewrite ReplaceFacts.contains_cons. simpl in H.
    rewrite (IH _ H). apply orb_true_r.
Qed.

Lemma rfind_from_absent (sub s : string) (k : nat) :
  contains sub s = false -> rfind_from sub s k = None.
Proof.
  intros Habs. induction k as [|k IH]; cbn [rfind_from];
    destruct (startswith sub (drop _ s)) eqn:H; try assumption; try reflexivity;
    apply contains_drop in H; congruence.
Qed.

(** X19.  The prompt of an MHPP problem, when [pretrain_mode] is absent from the
    configuration or false, is the stored content cut at its last three double quotes, followed by an
    example line made of the first line of the stored test and three double
    quotes of its own: what the content had after them is dropped.  A
    content that has no three double quotes in it loses its last character
    instead. *)
Theorem mhpp_prompt_cut float_nonzero E row config
    (tests content i labels_text : string) (l : json)
    (Htest : row !! "test" = Some tests)
    (Hcontent : row !! "content" = Some content)
    (Hid : row !! "id" = Some i)
    (Hlabels : row !! "labels" = Some labels_text)
    (Hloads : json_loads E labels_text = Ret l)
    (Hmode : forall j, assoc "pretrain_mode" (extra config) = Some j ->
                       truthy float_nonzero j = false) :
  (forall head tail,
     content = head ++ QQQ ++ tail ->
     (forall k, 0 < k -> k <= String.length (QQQ ++ tail) ->
                startswith QQQ (drop k (QQQ ++ tail)) = false) ->
     _generate_single_prompt float_nonzero E row config
     = Ret {| id := i;
              prompt := head ++ example_line (hd "" (split LF tests));
              labels := l |})
  /\ (contains QQQ content = false ->
      _generate_single_prompt float_nonzero E row config
      = Ret {| id := i;
               prompt := take (String.length content - 1) content
                         ++ example_line (hd "" (split LF tests));
               labels := l |}).
Proof.
  unfold _generate_single_prompt, item.
  assert (Hplain : match assoc "pretrain_mode" (extra config) with
                   | Some j =>
                       if truthy float_nonzero j then
                         content ← match row !! "content" with
                                   | Some v => Ret v
                                   | None => Raise (KeyError "content")
                                   end;
                         default_extract_helper E content "python" None
                       else match row !! "content" with
                            | Some v => Ret v
                            | None => Raise (KeyError "content")
                            end
                   | None => match row !! "content" with
                             | Some v => Ret v
                             | None => Raise (KeyError "content")
                             end
                   end = Ret content).
  { destruct (assoc "pretrain_mode" (extra config)) as [j|];
      [rewrite (Hmode j eq_refl)|]; now rewrite Hcontent. }
  rewrite Htest, Hplain, Hid, Hlabels.
  cbn [mbind outcome_bind]. rewrite Hloads. cbn [mbind outcome_bind].
  split.
  - intros head tail -> Hlast.
    assert (Hr : rfind QQQ (head ++ QQQ ++ tail) = Z.of_nat (String.length head)).
    { unfold rfind, Spec.rfind.
      rewrite (rfind_from_found _ _ _ (String.length head)); [reflexivity | | |].
      - rewrite length_app. lia.
      - rewrite drop_app. apply startswith_app.
      - intros k Hk Hle.
        replace k with (String.length head + (k - String.length head)) by lia.
        rewrite <- drop_drop, drop_app. apply Hlast; [lia|].
        rewrite length_app in Hle. lia. }
    rewrite Hr. unfold slice_to, slice_index.
    destruct (Z.ltb_spec (Z.of_nat (String.length head)) 0) as [?|_]; [lia|].
    rewrite Nat2Z.id, Nat.min_l by (rewrite length_app; lia).
    now rewrite take_app.
  - intros Habs.
    assert (Hr : rfind QQQ content = (-1)%Z).
    { unfold rfind, Spec.rfind. now rewrite rfind_from_absent. }
    rewrite Hr. unfold slice_to, slice_index. cbn [Z.ltb Z.compare].
    replace (Z.to_nat (Z.max (Z.of_nat (String.length content) + -1) 0))
      with (String.length content - 1) by lia.
    reflexivity.
Qed.


Lemma mhpp_prompt_cut_witness :
  _generate_single_prompt MHPPExamples.never (Examples.env "x=1")
    MHPPExamples.documented MHPPExamples.off_config
  = Ret {| id := "7";
           prompt := "def f(x):" ++ NL ++ "    " ++ QQQ ++ " Doubles x. "
                     ++ NL ++ "    e.g. assert f(1) == 2 " ++ QQQ;
           labels := JObj [] |}
  /\ _generate_single_prompt MHPPExamples.never (Examples.env "x=1")
       MHPPExamples.undocumented MHPPExamples.plain_config
     = Ret {| id := "8";
              prompt := "def g(x)" ++ NL ++ "    e.g. assert g(1) == 1 " ++ QQQ;
              labels := JObj [] |}.
Proof.
  split.
  - apply (proj1 (mhpp_prompt_cut MHPPExamples.never (Examples.env "x=1")
                    MHPPExamples.documented MHPPExamples.off_config
                    ("assert f(1) == 2" ++ NL ++ "assert f(2) == 4")
                    ("def f(x):" ++ NL ++ "    " ++ QQQ ++ " Doubles x. " ++ QQQ ++ NL)
                    "7" "{}" (JObj [])
                    eq_refl eq_refl eq_refl eq_refl eq_refl
                    ltac:(intros j [= <-]; reflexivity))
             ("def f(x):" ++ NL ++ "    " ++ QQQ ++ " Doubles x. ") NL).
    + reflexivity.
    + intros k H0 Hk. simpl in Hk.
      do 5 (destruct k as [|k]; [try lia; try reflexivity|]). lia.
  - apply (proj2 (mhpp_prompt_cut MHPPExamples.never (Examples.env "x=1")
                    MHPPExamples.undocumented MHPPExamples.plain_config
                    "assert g(1) == 1" "def g(x):" "8" "{}" (JObj [])
                    eq_refl eq_refl eq_refl eq_refl eq_refl
                    ltac:(discriminate))).
    reflexivity.
Defined.

End MHPPPromptFacts.

(** ** [get_categories] *)

Module CategoriesFacts.
Import Py Types Categories.

Section groups.
Context (key_eqb : json -> json -> bool).
Hypothesis key_sym : forall a b, key_eqb a b = key_eqb b a.
Hypothesis key_trans :
  forall a b c, key_eqb a b = true -> key_eqb b c = true -> key_eqb a c = true.

Lemma members_append_to cate r d c :
  members key_eqb c (append_to key_eqb cate r d)
  = (members key_eqb c d ++ if key_eqb c cate then [r] else [])%list.
Proof.
  induction d as [|[c0 rs] d IH]; cbn [append_to members].
  - rewrite (key_sym cate c). now destruct (key_eqb c cate).
  - destruct (key_eqb c0 cate) eqn:H0; cbn [members];
      destruct (key_eqb c0 c) eqn:Hc.
    + assert (key_eqb c cate = true) as ->; [|reflexivity].
      apply (key_trans _ c0); [now rewrite key_sym | exact H0].
    + destruct (key_eqb c cate) eqn:Hcc; [|now rewrite List.app_nil_r].
      rewrite key_sym in Hcc.
      rewrite (key_trans _ _ _ H0 Hcc) in Hc. discriminate.
    + destruct (key_eqb c cate) eqn:Hcc; [|now rewrite List.app_nil_r].
      rewrite (key_trans _ _ _ Hc Hcc) in H0. discriminate.
    + exact IH.
Qed.

Lemma append_to_nonempty cate r d :
  Forall (fun kv => snd kv <> []) d ->
  Forall (fun kv => snd kv <> []) (append_to key_eqb cate r d).
Proof.
  induction 1 as [|[c0 rs] d H0 Hd IH]; cbn [append_to].
  - repeat constructor. discriminate.
  - destruct (key_eqb c0 cate); constructor; auto.
    cbn. now destruct rs.
Qed.

Lemma collect_groups results :
  forall done d cats,
    (forall c, members key_eqb c d = List.filter (of_category key_eqb c) done) ->
    Forall (fun kv => snd kv <> []) d ->
    collect key_eqb results d = Ret cats ->
    (forall c, members key_eqb c cats
               = List.filter (of_category key_eqb c) (done ++ results)%list)
    /\ Forall (fun kv => snd kv <> []) cats
    /\ Forall (fun r => exists k, difficulty_type r = Ret k /\ hashable k = true)
         results.
Proof.
  induction results as [|r rest IH]; intros done d cats Hd Hne; cbn [collect].
  - intros [= <-]. rewrite List.app_nil_r. auto.
  - destruct (difficulty_type r) as [cate|e] eqn:Hcat; [|discriminate].
    cbn [mbind outcome_bind].
    destruct (hashable cate) eqn:Hhash; [|discriminate].
    intros H.
    apply (IH (done ++ [r])%list) in H as (Hm & Hn & Hall).
    + rewrite <- List.app_assoc in Hm. split; [exact Hm|].
      split; [exact Hn|]. constructor; eauto.
    + intros c. rewrite members_append_to, Hd, List.filter_app.
      cbn [List.filter]. unfold of_category at 3. rewrite Hcat.
      now destruct (key_eqb c cate).
    + now apply append_to_nonempty.
Qed.

End groups.

(** X20.  When [get_categories] returns, the list it holds for any key is made
    of the results whose [difficulty_type] equals that key, all of them and
    in the order they came in; no list is empty, so a category without a
    result has no key; and every result had a first test case with a
    hashable [difficulty_type]. *)
Theorem get_categories_groups (key_eqb : json -> json -> bool)
    (results : list EvalResult) (cats : list (json * list EvalResult))
    (Hsym : forall a b, key_eqb a b = key_eqb b a)
    (Htrans : forall a b c,
        key_eqb a b = true -> key_eqb b c = true -> key_eqb a c = true)
    (Hret : get_categories key_eqb results = Ret cats) :
  (forall c, members key_eqb c cats = List.filter (of_category key_eqb c) results)
  /\ Forall (fun kv => snd kv <> []) cats
  /\ Forall (fun r => exists k, difficulty_type r = Ret k /\ hashable k = true)
       results.
Proof.
  apply (collect_groups key_eqb Hsym Htrans results [] [] cats);
    [reflexivity | constructor | exact Hret].
Qed.

Lemma text_eqb_sym a b : text_eqb a b = text_eqb b a.
Proof. destruct a, b; try reflexivity. apply String.eqb_sym. Qed.

Lemma text_eqb_trans a b c :
  text_eqb a b = true -> text_eqb b c = true -> text_eqb a c = true.
Proof.
  destruct a, b, c; try discriminate. cbn.
  intros ->%String.eqb_eq ->%String.eqb_eq. apply String.eqb_refl.
Qed.

Lemma get_categories_groups_witness :
  let results := [graded 1 "Shortcut"; graded 2 "Complex"; graded 3 "Shortcut"] in
  let cats := [(JStr "Shortcut", [graded 1 "Shortcut"; graded 3 "Shortcut"]);
               (JStr "Complex", [graded 2 "Complex"])] in
  get_categories text_eqb results = Ret cats
  /\ (forall c, members text_eqb c cats = List.filter (of_category text_eqb c) results)
  /\ Forall (fun kv => snd kv <> []) cats
  /\ Forall (fun r => exists k, difficulty_type r = Ret k /\ hashable k = true)
       results.
Proof.
  intros results cats. split; [reflexivity|].
  apply (get_categories_groups text_eqb results cats
           text_eqb_sym text_eqb_trans).
  reflexivity.
Defined.

End CategoriesFacts.

(** ** The text comparison of the harness *)

Module CompareFacts.
Import Py Compare StringFacts.

Lemma lstrip_blank (p s : string) : blank p = true -> lstrip (p ++ s) = lstrip s.
Proof.
  induction p as [|c p IH]; [reflexivity|].
  cbn [blank String.append lstrip]. intros [-> H]%andb_true_iff. now apply IH.
Qed.

Lemma rstrip_blank (q : string) : blank q = true -> rstrip q = "".
Proof.
  induction q as [|c q IH]; [reflexivity|].
  cbn [blank rstrip]. intros [-> H]%andb_true_iff. now rewrite IH.
Qed.

Lemma rstrip_app_blank (s q : string) :
  blank q = true -> rstrip (s ++ q) = rstrip s.
Proof.
  intros H. induction s as [|c s IH].
  - now apply rstrip_blank.
  - cbn [String.append rstrip]. now rewrite IH.
Qed.

Lemma strip_app_blank (s q : string) :
  blank q = true -> strip (s ++ q) = strip s.
Proof.
  intros H. unfold strip. induction s as [|c s IH].
  - cbn [String.append lstrip]. rewrite <- (app_nil_r q) at 1.
    now rewrite lstrip_blank.
  - cbn [String.append lstrip]. destruct (isspace c); [exact IH|].
    now apply (rstrip_app_blank (String c s)).
Qed.

Lemma strip_padded (p s q : string) :
  blank p = true -> blank q = true -> strip (p ++ s ++ q) = strip s.
Proof.
  intros Hp Hq. unfold strip at 1. rewrite lstrip_blank by exact Hp.
  now apply strip_app_blank.
Qed.

Lemma rstrip_idem (s : string) : rstrip (rstrip s) = rstrip s.
Proof.
  induction s as [|c s IH]; [reflexivity|].
  cbn [rstrip]. destruct (rstrip s) as [|d r] eqn:Hr.
  - destruct (isspace c) eqn:Hc; [reflexivity|]. cbn [rstrip]. now rewrite Hc.
  - cbn [rstrip]. cbn [rstrip] in IH. rewrite IH. reflexivity.
Qed.

Lemma lstrip_head (s : string) :
  lstrip s = "" \/ exists c t, lstrip s = String c t /\ isspace c = false.
Proof.
  induction s as [|c s IH]; [now left|].
  cbn [lstrip]. destruct (isspace c) eqn:Hc; [exact IH|]. right. eauto.
Qed.

Lemma strip_idem (s : string) : strip (strip s) = strip s.
Proof.
  unfold strip. destruct (lstrip_head s) as [->|(c & t & -> & Hc)]; [reflexivity|].
  assert (Hl : lstrip (rstrip (String c t)) = rstrip (String c t)).
  { cbn [rstrip]. destruct (rstrip t); rewrite ?Hc; cbn [lstrip]; now rewrite Hc. }
  rewrite Hl. apply rstrip_idem.
Qed.

(** X21.  White space around a text never matters to the comparison: padding
    either side of [stripped_string_compare] with white space, or the
    expected text of [custom_compare_], changes nothing, and an output of
    one line is accepted exactly when it equals the expected text once both
    are stripped. *)
Theorem surrounding_space_ignored (p q : string)
    (Hp : blank p = true) (Hq : blank q = true) :
  (forall s1 s2,
     stripped_string_compare (p ++ s1 ++ q) s2 = stripped_string_compare s1 s2
     /\ stripped_string_compare s1 (p ++ s2 ++ q) = stripped_string_compare s1 s2)
  /\ (forall output ground_truth,
        custom_compare_ output (p ++ ground_truth ++ q)
        = custom_compare_ output ground_truth)
  /\ (forall line ground_truth,
        custom_compare_ [p ++ line ++ q] ground_truth
        = String.eqb (strip line) (strip ground_truth)).
Proof.
  assert (Hleft : forall s1 s2,
            stripped_string_compare (p ++ s1 ++ q) s2
            = stripped_string_compare s1 s2).
  { intros s1 s2. unfold stripped_string_compare.
    change (String.eqb (strip (p ++ s1 ++ q)) (strip s2)
            = String.eqb (strip s1) (strip s2)).
    now rewrite strip_padded. }
  assert (Hright : forall s1 s2,
            stripped_string_compare s1 (p ++ s2 ++ q)
            = stripped_string_compare s1 s2).
  { intros s1 s2. unfold stripped_string_compare.
    change (String.eqb (strip s1) (strip (p ++ s2 ++ q))
            = String.eqb (strip s1) (strip s2)).
    now rewrite strip_padded. }
  split; [auto|]. split.
  - intros output ground_truth. unfold custom_compare_. now rewrite !Hright.
  - intros line ground_truth. unfold custom_compare_, join.
    cbn [map String.concat].
    change (rstrip (lstrip (p ++ line ++ q))) with (strip (p ++ line ++ q)).
    rewrite Hleft. unfold stripped_string_compare at 2.
    change (rstrip (lstrip (strip (p ++ line ++ q))))
      with (strip (strip (p ++ line ++ q))).
    rewrite strip_idem, strip_padded by assumption.
    unfold stripped_string_compare.
    change (rstrip (lstrip line)) with (strip line).
    change (rstrip (lstrip ground_truth)) with (strip ground_truth).
    now destruct (String.eqb (strip line) (strip ground_truth)).
Qed.

Lemma surrounding_space_ignored_witness :
  custom_compare_ ["  42 " ++ NL] "42"
  = String.eqb (strip "42") (strip "42")
  /\ custom_compare_ ["4"; "2"] (" " ++ "4" ++ NL ++ "2" ++ NL)
     = custom_compare_ ["4"; "2"] ("4" ++ NL ++ "2").
Proof.
  destruct (surrounding_space_ignored " " NL eq_refl eq_refl) as (_ & _ & Hline).
  destruct (surrounding_space_ignored " " NL eq_refl eq_refl) as (_ & Hgt & _).
  split.
  - exact (Hline " 42 " "42").
  - exact (Hgt ["4"; "2"] ("4" ++ NL ++ "2")).
Defined.

End CompareFacts.
